(** * Emission server: stage progression, invitations, project requests
      and emission accrual

    A shallow embedding of the request handlers of [server.js] that drive
    the project stage progression engine, together with the properties of
    the specification that concern them.

    - SQL statements become functions on a record of tables; a table is a
      list of rows, in storage order.
    - The callback chains of the handlers become computations in a small
      monad that threads the state of the MySQL connection and a script of
      outcomes of the calls made on it (success, an SQL error, or a lost
      connection).
    - JavaScript numbers are IEEE 754 doubles, modelled by primitive floats.
      The numeric type of the [carbon_emit] and [session_duration] columns
      is not fixed by the source; it is a parameter ([NumericColumn]). *)

From Stdlib Require Import ZArith List Ascii String Bool Floats Lia.
Import ListNotations.

Local Open Scope Z_scope.

Set Implicit Arguments.
Set Warnings "-inexact-float".

(** ** Values *)

(** Column arithmetic of the numeric columns of [user_history].  The table
    definitions are not part of the source, so the type of [carbon_emit] and
    [session_duration], the addition the server applies to them and the
    value a bound JavaScript number takes in them are parameters. *)
Class NumericColumn : Type := {
  num : Type;
  num_add : num -> num -> num;
  num_zero : num;
  num_bind : float -> num
}.

(** A JavaScript number is written into the statement text by its decimal
    representation; [NaN] and [Infinity] are not numeric literals of MySQL,
    so a statement that binds one of them is rejected by the server. *)
Definition sql_number (x : float) : option float :=
  if PrimFloat.is_finite x then Some x else None.

(** [a || b] on a nullable string: [null] and the empty string are falsy. *)
Definition str_or (a b : option string) : option string :=
  match a with
  | Some s => if String.eqb s "" then b else a
  | None => b
  end.

(** [!x] on a nullable string. *)
Definition str_falsy (a : option string) : bool :=
  match a with
  | Some s => String.eqb s ""
  | None => true
  end.

(** [a || b] on a nullable number: [null] and [0] are falsy. *)
Definition num_or (a : option Z) (b : Z) : Z :=
  match a with
  | Some 0 => b
  | Some n => n
  | None => b
  end.

(** SQL [col = ?] on a nullable string column against a bound string. *)
Definition sql_eq_str (col : option string) (v : string) : bool :=
  match col with
  | Some s => String.eqb s v
  | None => false
  end.

(** SQL [col = ?] on a nullable integer column. *)
Definition sql_eq_int (col : option Z) (v : Z) : bool :=
  match col with
  | Some n => Z.eqb n v
  | None => false
  end.

(** Time is a count of seconds; a date is a count of days.
    [isoDate t] is [t.toISOString().split('T')[0]], and
    [addDays t k] is [setDate(getDate() + k)] on a server whose local time
    is UTC. *)
Definition isoDate (t : Z) : Z := t / 86400.
Definition addDays (t k : Z) : Z := t + k * 86400.

(** The time value of a [Date] lies within 8.64e15 milliseconds of the
    epoch, that is 100,000,000 days; [setDate] beyond that leaves an invalid
    date, and so does [new Date(text)] for a text that is no date.
    [toISOString] throws a RangeError on an invalid date: [None]. *)
Definition valid_time (t : Z) : bool := Z.leb (Z.abs t) (100000000 * 86400).

Definition toISODate (t : Z) : option Z :=
  if valid_time t then Some (isoDate t) else None.

(** ** Names in a URL *)

(** The accrual handlers write the name of a component into the URL of a
    wattage endpoint as it is stored,
    [fetch(`https://emissionserver.vercel.app/cpu_usage?model=${cpu}`)],
    and the endpoint looks up [req.query.model].  What the endpoint reads
    there is the work of the URL parser of [fetch] and of the query parser
    of the server, which are not part of the source: it is a parameter.
    [None]: the endpoint reads no single text there.  Of the parsers only
    this is asked: a name of letters, digits, [-], [.], [_], [~] and spaces
    that does not end in a space arrives as it was written. *)
Definition unreserved (c : ascii) : bool :=
  let n := nat_of_ascii c in
  (Nat.leb 48 n && Nat.leb n 57) || (Nat.leb 65 n && Nat.leb n 90)
  || (Nat.leb 97 n && Nat.leb n 122)
  || Nat.eqb n 45 || Nat.eqb n 46 || Nat.eqb n 95 || Nat.eqb n 126.

Definition is_space (c : ascii) : bool := Nat.eqb (nat_of_ascii c) 32.

Definition plain_char (c : ascii) : bool := unreserved c || is_space c.

Fixpoint plain_chars (l : list ascii) : bool :=
  match l with
  | [] => true
  | [c] => unreserved c
  | c :: rest => plain_char c && plain_chars rest
  end.

Definition url_plain (name : string) : bool := plain_chars (list_ascii_of_string name).

Class UrlTransport : Type := {
  req_query_model : string -> option string;
  req_query_model_plain :
    forall name, url_plain name = true -> req_query_model name = Some name
}.

(** One such pair of parsers: the URL parser of the WHATWG standard, which
    [fetch] uses, and [qs], the extended query parser of Express and the
    default of Express 4, with the options Express gives it.  Texts are
    sequences of bytes, a character outside ASCII being its UTF-8
    encoding. *)

(** *** The query that [fetch] requests *)

(** The URL parser strips trailing spaces and control characters from its
    input, removes tabs and newlines, ends the query at the first [#] and
    percent-encodes controls, space, quotes, [#], [<], [>] and bytes outside
    ASCII. *)

Definition c0_or_space (c : ascii) : bool := Nat.leb (nat_of_ascii c) 32.

Definition tab_or_newline (c : ascii) : bool :=
  let n := nat_of_ascii c in Nat.eqb n 9 || Nat.eqb n 10 || Nat.eqb n 13.

Fixpoint strip_trailing (l : list ascii) : list ascii :=
  match l with
  | [] => []
  | c :: rest =>
      match strip_trailing rest with
      | [] => if c0_or_space c then [] else [c]
      | kept => c :: kept
      end
  end.

Fixpoint upto (stop : ascii) (l : list ascii) : list ascii :=
  match l with
  | [] => []
  | c :: rest => if Ascii.eqb c stop then [] else c :: upto stop rest
  end.

Definition query_encoded (c : ascii) : bool :=
  let n := nat_of_ascii c in
  Nat.leb n 32 || Nat.leb 127 n
  || Nat.eqb n 34 || Nat.eqb n 35 || Nat.eqb n 39 || Nat.eqb n 60 || Nat.eqb n 62.

Definition hex_char (n : nat) : ascii :=
  ascii_of_nat (if Nat.ltb n 10 then 48 + n else 55 + n).

Definition escape (c : ascii) : list ascii :=
  if query_encoded c
  then ["%"%char; hex_char (nat_of_ascii c / 16); hex_char (Nat.modulo (nat_of_ascii c) 16)]
  else [c].

Definition percent_encode (l : list ascii) : list ascii := flat_map escape l.

(** The query of [`...?model=${name}`]. *)
Definition query_sent (name : string) : list ascii :=
  (list_ascii_of_string "model="
   ++ percent_encode
        (upto "#" (filter (fun c => negb (tab_or_newline c))
                          (strip_trailing (list_ascii_of_string name)))))%list.

(** *** What the query parser reads *)

(** [str.replace(/%5B/gi, '[').replace(/%5D/gi, ']')] *)
Fixpoint decode_brackets (l : list ascii) : list ascii :=
  match l with
  | [] => []
  | c :: rest =>
      match rest with
      | five :: b :: rest' =>
          if Ascii.eqb c "%" && Ascii.eqb five "5" && (Ascii.eqb b "B" || Ascii.eqb b "b")
          then "["%char :: decode_brackets rest'
          else if Ascii.eqb c "%" && Ascii.eqb five "5" && (Ascii.eqb b "D" || Ascii.eqb b "d")
          then "]"%char :: decode_brackets rest'
          else c :: decode_brackets rest
      | _ => c :: decode_brackets rest
      end
  end.

Fixpoint split_on (sep : ascii) (l : list ascii) : list (list ascii) :=
  match l with
  | [] => [[]]
  | c :: rest =>
      match split_on sep rest with
      | [] => [[c]]
      | part :: parts => if Ascii.eqb c sep then [] :: part :: parts
                         else (c :: part) :: parts
      end
  end.

(** [part.indexOf(']=')] *)
Fixpoint bracket_equals (l : list ascii) : option nat :=
  match l with
  | [] => None
  | c :: rest =>
      match rest with
      | d :: _ => if Ascii.eqb c "]" && Ascii.eqb d "=" then Some O
                  else option_map S (bracket_equals rest)
      | [] => None
      end
  end.

(** [part.indexOf('=')] *)
Fixpoint equals (l : list ascii) : option nat :=
  match l with
  | [] => None
  | c :: rest => if Ascii.eqb c "=" then Some O else option_map S (equals rest)
  end.

(** A part is cut after the first [\]=] if it has one, else at its first
    [=]; a part with neither is a key with the empty text. *)
Definition key_and_value (part : list ascii) : list ascii * list ascii :=
  match bracket_equals part with
  | Some i => (firstn (S i) part, skipn (S (S i)) part)
  | None =>
      match equals part with
      | Some i => (firstn i part, skipn (S i) part)
      | None => (part, [])
      end
  end.

Definition hex_digit (c : ascii) : option nat :=
  let n := nat_of_ascii c in
  if Nat.leb 48 n && Nat.leb n 57 then Some (n - 48)%nat
  else if Nat.leb 65 n && Nat.leb n 70 then Some (n - 55)%nat
  else if Nat.leb 97 n && Nat.leb n 102 then Some (n - 87)%nat
  else None.

(** The escapes of a text decoded, when each [%] is followed by two
    hexadecimal digits. *)
Fixpoint percent_decode (l : list ascii) : option (list ascii) :=
  match l with
  | [] => Some []
  | c :: rest =>
      if Ascii.eqb c "%" then
        match rest with
        | h1 :: h2 :: rest' =>
            match hex_digit h1, hex_digit h2 with
            | Some a, Some b =>
                option_map (cons (ascii_of_nat (16 * a + b))) (percent_decode rest')
            | _, _ => None
            end
        | _ => None
        end
      else option_map (cons c) (percent_decode rest)
  end.

(** Valid UTF-8: the byte sequences of RFC 3629. *)
Inductive utf8_state :=
| Start
| Continue (lo hi : nat) (more : nat).

Definition utf8_step (st : utf8_state) (b : nat) : option utf8_state :=
  match st with
  | Start =>
      if Nat.leb b 127 then Some Start
      else if Nat.leb 194 b && Nat.leb b 223 then Some (Continue 128 191 0)
      else if Nat.eqb b 224 then Some (Continue 160 191 1)
      else if Nat.eqb b 237 then Some (Continue 128 159 1)
      else if Nat.leb 225 b && Nat.leb b 239 then Some (Continue 128 191 1)
      else if Nat.eqb b 240 then Some (Continue 144 191 2)
      else if Nat.leb 241 b && Nat.leb b 243 then Some (Continue 128 191 2)
      else if Nat.eqb b 244 then Some (Continue 128 143 2)
      else None
  | Continue lo hi more =>
      if Nat.leb lo b && Nat.leb b hi
      then Some match more with
                | O => Start
                | S m => Continue 128 191 m
                end
      else None
  end.

Fixpoint utf8_from (st : utf8_state) (l : list ascii) : bool :=
  match l with
  | [] => match st with
          | Start => true
          | Continue _ _ _ => false
          end
  | c :: rest =>
      match utf8_step st (nat_of_ascii c) with
      | Some st' => utf8_from st' rest
      | None => false
      end
  end.

(** [decodeURIComponent(str.replace(/\+/g, ' '))], and the text with its
    spaces, escapes undecoded, when that throws: an escape is malformed or
    the bytes are no UTF-8. *)
Definition decoder (l : list ascii) : list ascii :=
  let strWithoutPlus := map (fun c => if Ascii.eqb c "+" then " "%char else c) l in
  match percent_decode strWithoutPlus with
  | Some bytes => if utf8_from Start bytes then bytes else strWithoutPlus
  | None => strWithoutPlus
  end.

(** The values read under each key, in the order of the parts. *)
Fixpoint combine (key : string) (val : string) (obj : list (string * list string))
    : list (string * list string) :=
  match obj with
  | [] => [(key, [val])]
  | (k, vals) :: rest =>
      if String.eqb k key then (k, (vals ++ [val])%list) :: rest
      else (k, vals) :: combine key val rest
  end.

(** At most 1000 parts are read. *)
Definition parseValues (str : list ascii) : list (string * list string) :=
  fold_left (fun obj part =>
               let (key, val) := key_and_value part in
               combine (string_of_list_ascii (decoder key))
                       (string_of_list_ascii (decoder val)) obj)
            (firstn 1000 (split_on "&" (decode_brackets str))) [].

Definition bracket (c : ascii) : bool := Ascii.eqb c "[" || Ascii.eqb c "]".

(** The text before the first bracket, and the text from it. *)
Fixpoint before_bracket (l : list ascii) : list ascii * list ascii :=
  match l with
  | [] => ([], [])
  | c :: rest =>
      if bracket c then ([], l)
      else let (inside, from) := before_bracket rest in (c :: inside, from)
  end.

(** The first match of [/(\[[^[\]]*])/]: the text before it, the text
    between its brackets and the text after it. *)
Fixpoint segment (l : list ascii) : option (list ascii * list ascii * list ascii) :=
  match l with
  | [] => None
  | c :: rest =>
      let later := option_map (fun '(parent, inside, after) => (c :: parent, inside, after))
                              (segment rest) in
      if Ascii.eqb c "[" then
        match before_bracket rest with
        | (inside, close :: after) =>
            if Ascii.eqb close "]" then Some ([], inside, after) else later
        | (_, []) => later
        end
      else later
  end.

(** Where the values of a key go in [req.query]: under the name [top]
    itself, or further down in a value nested under [top].  A key without
    a bracketed segment is a name; the text before the first segment is the
    name the nesting starts from, and when there is none the first segment
    is. *)
Inductive place :=
| Under (top : string)
| Inside (top : string)
| Nowhere.

Definition parseKeys (givenKey : string) : place :=
  match list_ascii_of_string givenKey with
  | [] => Nowhere
  | key =>
      match segment key with
      | None => Under givenKey
      | Some ([], inside, after) =>
          match segment after with
          | None => Under (string_of_list_ascii inside)
          | Some _ => Inside (string_of_list_ascii inside)
          end
      | Some (parent, _, _) => Inside (string_of_list_ascii parent)
      end
  end.

Definition top_of (p : place) : option string :=
  match p with
  | Under top => Some top
  | Inside top => Some top
  | Nowhere => None
  end.

Definition reads_model (entry : string * list string) : bool :=
  match top_of (parseKeys (fst entry)) with
  | Some top => String.eqb top "model"
  | None => false
  end.

(** [req.query.model] is one text when one key puts one value under
    [model]; with more, or with nesting, it is a list or an object, which
    the statement of the endpoint cannot bind as one text, and with none it
    is undefined. *)
Definition received (name : string) : option string :=
  match filter reads_model (parseValues (query_sent name)) with
  | [(key, [val])] =>
      match parseKeys key with
      | Under _ => Some val
      | _ => None
      end
  | _ => None
  end.


(** The first case of [req_query_model] is a shortcut: [received] gives
    the same for these names ([received_plain] below). *)
#[export] Instance form_urlencoded : UrlTransport :=
  {| req_query_model := fun name => if url_plain name then Some name else received name;
     req_query_model_plain :=
       fun name H =>
         @eq_ind_r bool true
           (fun b : bool => (if b then Some name else received name) = Some name)
           eq_refl (url_plain name) H |}.

(** ** Tables *)

Record users_row := {
  u_id : Z;
  u_email : string;
  u_region : option string;
  u_current_device_id : option Z
}.

(** [ud_psu] holds [Number(psu)] of the stored text. *)
Record user_devices_row := {
  ud_id : Z;
  ud_cpu : string;
  ud_gpu : string;
  ud_ram : string;
  ud_psu : float
}.

(** A row of one of the wattage tables [cpus], [gpus], [cpusm], [gpusm] and
    [ram]: the key column ([model], or [ddr_generation] for [ram]) and the
    wattage column read as [avg_watt_usage]. *)
Record watt_row := {
  w_model : string;
  w_avg_watt_usage : float
}.

Record project_members_row := {
  pm_id : Z;
  pm_project_id : Z;
  pm_user_id : Z;
  pm_role : string;
  pm_current_stage : option string;
  pm_progress_status : option string;
  pm_joined_at : option Z
}.

Record project_stage_progress_row := {
  sp_project_id : Z;
  sp_user_id : Z;
  sp_stage : option string;
  sp_status : string;
  sp_start_date : Z;
  sp_completion_date : Z
}.

Record notifications_row := {
  n_id : Z;
  n_sender_id : Z;
  n_recipient_id : Z;
  n_project_id : Z;
  n_type : string;
  n_message : option string;
  n_status : option string;
  n_response : option string
}.

Record project_requests_row := {
  pr_id : Z;
  pr_user_id : Z;
  pr_title : string;
  pr_description : string;
  pr_project_stage : option string;
  pr_organization : option string;
  pr_stage_duration : option Z;
  pr_stage_start_date : option Z;
  pr_stage_due_date : option Z;
  pr_project_start_date : option Z;
  pr_project_due_date : option Z;
  pr_status : string;
  pr_reviewer_id : option Z;
  pr_review_notes : option string
}.

(** [callback(err, results)]. *)
Inductive result (R : Type) : Type :=
| Rows (r : R)
| Err.
Arguments Err {R}.

Section Server.

Context {NC : NumericColumn} {UT : UrlTransport}.

Record user_history_row := {
  uh_id : Z;
  uh_user_id : Z;
  uh_organization : option string;
  uh_project_name : string;
  uh_project_description : string;
  uh_stage : option string;
  uh_project_id : option Z;
  uh_status : option string;
  uh_carbon_emit : num;
  uh_session_duration : num;
  uh_stage_duration : option Z;
  uh_stage_start_date : option Z;
  uh_stage_due_date : option Z;
  uh_project_start_date : option Z;
  uh_project_due_date : option Z
}.

Record DB := {
  users : list users_row;
  user_devices : list user_devices_row;
  cpus : list watt_row;
  gpus : list watt_row;
  cpusm : list watt_row;
  gpusm : list watt_row;
  ram : list watt_row;
  user_history : list user_history_row;
  project_members : list project_members_row;
  project_stage_progress : list project_stage_progress_row;
  notifications : list notifications_row;
  project_requests : list project_requests_row
}.

Definition with_user_history (f : list user_history_row -> list user_history_row)
    (db : DB) : DB :=
  {| users := users db; user_devices := user_devices db; cpus := cpus db;
     gpus := gpus db; cpusm := cpusm db; gpusm := gpusm db; ram := ram db;
     user_history := f (user_history db);
     project_members := project_members db;
     project_stage_progress := project_stage_progress db;
     notifications := notifications db;
     project_requests := project_requests db |}.

Definition with_project_members
    (f : list project_members_row -> list project_members_row) (db : DB) : DB :=
  {| users := users db; user_devices := user_devices db; cpus := cpus db;
     gpus := gpus db; cpusm := cpusm db; gpusm := gpusm db; ram := ram db;
     user_history := user_history db;
     project_members := f (project_members db);
     project_stage_progress := project_stage_progress db;
     notifications := notifications db;
     project_requests := project_requests db |}.

Definition with_project_stage_progress
    (f : list project_stage_progress_row -> list project_stage_progress_row)
    (db : DB) : DB :=
  {| users := users db; user_devices := user_devices db; cpus := cpus db;
     gpus := gpus db; cpusm := cpusm db; gpusm := gpusm db; ram := ram db;
     user_history := user_history db;
     project_members := project_members db;
     project_stage_progress := f (project_stage_progress db);
     notifications := notifications db;
     project_requests := project_requests db |}.

Definition with_notifications
    (f : list notifications_row -> list notifications_row) (db : DB) : DB :=
  {| users := users db; user_devices := user_devices db; cpus := cpus db;
     gpus := gpus db; cpusm := cpusm db; gpusm := gpusm db; ram := ram db;
     user_history := user_history db;
     project_members := project_members db;
     project_stage_progress := project_stage_progress db;
     notifications := f (notifications db);
     project_requests := project_requests db |}.

Definition with_project_requests
    (f : list project_requests_row -> list project_requests_row) (db : DB) : DB :=
  {| users := users db; user_devices := user_devices db; cpus := cpus db;
     gpus := gpus db; cpusm := cpusm db; gpusm := gpusm db; ram := ram db;
     user_history := user_history db;
     project_members := project_members db;
     project_stage_progress := project_stage_progress db;
     notifications := notifications db;
     project_requests := f (project_requests db) |}.

(** The value of an AUTO_INCREMENT key for the next inserted row: an
    identifier above every one in the table. *)
Definition next_id {A} (key : A -> Z) (rows : list A) : Z :=
  1 + fold_right (fun r acc => Z.max (key r) acc) 0 rows.

(** The packet a data-changing statement answers with.  The driver connects
    with the FOUND_ROWS flag, so [affectedRows] counts the rows the WHERE
    clause matched. *)
Record OkPacket := {
  affectedRows : Z;
  insertId : Z
}.

(** ** The connection *)

(** The server holds one connection.  [cur] is the database as statements
    on that connection see it; [snap] is the committed database when a
    transaction is open on it. *)
Record Store := {
  cur : DB;
  snap : option DB
}.

(** What survives if the connection goes away now. *)
Definition durable (s : Store) : DB :=
  match snap s with
  | Some d => d
  | None => cur s
  end.

(** [createConnection] replaces the global connection by a new one: the
    transaction open on the old one is never committed, and the new
    connection starts outside any transaction, in autocommit mode. *)
Definition createConnection (s : Store) : Store :=
  {| cur := durable s; snap := None |}.

(** [connection.rollback(cb)]: the callback runs whatever the outcome, and
    nothing of the open transaction stays. *)
Definition rollback (s : Store) : Store :=
  {| cur := durable s; snap := None |}.

(** The outcome of one call on the connection: it succeeds, it fails with an
    SQL error, or it fails with one of the codes PROTOCOL_CONNECTION_LOST,
    ECONNRESET, ETIMEDOUT. *)
Inductive outcome := Ok | Fail | Lost.

(** Computations read the outcomes of their calls off a script; when the
    script is used up every further call succeeds. *)
Definition M (A : Type) : Type := list outcome -> Store -> A * list outcome * Store.

Definition ret {A} (a : A) : M A := fun os s => (a, os, s).

Definition bind {A B} (m : M A) (k : A -> M B) : M B :=
  fun os s => let '(a, os', s') := m os s in k a os' s'.

Notation "x <- m ;; k" := (bind m (fun x => k))
  (at level 61, m at next level, right associativity).
Notation "m ;;; k" := (bind m (fun _ => k))
  (at level 61, right associativity).

(** A statement with its parameters bound; [None] when the server rejects
    it. *)
Definition statement (R : Type) : Type := DB -> option (DB * R).

Definition execute {R} (q : statement R) : M (result R) :=
  fun os s =>
    match q (cur s) with
    | Some (d, r) => (Rows r, os, {| cur := d; snap := snap s |})
    | None => (Err, os, s)
    end.

(** [queryDatabase]: on a lost connection the wrapper reconnects and runs
    the statement again; every other error goes to the callback. *)
Fixpoint queryDatabase {R} (q : statement R) (os : list outcome) (s : Store)
    : result R * list outcome * Store :=
  match os with
  | [] => execute q [] s
  | Ok :: os' => execute q os' s
  | Fail :: os' => (Err, os', s)
  | Lost :: os' => queryDatabase q os' (createConnection s)
  end.

(** [connection.beginTransaction(cb)], called on the connection directly:
    [true] when the callback receives an error. *)
Definition beginTransaction : M bool :=
  fun os s =>
    match os with
    | [] => (false, [], {| cur := cur s; snap := Some (cur s) |})
    | Ok :: os' => (false, os', {| cur := cur s; snap := Some (cur s) |})
    | _ :: os' => (true, os', s)
    end.

(** [connection.commit(cb)]: [true] when the callback receives an error. *)
Definition commit : M bool :=
  fun os s =>
    match os with
    | [] => (false, [], {| cur := cur s; snap := None |})
    | Ok :: os' => (false, os', {| cur := cur s; snap := None |})
    | _ :: os' => (true, os', s)
    end.

Definition do_rollback : M unit := fun os s => (tt, os, rollback s).

(** What a handler answers: the HTTP status, the text of the body's [error],
    [status] or [message] field, the identifier the body carries
    ([newStageId], [projectId]) and the amount it carries
    ([carbonEmissions]).  [Crashed]: an exception escaped the callback and
    no answer was sent. *)
Inductive http_response :=
| Json (code : Z) (text : string) (ref : option Z) (amount : option float)
| Crashed.

Definition answer (code : Z) (text : string) : http_response := Json code text None None.

(** An exception a route handler throws before it returns is caught by
    Express, which answers with status 500 and a body that is not JSON. *)
Definition uncaught : http_response := Json 500 "" None None.

(** ** Completion evaluator *)

Definition is_owner (m : project_members_row) : bool :=
  String.eqb (pm_role m) "project_owner".

Definition stage_complete (m : project_members_row) : bool :=
  match pm_progress_status m with
  | Some st => String.eqb st "Stage Complete"
  | None => false
  end.

(** SELECT user_id, progress_status, role FROM project_members
    WHERE project_id = ? AND role != 'project_owner' *)
Definition getMembersQuery (projectId : Z) : statement (list project_members_row) :=
  fun db =>
    Some (db, filter (fun m => Z.eqb (pm_project_id m) projectId && negb (is_owner m))
                     (project_members db)).

Definition set_status (st : string) (h : user_history_row) : user_history_row :=
  {| uh_id := uh_id h; uh_user_id := uh_user_id h;
     uh_organization := uh_organization h;
     uh_project_name := uh_project_name h;
     uh_project_description := uh_project_description h;
     uh_stage := uh_stage h; uh_project_id := uh_project_id h;
     uh_status := Some st;
     uh_carbon_emit := uh_carbon_emit h;
     uh_session_duration := uh_session_duration h;
     uh_stage_duration := uh_stage_duration h;
     uh_stage_start_date := uh_stage_start_date h;
     uh_stage_due_date := uh_stage_due_date h;
     uh_project_start_date := uh_project_start_date h;
     uh_project_due_date := uh_project_due_date h |}.

Definition count {A} (p : A -> bool) (rows : list A) : Z :=
  Z.of_nat (List.length (filter p rows)).

Definition update_where {A} (p : A -> bool) (f : A -> A) (rows : list A) : list A :=
  map (fun r => if p r then f r else r) rows.

(** UPDATE user_history SET status = 'Complete' WHERE id = ? *)
Definition updateProjectQuery (projectId : Z) : statement OkPacket :=
  fun db =>
    let hit := fun h => Z.eqb (uh_id h) projectId in
    Some (with_user_history (update_where hit (set_status "Complete")) db,
          {| affectedRows := count hit (user_history db); insertId := 0 |}).

(** [checkAndUpdateProjectCompletion(projectId, callback)]: [Err] stands for
    [callback(err, false)], [Rows b] for [callback(null, b)]. *)
Definition checkAndUpdateProjectCompletion (projectId : Z) : M (result bool) :=
  r <- queryDatabase (getMembersQuery projectId) ;;
  match r with
  | Err => ret Err
  | Rows members =>
      if Nat.eqb (List.length members) 0 then ret (Rows false)
      else
        let allCompleted := forallb stage_complete members in
        if allCompleted then
          u <- queryDatabase (updateProjectQuery projectId) ;;
          match u with
          | Err => ret Err
          | Rows _ => ret (Rows true)
          end
        else ret (Rows false)
  end.

(** ** Stage transition: POST /complete_project/:id *)

(** SELECT ... FROM user_history uh JOIN users u ON uh.user_id = u.id
    WHERE uh.id = ? LIMIT 1 *)
Definition getCurrentProjectQuery (projectId : Z) : statement (list user_history_row) :=
  fun db =>
    Some (db,
          firstn 1
            (filter (fun h => Z.eqb (uh_id h) projectId
                              && existsb (fun u => Z.eqb (u_id u) (uh_user_id h)) (users db))
                    (user_history db))).

(** Modelled from the spec: the unique key of [project_stage_progress] is
    declared with the table, which the source does not contain; the audit
    row is keyed by (project, user, stage).  A NULL stage never collides. *)
Definition same_progress_key (projectId userId : Z) (stage : option string)
    (p : project_stage_progress_row) : bool :=
  Z.eqb (sp_project_id p) projectId && Z.eqb (sp_user_id p) userId
  && match stage, sp_stage p with
     | Some a, Some b => String.eqb a b
     | _, _ => false
     end.

Definition refresh_progress (now : Z) (p : project_stage_progress_row)
    : project_stage_progress_row :=
  {| sp_project_id := sp_project_id p; sp_user_id := sp_user_id p;
     sp_stage := sp_stage p; sp_status := "Complete";
     sp_start_date := sp_start_date p; sp_completion_date := now |}.

(** INSERT INTO project_stage_progress (...) VALUES (?, ?, ?, 'Complete', NOW(), NOW())
    ON DUPLICATE KEY UPDATE status = 'Complete', completion_date = NOW() *)
Definition completeCurrentStageQuery (projectId userId : Z) (stage : option string)
    (now : Z) : statement unit :=
  fun db =>
    let hit := same_progress_key projectId userId stage in
    if existsb hit (project_stage_progress db) then
      Some (with_project_stage_progress (update_where hit (refresh_progress now)) db, tt)
    else
      Some (with_project_stage_progress
              (fun rows => rows ++ [ {| sp_project_id := projectId; sp_user_id := userId;
                                        sp_stage := stage; sp_status := "Complete";
                                        sp_start_date := now;
                                        sp_completion_date := now |} ]) db, tt).

Definition set_progress (st : option string) (m : project_members_row)
    : project_members_row :=
  {| pm_id := pm_id m; pm_project_id := pm_project_id m; pm_user_id := pm_user_id m;
     pm_role := pm_role m; pm_current_stage := pm_current_stage m;
     pm_progress_status := st; pm_joined_at := pm_joined_at m |}.

Definition member_of (projectId userId : Z) (m : project_members_row) : bool :=
  Z.eqb (pm_project_id m) projectId && Z.eqb (pm_user_id m) userId.

(** UPDATE project_members SET progress_status = 'Stage Complete'
    WHERE project_id = ? AND user_id = ? AND role != 'project_owner' *)
Definition updateUserProgressQuery (projectId userId : Z) : statement unit :=
  fun db =>
    Some (with_project_members
            (update_where (fun m => member_of projectId userId m && negb (is_owner m))
                          (set_progress (Some "Stage Complete"%string))) db, tt).

(** SELECT id FROM user_history WHERE project_name = ? AND project_description = ?
    AND stage = ? AND (project_id = ? OR project_id IS NULL) LIMIT 1 *)
Definition next_stage_match (name description nextStage : string) (group : Z)
    (h : user_history_row) : bool :=
  String.eqb (uh_project_name h) name
  && String.eqb (uh_project_description h) description
  && sql_eq_str (uh_stage h) nextStage
  && match uh_project_id h with
     | Some g => Z.eqb g group
     | None => true
     end.

Definition checkExistingQuery (name description nextStage : string) (group : Z)
    : statement (list Z) :=
  fun db =>
    Some (db, map uh_id (firstn 1 (filter (next_stage_match name description nextStage group)
                                          (user_history db)))).

(** SELECT id FROM project_members WHERE project_id = ? AND user_id = ? *)
Definition checkMembershipQuery (projectId userId : Z) : statement (list Z) :=
  fun db => Some (db, map pm_id (filter (member_of projectId userId) (project_members db))).

(** Rows receive consecutive fresh identifiers in the order they are
    inserted. *)
Fixpoint number_from {A} (n : Z) (mk : list (Z -> A)) : list A :=
  match mk with
  | [] => []
  | f :: rest => f n :: number_from (n + 1) rest
  end.

Definition insert_rows {A} (key : A -> Z) (mk : list (Z -> A)) (rows : list A) : list A :=
  rows ++ number_from (next_id key rows) mk.

(** INSERT INTO project_members (project_id, user_id, role, current_stage, progress_status, joined_at)
    SELECT ?, user_id, role, ?, 'In Progress', NOW() FROM project_members
    WHERE project_id = ? AND user_id = ? *)
Definition addToNextStageQuery (existingProjectId : Z) (nextStage : string)
    (projectId userId now : Z) : statement unit :=
  fun db =>
    let copies :=
      map (fun m id =>
             {| pm_id := id; pm_project_id := existingProjectId;
                pm_user_id := pm_user_id m; pm_role := pm_role m;
                pm_current_stage := Some nextStage;
                pm_progress_status := Some "In Progress"%string;
                pm_joined_at := Some now |})
          (filter (member_of projectId userId) (project_members db)) in
    Some (with_project_members (insert_rows pm_id copies) db, tt).

(** UPDATE project_members SET progress_status = 'In Progress'
    WHERE project_id = ? AND user_id = ? *)
Definition updateUserStatusQuery (existingProjectId userId : Z) : statement unit :=
  fun db =>
    Some (with_project_members
            (update_where (member_of existingProjectId userId)
                          (set_progress (Some "In Progress"%string))) db, tt).

(** [stageStartDate.toISOString().split('T')[0]] and
    [stageDueDate.toISOString().split('T')[0]], in the order in which the
    parameters of [createNextStageQuery] are built: [stageStartDate] is the
    clock, [stageDueDate] is [stageStartDate] moved by
    [currentProject.stage_duration || 14] days.  [None] when one of the
    calls throws. *)
Definition next_stage_dates (currentProject : user_history_row) (now : Z)
    : option (Z * Z) :=
  match toISODate now with
  | Some stage_start_date =>
      match toISODate (addDays now (num_or (uh_stage_duration currentProject) 14)) with
      | Some stage_due_date => Some (stage_start_date, stage_due_date)
      | None => None
      end
  | None => None
  end.

(** The row of the next stage. *)
Definition next_stage_row (currentProject : user_history_row) (nextStage : string)
    (projectId stage_start_date stage_due_date : Z) (id : Z) : user_history_row :=
  {| uh_id := id;
     uh_user_id := uh_user_id currentProject;
     uh_organization := uh_organization currentProject;
     uh_project_name := uh_project_name currentProject;
     uh_project_description := uh_project_description currentProject;
     uh_stage := Some nextStage;
     uh_project_id := Some (num_or (uh_project_id currentProject) projectId);
     uh_status := Some "In Progress"%string;
     uh_carbon_emit := num_zero;
     uh_session_duration := num_zero;
     uh_stage_duration := uh_stage_duration currentProject;
     uh_stage_start_date := Some stage_start_date;
     uh_stage_due_date := Some stage_due_date;
     uh_project_start_date := uh_project_start_date currentProject;
     uh_project_due_date := uh_project_due_date currentProject |}.

(** INSERT INTO user_history (...) VALUES (?, ?, ?, ?, ?, ?, 'In Progress', 0, 0, ?, ?, ?, ?, ?) *)
Definition createNextStageQuery (currentProject : user_history_row) (nextStage : string)
    (projectId stage_start_date stage_due_date : Z) : statement OkPacket :=
  fun db =>
    let id := next_id uh_id (user_history db) in
    Some (with_user_history
            (fun rows => rows ++ [next_stage_row currentProject nextStage projectId
                                    stage_start_date stage_due_date id]) db,
          {| affectedRows := 1; insertId := id |}).

(** SELECT user_id, role FROM project_members WHERE project_id = ? *)
Definition transferMembersQuery (projectId : Z) : statement (list project_members_row) :=
  fun db => Some (db, filter (fun m => Z.eqb (pm_project_id m) projectId) (project_members db)).

(** One element of [memberValues]. *)
Definition memberValue (newProjectId : Z) (nextStage : string) (userId now : Z)
    (member : project_members_row) (id : Z) : project_members_row :=
  {| pm_id := id;
     pm_project_id := newProjectId;
     pm_user_id := pm_user_id member;
     pm_role := pm_role member;
     pm_current_stage := Some nextStage;
     pm_progress_status :=
       if String.eqb (pm_role member) "project_owner" then None
       else if Z.eqb (pm_user_id member) userId then Some "In Progress"%string
            else Some "Not Started"%string;
     pm_joined_at := Some now |}.

(** INSERT INTO project_members (...) VALUES ? *)
Definition addMembersQuery (memberValues : list (Z -> project_members_row))
    : statement unit :=
  fun db => Some (with_project_members (insert_rows pm_id memberValues) db, tt).

(** SELECT COUNT( * ) as count FROM project_members
    WHERE project_id = ? AND progress_status = 'Stage Complete' *)
Definition getCompletedUsersQuery (projectId : Z) : statement Z :=
  fun db =>
    Some (db, count (fun m => Z.eqb (pm_project_id m) projectId && stage_complete m)
                    (project_members db)).

(** SELECT COUNT( * ) as count FROM project_members WHERE project_id = ? *)
Definition totalMembersQuery (projectId : Z) : statement Z :=
  fun db => Some (db, count (fun m => Z.eqb (pm_project_id m) projectId) (project_members db)).

(** An error branch: [connection.rollback(() => res.status(code).json(...))]. *)
Definition rollback_with (code : Z) (text : string) : M http_response :=
  do_rollback ;;; ret (answer code text).

(** [connection.commit(err => ...)] followed by the answer of the branch. *)
Definition commit_with (ok : http_response) : M http_response :=
  e <- commit ;;
  if e : bool then rollback_with 500 "Failed to commit transaction" else ret ok.

Definition stage_answer (allCompleted : bool) (newStageId : Z) : http_response :=
  if allCompleted then Json 200 "Stage-Completed" (Some newStageId) None
  else Json 200 "Stage-User-Completed" (Some newStageId) None.

(** The branch taken when a row for the next stage exists. *)
Definition joinExistingStage (projectId userId : Z) (nextStage : string) (now : Z)
    (allCompleted : bool) (existingProjectId : Z) : M http_response :=
  r <- queryDatabase (checkMembershipQuery existingProjectId userId) ;;
  match r with
  | Err => rollback_with 500 "Failed to check membership"
  | Rows [] =>
      a <- queryDatabase (addToNextStageQuery existingProjectId nextStage projectId userId now) ;;
      match a with
      | Err => rollback_with 500 "Failed to add to next stage"
      | Rows _ => commit_with (stage_answer allCompleted existingProjectId)
      end
  | Rows (_ :: _) =>
      u <- queryDatabase (updateUserStatusQuery existingProjectId userId) ;;
      match u with
      | Err => rollback_with 500 "Failed to update user status"
      | Rows _ => commit_with (stage_answer allCompleted existingProjectId)
      end
  end.

(** The branch taken when no row for the next stage exists.  The dates are
    formatted inside the callback of [checkExistingQuery], before
    [createNextStageQuery] is sent: when [toISOString] throws there, no
    answer is sent and the transaction stays open. *)
Definition createNextStage (currentProject : user_history_row) (projectId userId : Z)
    (nextStage : string) (now : Z) (allCompleted : bool) : M http_response :=
  match next_stage_dates currentProject now with
  | None => ret Crashed
  | Some (stage_start_date, stage_due_date) =>
      c <- queryDatabase (createNextStageQuery currentProject nextStage projectId
                            stage_start_date stage_due_date) ;;
      match c with
      | Err => rollback_with 500 "Failed to create next stage project"
      | Rows insertResult =>
          let newProjectId := insertId insertResult in
          t <- queryDatabase (transferMembersQuery projectId) ;;
          match t with
          | Err => rollback_with 500 "Failed to get members to transfer"
          | Rows membersToTransfer =>
              let memberValues :=
                map (memberValue newProjectId nextStage userId now) membersToTransfer in
              if Nat.eqb (List.length memberValues) 0 then
                commit_with (Json 200 "Stage completed successfully" (Some newProjectId) None)
              else
                a <- queryDatabase (addMembersQuery memberValues) ;;
                match a with
                | Err => rollback_with 500 "Failed to transfer members"
                | Rows _ =>
                    n <- queryDatabase (getCompletedUsersQuery projectId) ;;
                    match n with
                    | Err => rollback_with 500 "Failed to count completed users"
                    | Rows _ =>
                        d <- queryDatabase (totalMembersQuery projectId) ;;
                        match d with
                        | Err => rollback_with 500 "Failed to count total users"
                        | Rows _ => commit_with (stage_answer allCompleted newProjectId)
                        end
                    end
                end
          end
      end
  end.

(** The handler.  [projectId] is the route parameter, [userId] the
    identifier in the token, [nextStage] and [currentStage] the fields of
    the body, [now] the clock. *)
Definition complete_project (projectId userId : Z) (nextStage currentStage : option string)
    (now : Z) : M http_response :=
  r <- queryDatabase (getCurrentProjectQuery projectId) ;;
  match r with
  | Err => ret (answer 500 "Failed to get current project")
  | Rows [] => ret (answer 404 "Project not found")
  | Rows (currentProject :: _) =>
      let nextProjectStage := str_or nextStage None in
      e <- beginTransaction ;;
      if e : bool then ret (answer 500 "Transaction error")
      else
        p <- queryDatabase (completeCurrentStageQuery projectId userId
                              (str_or currentStage (uh_stage currentProject)) now) ;;
        match p with
        | Err => rollback_with 500 "Failed to complete current stage"
        | Rows _ =>
            u <- queryDatabase (updateUserProgressQuery projectId userId) ;;
            match u with
            | Err => rollback_with 500 "Failed to update user progress"
            | Rows _ =>
                k <- checkAndUpdateProjectCompletion projectId ;;
                match k with
                | Err => rollback_with 500 "Failed to check project completion"
                | Rows allCompleted =>
                    match nextProjectStage with
                    | None =>
                        commit_with
                          (if allCompleted : bool then answer 200 "Project-Completed"
                           else answer 200 "User-Stage-Completed")
                    | Some next =>
                        x <- queryDatabase
                               (checkExistingQuery (uh_project_name currentProject)
                                  (uh_project_description currentProject) next
                                  (num_or (uh_project_id currentProject) projectId)) ;;
                        match x with
                        | Err => rollback_with 500 "Failed to check existing project"
                        | Rows (existingProjectId :: _) =>
                            joinExistingStage projectId userId next now allCompleted
                              existingProjectId
                        | Rows [] =>
                            createNextStage currentProject projectId userId next now
                              allCompleted
                        end
                    end
                end
            end
        end
  end.

(** ** Invitations: PUT /invitations/:id/respond *)

(** Modelled from the spec: the definition of [project_members] is not part
    of the source; a column an INSERT does not name takes its default, and
    the spec records that default as null. *)
Definition default_current_stage : option string := None.
Definition default_progress_status : option string := None.
Definition default_joined_at : option Z := None.

Definition set_response (response : option string) (n : notifications_row)
    : notifications_row :=
  {| n_id := n_id n; n_sender_id := n_sender_id n; n_recipient_id := n_recipient_id n;
     n_project_id := n_project_id n; n_type := n_type n; n_message := n_message n;
     n_status := Some "read"%string; n_response := response |}.

Definition addressed_to (notificationId userId : Z) (n : notifications_row) : bool :=
  Z.eqb (n_id n) notificationId && Z.eqb (n_recipient_id n) userId.

(** UPDATE notifications SET response = ?, status = 'read'
    WHERE id = ? AND recipient_id = ? *)
Definition updateNotificationQuery (response : option string) (notificationId userId : Z)
    : statement unit :=
  fun db =>
    Some (with_notifications
            (update_where (addressed_to notificationId userId) (set_response response)) db,
          tt).

(** SELECT project_id FROM notifications WHERE id = ? AND recipient_id = ? *)
Definition getProjectIdQuery (notificationId userId : Z) : statement (list Z) :=
  fun db =>
    Some (db, map n_project_id (filter (addressed_to notificationId userId) (notifications db))).

(** INSERT INTO project_members (project_id, user_id, role) VALUES (?, ?, 'member') *)
Definition insertMemberQuery (projectId userId : Z) : statement unit :=
  fun db =>
    Some (with_project_members
            (insert_rows pm_id
               [fun id => {| pm_id := id; pm_project_id := projectId; pm_user_id := userId;
                             pm_role := "member";
                             pm_current_stage := default_current_stage;
                             pm_progress_status := default_progress_status;
                             pm_joined_at := default_joined_at |}]) db,
          tt).

Definition is_accepted (response : option string) : bool :=
  match response with
  | Some r => String.eqb r "accepted"
  | None => false
  end.

Definition commit_response : M http_response :=
  e <- commit ;;
  if e : bool then rollback_with 500 "Transaction commit error"
  else ret (answer 200 "Invitation response recorded successfully").

(** The handler.  Reading [results[0].project_id] of an empty result throws
    inside the callback of the query, outside the [try]. *)
Definition respondToInvitation (notificationId userId : Z) (response : option string)
    : M http_response :=
  e <- beginTransaction ;;
  if e : bool then ret (answer 500 "Transaction error")
  else
    u <- queryDatabase (updateNotificationQuery response notificationId userId) ;;
    match u with
    | Err => rollback_with 500 "Transaction error"
    | Rows _ =>
        if is_accepted response then
          g <- queryDatabase (getProjectIdQuery notificationId userId) ;;
          match g with
          | Err => rollback_with 500 "Transaction error"
          | Rows [] => ret Crashed
          | Rows (projectId :: _) =>
              i <- queryDatabase (insertMemberQuery projectId userId) ;;
              match i with
              | Err => rollback_with 500 "Transaction error"
              | Rows _ => commit_response
              end
          end
        else commit_response
    end.

(** ** Direct assignment: POST /add_project_member *)

(** SELECT id FROM users WHERE email = ? *)
Definition findUserQuery (email : string) : statement (list Z) :=
  fun db => Some (db, map u_id (filter (fun u => String.eqb (u_email u) email) (users db))).

(** INSERT INTO project_members (project_id, user_id, role, joined_at) VALUES (?, ?, ?, NOW()) *)
Definition addMemberQuery (projectId userId : Z) (role : string) (now : Z) : statement unit :=
  fun db =>
    Some (with_project_members
            (insert_rows pm_id
               [fun id => {| pm_id := id; pm_project_id := projectId; pm_user_id := userId;
                             pm_role := role;
                             pm_current_stage := default_current_stage;
                             pm_progress_status := default_progress_status;
                             pm_joined_at := Some now |}]) db,
          tt).

(** SELECT u.name, u.email FROM project_members pm JOIN users u ON pm.user_id = u.id
    WHERE pm.project_id = ? *)
Definition listMembersQuery (projectId : Z) : statement (list project_members_row) :=
  fun db =>
    Some (db, filter (fun m => Z.eqb (pm_project_id m) projectId
                               && existsb (fun u => Z.eqb (u_id u) (pm_user_id m)) (users db))
                     (project_members db)).

(** The handler; the body fields [projectId], [userEmail] and [role] are
    required to be truthy. *)
Definition add_project_member (projectId : Z) (userEmail role : string) (now : Z)
    : M http_response :=
  if Z.eqb projectId 0 || String.eqb userEmail "" || String.eqb role "" then
    ret (answer 400 "Missing required fields")
  else
    f <- queryDatabase (findUserQuery userEmail) ;;
    match f with
    | Err => ret (answer 500 "Database error while finding user")
    | Rows [] => ret (answer 404 "User not found with the provided email")
    | Rows (userId :: _) =>
        c <- queryDatabase (checkMembershipQuery projectId userId) ;;
        match c with
        | Err => ret (answer 500 "Database error while checking existing member")
        | Rows (_ :: _) => ret (answer 400 "User is already a member of this project")
        | Rows [] =>
            a <- queryDatabase (addMemberQuery projectId userId role now) ;;
            match a with
            | Err => ret (answer 500 "Database error while adding member")
            | Rows _ =>
                l <- queryDatabase (listMembersQuery projectId) ;;
                match l with
                | Err => ret (answer 500 "Database error while fetching members")
                | Rows _ => ret (answer 200 "Member added successfully")
                end
            end
        end
    end.

(** ** Project requests: PUT /admin/project-requests/:id/approve and /reject *)

Definition decide (status : string) (reviewerId : Z) (review_notes : option string)
    (r : project_requests_row) : project_requests_row :=
  {| pr_id := pr_id r; pr_user_id := pr_user_id r; pr_title := pr_title r;
     pr_description := pr_description r; pr_project_stage := pr_project_stage r;
     pr_organization := pr_organization r; pr_stage_duration := pr_stage_duration r;
     pr_stage_start_date := pr_stage_start_date r;
     pr_stage_due_date := pr_stage_due_date r;
     pr_project_start_date := pr_project_start_date r;
     pr_project_due_date := pr_project_due_date r;
     pr_status := status; pr_reviewer_id := Some reviewerId;
     pr_review_notes := review_notes |}.

(** UPDATE project_requests SET status = <status>, reviewer_id = ?, review_notes = ?
    WHERE id = ? *)
Definition decideRequestQuery (status : string) (reviewerId : Z)
    (review_notes : option string) (requestId : Z) : statement OkPacket :=
  fun db =>
    let hit := fun r => Z.eqb (pr_id r) requestId in
    Some (with_project_requests (update_where hit (decide status reviewerId review_notes)) db,
          {| affectedRows := count hit (project_requests db); insertId := 0 |}).

(** SELECT * FROM project_requests WHERE id = ? *)
Definition getRequestQuery (requestId : Z) : statement (list project_requests_row) :=
  fun db => Some (db, filter (fun r => Z.eqb (pr_id r) requestId) (project_requests db)).

Definition requested_project (request : project_requests_row) (id : Z) : user_history_row :=
  {| uh_id := id;
     uh_user_id := pr_user_id request;
     uh_organization := pr_organization request;
     uh_project_name := pr_title request;
     uh_project_description := pr_description request;
     uh_stage := pr_project_stage request;
     uh_project_id := None;
     uh_status := Some "In Progress"%string;
     uh_carbon_emit := num_zero;
     uh_session_duration := num_zero;
     uh_stage_duration := pr_stage_duration request;
     uh_stage_start_date := pr_stage_start_date request;
     uh_stage_due_date := pr_stage_due_date request;
     uh_project_start_date := pr_project_start_date request;
     uh_project_due_date := pr_project_due_date request |}.

(** INSERT INTO user_history (...) VALUES (?, ..., 'In Progress', 0, 0) *)
Definition createProjectQuery (request : project_requests_row) : statement OkPacket :=
  fun db =>
    let id := next_id uh_id (user_history db) in
    Some (with_user_history (fun rows => rows ++ [requested_project request id]) db,
          {| affectedRows := 1; insertId := id |}).

Definition set_project_id (g : Z) (h : user_history_row) : user_history_row :=
  {| uh_id := uh_id h; uh_user_id := uh_user_id h;
     uh_organization := uh_organization h;
     uh_project_name := uh_project_name h;
     uh_project_description := uh_project_description h;
     uh_stage := uh_stage h; uh_project_id := Some g;
     uh_status := uh_status h;
     uh_carbon_emit := uh_carbon_emit h;
     uh_session_duration := uh_session_duration h;
     uh_stage_duration := uh_stage_duration h;
     uh_stage_start_date := uh_stage_start_date h;
     uh_stage_due_date := uh_stage_due_date h;
     uh_project_start_date := uh_project_start_date h;
     uh_project_due_date := uh_project_due_date h |}.

(** UPDATE user_history SET project_id = ? WHERE id = ? *)
Definition updateProjectIdQuery (projectId : Z) : statement unit :=
  fun db =>
    Some (with_user_history
            (update_where (fun h => Z.eqb (uh_id h) projectId) (set_project_id projectId)) db,
          tt).

(** INSERT INTO project_members (project_id, user_id, role, current_stage, progress_status)
    VALUES (?, ?, <role>, ?, 'In Progress') : the text of both [addOwnerQuery]
    and [addLeaderQuery]. *)
Definition addRoleQuery (role : string) (projectId userId : Z) (stage : option string)
    : statement unit :=
  fun db =>
    Some (with_project_members
            (insert_rows pm_id
               [fun id => {| pm_id := id; pm_project_id := projectId; pm_user_id := userId;
                             pm_role := role;
                             pm_current_stage := stage;
                             pm_progress_status := Some "In Progress"%string;
                             pm_joined_at := default_joined_at |}]) db,
          tt).

Definition addOwnerQuery := addRoleQuery "project_owner".
Definition addLeaderQuery := addRoleQuery "project_leader".

Definition approve_project_request (requestId reviewerId : Z) (review_notes : option string)
    : M http_response :=
  e <- beginTransaction ;;
  if e : bool then ret (answer 500 "Transaction error")
  else
    u <- queryDatabase (decideRequestQuery "approved" reviewerId review_notes requestId) ;;
    match u with
    | Err => rollback_with 500 "Database error"
    | Rows results =>
        if Z.eqb (affectedRows results) 0 then rollback_with 404 "Request not found"
        else
          g <- queryDatabase (getRequestQuery requestId) ;;
          match g with
          | Err => rollback_with 500 "Database error"
          | Rows [] => rollback_with 404 "Request not found"
          | Rows (request :: _) =>
              c <- queryDatabase (createProjectQuery request) ;;
              match c with
              | Err => rollback_with 500 "Database error"
              | Rows projectResult =>
                  let projectId := insertId projectResult in
                  i <- queryDatabase (updateProjectIdQuery projectId) ;;
                  match i with
                  | Err => rollback_with 500 "Failed to update project ID"
                  | Rows _ =>
                      o <- queryDatabase
                             (addOwnerQuery projectId (pr_user_id request)
                                (pr_project_stage request)) ;;
                      match o with
                      | Err => rollback_with 500 "Failed to add project owner"
                      | Rows _ =>
                          l <- queryDatabase
                                 (addLeaderQuery projectId (pr_user_id request)
                                    (pr_project_stage request)) ;;
                          match l with
                          | Err => rollback_with 500 "Failed to add project leader"
                          | Rows _ =>
                              k <- commit ;;
                              if k : bool then rollback_with 500 "Transaction error"
                              else
                                ret (Json 200
                                       "Project request approved and project created successfully"
                                       (Some projectId) None)
                          end
                      end
                  end
              end
          end
    end.

Definition reject_project_request (requestId reviewerId : Z) (review_notes : option string)
    : M http_response :=
  u <- queryDatabase (decideRequestQuery "rejected" reviewerId review_notes requestId) ;;
  match u with
  | Err => ret (answer 500 "Database error")
  | Rows results =>
      if Z.eqb (affectedRows results) 0 then ret (answer 404 "Request not found")
      else ret (answer 200 "Project request rejected successfully")
  end.

(** ** Project creation by an administrator: POST /admin/create_project *)

(** The fields of the body.  [None] is a field left out: [cp_stage_duration]
    then defaults to 14, [cp_stage_start_date] to today and
    [cp_project_start_date] to the start date of the stage. *)
Record create_project_body := {
  cp_project_name : string;
  cp_project_description : string;
  cp_status : option string;
  cp_stage : option string;
  cp_owner_email : string;
  cp_leader_email : option string;
  cp_members : list string;
  cp_organization : option string;
  cp_stage_duration : option Z;
  cp_stage_start_date : option Z;
  cp_stage_due_date : option Z;
  cp_project_start_date : option Z;
  cp_project_due_date : option Z
}.

Definition or_default (a : option Z) (b : Z) : Z :=
  match a with
  | Some x => x
  | None => b
  end.

(** A date of the body is the day its text denotes; a text that denotes no
    day of a [Date] is a day out of range.  [new Date(text)] is midnight of
    that day. *)
Definition date_of_day (d : Z) : Z := d * 86400.

(** [const due = new Date(text); due.setDate(due.getDate() + days);
    due.toISOString().split('T')[0]]: [None] when [toISOString] throws. *)
Definition days_after (d days : Z) : option Z :=
  if valid_time (date_of_day d) then toISODate (addDays (date_of_day d) days) else None.

(** [a || b()], where [b()] may throw and is called only if [a] is left
    out. *)
Definition or_else (a : option Z) (b : option Z) : option Z :=
  match a with
  | Some x => Some x
  | None => b
  end.

(** The timeline the handler computes before it opens the transaction. *)
Record project_timeline := {
  tl_stage_duration : Z;
  tl_stage_start_date : Z;
  tl_stage_due_date : Z;
  tl_project_start_date : Z;
  tl_project_due_date : Z
}.

(** The defaults of the destructuring and the two due dates, in the order
    of the source; [None] when one of the calls of [toISOString] that the
    body makes necessary throws. *)
Definition create_project_timeline (body : create_project_body) (now : Z)
    : option project_timeline :=
  let stage_duration := or_default (cp_stage_duration body) 14 in
  match or_else (cp_stage_start_date body) (toISODate now) with
  | None => None
  | Some stage_start_date =>
      let project_start_date := or_default (cp_project_start_date body) stage_start_date in
      match or_else (cp_stage_due_date body) (days_after stage_start_date stage_duration) with
      | None => None
      | Some finalStageDueDate =>
          match or_else (cp_project_due_date body) (days_after project_start_date 42) with
          | None => None
          | Some finalProjectDueDate =>
              Some {| tl_stage_duration := stage_duration;
                      tl_stage_start_date := stage_start_date;
                      tl_stage_due_date := finalStageDueDate;
                      tl_project_start_date := project_start_date;
                      tl_project_due_date := finalProjectDueDate |}
          end
      end
  end.

(** The row [createProjectQuery] of this handler inserts. *)
Definition created_project (body : create_project_body) (timeline : project_timeline)
    (ownerId id : Z) : user_history_row :=
  {| uh_id := id;
     uh_user_id := ownerId;
     uh_organization := cp_organization body;
     uh_project_name := cp_project_name body;
     uh_project_description := cp_project_description body;
     uh_stage := cp_stage body;
     uh_project_id := None;
     uh_status := cp_status body;
     uh_carbon_emit := num_zero;
     uh_session_duration := num_zero;
     uh_stage_duration := Some (tl_stage_duration timeline);
     uh_stage_start_date := Some (tl_stage_start_date timeline);
     uh_stage_due_date := Some (tl_stage_due_date timeline);
     uh_project_start_date := Some (tl_project_start_date timeline);
     uh_project_due_date := Some (tl_project_due_date timeline) |}.

(** INSERT INTO user_history (...) VALUES (?, ?, ?, ?, ?, ?, ?, ?, ?, ?, ?, 0, 0) *)
Definition adminCreateProjectQuery (body : create_project_body) (timeline : project_timeline)
    (ownerId : Z) : statement OkPacket :=
  fun db =>
    let id := next_id uh_id (user_history db) in
    Some (with_user_history (fun rows => rows ++ [created_project body timeline ownerId id]) db,
          {| affectedRows := 1; insertId := id |}).

(** SELECT id FROM users WHERE email = ?, with the leader's address, which
    may be missing. *)
Definition findLeaderQuery (leader_email : option string) : statement (list Z) :=
  fun db =>
    Some (db, map u_id (filter (fun u => sql_eq_str leader_email (u_email u)) (users db))).

(** INSERT INTO project_members (project_id, user_id, role, current_stage, progress_status, joined_at)
    VALUES (?, ?, 'project_owner', ?, NULL, NOW()) *)
Definition adminAddOwnerQuery (projectId ownerId : Z) (stage : option string) (now : Z)
    : statement unit :=
  fun db =>
    Some (with_project_members
            (insert_rows pm_id
               [fun id => {| pm_id := id; pm_project_id := projectId; pm_user_id := ownerId;
                             pm_role := "project_owner";
                             pm_current_stage := stage;
                             pm_progress_status := None;
                             pm_joined_at := Some now |}]) db,
          tt).

(** INSERT INTO project_members (project_id, user_id, role, current_stage, progress_status, joined_at)
    VALUES (?, ?, 'project_leader', ?, 'In Progress', NOW()) *)
Definition adminAddLeaderQuery (projectId leaderId : Z) (stage : option string) (now : Z)
    : statement unit :=
  fun db =>
    Some (with_project_members
            (insert_rows pm_id
               [fun id => {| pm_id := id; pm_project_id := projectId; pm_user_id := leaderId;
                             pm_role := "project_leader";
                             pm_current_stage := stage;
                             pm_progress_status := Some "In Progress"%string;
                             pm_joined_at := Some now |}]) db,
          tt).

(** SELECT email, id FROM users WHERE email IN (...) *)
Definition findMembersQuery (members : list string) : statement (list Z) :=
  fun db =>
    Some (db, map u_id (filter (fun u => existsb (String.eqb (u_email u)) members) (users db))).

(** INSERT INTO project_members (project_id, user_id, role, current_stage, progress_status)
    VALUES ?, with the rows [[projectId, member.id, 'member', stage, 'In Progress']]. *)
Definition adminAddMembersQuery (projectId : Z) (stage : option string) (ids : list Z)
    : statement unit :=
  fun db =>
    Some (with_project_members
            (insert_rows pm_id
               (map (fun userId id =>
                       {| pm_id := id; pm_project_id := projectId; pm_user_id := userId;
                          pm_role := "member";
                          pm_current_stage := stage;
                          pm_progress_status := Some "In Progress"%string;
                          pm_joined_at := default_joined_at |}) ids)) db,
          tt).

(** The transaction of the handler; it answers 200 with the fields of the
    project, of which the identifier is kept. *)
Definition create_project_with (body : create_project_body) (timeline : project_timeline)
    (now : Z) : M http_response :=
  let created := fun projectId : Z => Json 200 "" (Some projectId) None in
  e <- beginTransaction ;;
  if e : bool then ret (answer 500 "Transaction start failed")
  else
    o <- queryDatabase (findUserQuery (cp_owner_email body)) ;;
    match o with
    | Err | Rows [] => rollback_with 404 "Owner user not found"
    | Rows (ownerId :: _) =>
        l <- queryDatabase (findLeaderQuery (cp_leader_email body)) ;;
        let leaderId :=
          match l with
          | Rows (id :: _) => if str_falsy (cp_leader_email body) then None else Some id
          | _ => None
          end in
        match l, str_falsy (cp_leader_email body) with
        | Err, _ | Rows [], false => rollback_with 404 "Leader user not found"
        | Rows _, _ =>
            c <- queryDatabase (adminCreateProjectQuery body timeline ownerId) ;;
            match c with
            | Err => rollback_with 500 "Failed to create project"
            | Rows projectResult =>
                let projectId := insertId projectResult in
                i <- queryDatabase (updateProjectIdQuery projectId) ;;
                match i with
                | Err => rollback_with 500 "Failed to update project ID"
                | Rows _ =>
                    a <- queryDatabase
                           (adminAddOwnerQuery projectId ownerId (cp_stage body) now) ;;
                    match a with
                    | Err => rollback_with 500 "Failed to add project owner"
                    | Rows _ =>
                        match leaderId with
                        | Some 0 | None => commit_with (created projectId)
                        | Some leader =>
                            b <- queryDatabase
                                   (adminAddLeaderQuery projectId leader (cp_stage body)
                                      now) ;;
                            match b with
                            | Err => rollback_with 500 "Failed to add project leader"
                            | Rows _ =>
                                match cp_members body with
                                | [] => commit_with (created projectId)
                                | _ :: _ =>
                                    f <- queryDatabase (findMembersQuery (cp_members body)) ;;
                                    match f with
                                    | Err => rollback_with 500 "Failed to find project members"
                                    | Rows [] => commit_with (created projectId)
                                    | Rows (id :: ids) =>
                                        m <- queryDatabase
                                               (adminAddMembersQuery projectId
                                                  (cp_stage body) (id :: ids)) ;;
                                        match m with
                                        | Err =>
                                            rollback_with 500 "Failed to add project members"
                                        | Rows _ => commit_with (created projectId)
                                        end
                                    end
                                end
                            end
                        end
                    end
                end
            end
        end
    end.

(** The handler.  The timeline is computed first, outside the transaction
    and outside any [try]: when [toISOString] throws there, Express answers
    500 and no statement has been sent. *)
Definition create_project (body : create_project_body) (now : Z) : M http_response :=
  match create_project_timeline body now with
  | None => ret uncaught
  | Some timeline => create_project_with body timeline now
  end.

(** ** Emission accrual: POST /calculate_emissions and /calculate_emissionsM *)

(** What [carbonFactors[region] || 0.412] evaluates to: a number, or a
    member of [Object.prototype] that the lookup reaches through the
    prototype chain of the object literal. *)
Inductive carbon_factor :=
| Factor (x : float)
| Inherited.

Definition object_prototype : list string :=
  [ "constructor"; "__proto__"; "hasOwnProperty"; "isPrototypeOf";
    "propertyIsEnumerable"; "toLocaleString"; "toString"; "valueOf";
    "__defineGetter__"; "__defineSetter__"; "__lookupGetter__";
    "__lookupSetter__" ]%string.

Definition getCarbonFactor (region : option string) : carbon_factor :=
  match region with
  | None => Factor 0.412
  | Some r =>
      if String.eqb r "Singapore" then Factor 0.412
      else if String.eqb r "Philippines" then Factor 0.5246
      else if existsb (String.eqb r) object_prototype then Inherited
      else Factor 0.412
  end.

(** [x * carbonFactor]: a function or an object converts to [NaN]. *)
Definition times_factor (x : float) (f : carbon_factor) : float :=
  match f with
  | Factor y => PrimFloat.mul x y
  | Inherited => PrimFloat.nan
  end.

(** SELECT current_device_id, region FROM users WHERE id = ? *)
Definition deviceIdQuery (userId : Z) : statement (list users_row) :=
  fun db => Some (db, filter (fun u => Z.eqb (u_id u) userId) (users db)).

(** SELECT cpu, gpu, ram, psu FROM user_devices WHERE id = ? *)
Definition userQuery (currentDeviceId : Z) : statement (list user_devices_row) :=
  fun db => Some (db, filter (fun d => Z.eqb (ud_id d) currentDeviceId) (user_devices db)).

(** The handlers of /cpu_usage, /gpu_usage, /cpum_usage, /gpum_usage and
    /ram_usage answer with the wattage of the first row of their table whose
    key is the requested model, and with 404 when there is none. *)
Definition watt_usage (table : list watt_row) (model : string) : option float :=
  match filter (fun w => String.eqb (w_model w) model) table with
  | w :: _ => Some (w_avg_watt_usage w)
  | [] => None
  end.

(** What [fetch] of one of these endpoints answers for a name written into
    its URL: the wattage found under the text the endpoint reads as
    [req.query.model]; [None] when [response.ok] is false, which it is
    when the endpoint reads no text or finds no row.  The server deployed at
    that address is taken to be this program, on this database. *)
Definition usage_response (table : list watt_row) (model : string) : option float :=
  match req_query_model model with
  | Some key => watt_usage table key
  | None => None
  end.

Definition fetch_usage (table : DB -> list watt_row) (model : string) : M (option float) :=
  fun os s => (usage_response (table (cur s)) model, os, s).

Definition set_emissions (session carbon : num) (h : user_history_row) : user_history_row :=
  {| uh_id := uh_id h; uh_user_id := uh_user_id h;
     uh_organization := uh_organization h;
     uh_project_name := uh_project_name h;
     uh_project_description := uh_project_description h;
     uh_stage := uh_stage h; uh_project_id := uh_project_id h;
     uh_status := uh_status h;
     uh_carbon_emit := carbon;
     uh_session_duration := session;
     uh_stage_duration := uh_stage_duration h;
     uh_stage_start_date := uh_stage_start_date h;
     uh_stage_due_date := uh_stage_due_date h;
     uh_project_start_date := uh_project_start_date h;
     uh_project_due_date := uh_project_due_date h |}.

(** SET carbon_emit = carbon_emit + ? *)
Definition add_carbon (v : float) (h : user_history_row) : user_history_row :=
  set_emissions (uh_session_duration h) (num_add (uh_carbon_emit h) (num_bind v)) h.

(** SET session_duration = session_duration + ?, carbon_emit = carbon_emit + ? *)
Definition add_session_and_carbon (d v : float) (h : user_history_row) : user_history_row :=
  set_emissions (num_add (uh_session_duration h) (num_bind d))
                (num_add (uh_carbon_emit h) (num_bind v)) h.

(** WHERE id = ? AND (user_id = ? OR id IN (SELECT project_id FROM project_members WHERE user_id = ?)) *)
Definition owner_or_member (db : DB) (projectId userId : Z) (h : user_history_row) : bool :=
  Z.eqb (uh_id h) projectId
  && (Z.eqb (uh_user_id h) userId
      || existsb (fun m => Z.eqb (pm_user_id m) userId && Z.eqb (pm_project_id m) (uh_id h))
                 (project_members db)).

(** WHERE id = ? AND user_id = ? *)
Definition owned_by (projectId userId : Z) (h : user_history_row) : bool :=
  Z.eqb (uh_id h) projectId && Z.eqb (uh_user_id h) userId.

(** [updateProjectQuery] of /calculate_emissions:
    UPDATE user_history SET carbon_emit = carbon_emit + ? WHERE ... *)
Definition updateProjectEmissionsQuery (carbonEmissions : float) (projectId userId : Z)
    : statement unit :=
  fun db =>
    match sql_number carbonEmissions with
    | Some v =>
        Some (with_user_history
                (update_where (owner_or_member db projectId userId) (add_carbon v)) db, tt)
    | None => None
    end.

(** [updateQuery] of /calculate_emissionsM:
    UPDATE user_history SET session_duration = session_duration + ?,
    carbon_emit = carbon_emit + ? WHERE id = ? AND user_id = ? *)
Definition updateQuery (sessionDuration carbonEmissions : float) (projectId userId : Z)
    : statement unit :=
  fun db =>
    match sql_number sessionDuration, sql_number carbonEmissions with
    | Some d, Some v =>
        Some (with_user_history
                (update_where (owned_by projectId userId) (add_session_and_carbon d v)) db, tt)
    | _, _ => None
    end.

(** [!current_device_id]: null and 0 are falsy. *)
Definition device_set (u : users_row) : option Z :=
  match u_current_device_id u with
  | Some 0 => None
  | other => other
  end.

(** The arithmetic of /calculate_emissions. *)
Definition desktop_emissions (cpuWattUsage gpuWattUsage ramWattUsage psuWattUsage
    sessionDurationSeconds : float) (userRegion : option string) : float :=
  let totalWattUsage :=
    PrimFloat.add (PrimFloat.add (PrimFloat.add cpuWattUsage gpuWattUsage) ramWattUsage)
                  psuWattUsage in
  let totalEnergyUsed :=
    PrimFloat.mul (PrimFloat.div totalWattUsage 3600) sessionDurationSeconds in
  times_factor totalEnergyUsed (getCarbonFactor userRegion).

(** The arithmetic of /calculate_emissionsM. *)
Definition mobile_emissions (cpuWattage gpuWattage ramWattage sessionDuration : float)
    (userRegion : option string) : float :=
  let totalWattage := PrimFloat.add (PrimFloat.add cpuWattage gpuWattage) ramWattage in
  times_factor (PrimFloat.div (PrimFloat.mul totalWattage sessionDuration) 3600)
               (getCarbonFactor userRegion).

Definition calculate_emissions (userId projectId : Z) (sessionDuration : float)
    : M http_response :=
  i <- queryDatabase (deviceIdQuery userId) ;;
  match i with
  | Err => ret (answer 500 "Database error")
  | Rows [] => ret (answer 404 "Current device not set")
  | Rows (user :: _) =>
      match device_set user with
      | None => ret (answer 404 "Current device not set")
      | Some currentDeviceId =>
          q <- queryDatabase (userQuery currentDeviceId) ;;
          match q with
          | Err => ret (answer 500 "Database error")
          | Rows [] => ret (answer 404 "User device information not found")
          | Rows (device :: _) =>
              c <- fetch_usage cpus (ud_cpu device) ;;
              g <- fetch_usage gpus (ud_gpu device) ;;
              r <- fetch_usage ram (ud_ram device) ;;
              match c, g, r with
              | Some cpuWattUsage, Some gpuWattUsage, Some ramWattUsage =>
                  let carbonEmissions :=
                    desktop_emissions cpuWattUsage gpuWattUsage ramWattUsage
                      (ud_psu device) sessionDuration (u_region user) in
                  u <- queryDatabase
                         (updateProjectEmissionsQuery carbonEmissions projectId userId) ;;
                  match u with
                  | Err => ret (answer 500 "Database error")
                  | Rows _ => ret (Json 200 "" None (Some carbonEmissions))
                  end
              | _, _, _ => ret (answer 500 "Error fetching wattage data")
              end
          end
      end
  end.

Definition calculate_emissionsM (userId projectId : Z) (sessionDuration : float)
    : M http_response :=
  i <- queryDatabase (deviceIdQuery userId) ;;
  match i with
  | Err => ret (answer 500 "Database error")
  | Rows [] => ret (answer 404 "Current device not set")
  | Rows (user :: _) =>
      match device_set user with
      | None => ret (answer 404 "Current device not set")
      | Some currentDeviceId =>
          q <- queryDatabase (userQuery currentDeviceId) ;;
          match q with
          | Err => ret (answer 500 "Database error")
          | Rows [] => ret (answer 404 "User device information not found")
          | Rows (device :: _) =>
              c <- fetch_usage cpusm (ud_cpu device) ;;
              g <- fetch_usage gpusm (ud_gpu device) ;;
              r <- fetch_usage ram (ud_ram device) ;;
              match c, g, r with
              | Some cpuWattage, Some gpuWattage, Some ramWattage =>
                  let carbonEmissions :=
                    mobile_emissions cpuWattage gpuWattage ramWattage sessionDuration
                      (u_region user) in
                  u <- queryDatabase
                         (updateQuery sessionDuration carbonEmissions projectId userId) ;;
                  match u with
                  | Err => ret (answer 500 "Database error")
                  | Rows _ =>
                      ret (Json 200 "Carbon emissions calculated successfully" None
                             (Some carbonEmissions))
                  end
              | _, _, _ => ret (answer 500 "Error fetching wattage data from server")
              end
          end
      end
  end.

End Server.

(** ** Further handlers on projects, members, notifications and devices *)

Section Upkeep.

Context {NC : NumericColumn}.

Notation "x <- m ;; k" := (bind m (fun x => k))
  (at level 61, m at next level, right associativity).

(** Modelled from the spec: the definitions of [notifications] and
    [project_requests] are not part of the source; a notification starts
    unread and without a response, a request without reviewer and notes. *)
Definition default_notification_status : option string := Some "unread"%string.
Definition default_notification_response : option string := None.
Definition default_reviewer_id : option Z := None.
Definition default_review_notes : option string := None.

(** *** POST /send-invitation *)

(** INSERT INTO notifications (sender_id, recipient_id, project_id, type, message)
    VALUES (?, ?, ?, 'project_invitation', ?) *)
Definition createNotificationQuery (senderId recipientId projectId : Z)
    (message : option string) : statement OkPacket :=
  fun db =>
    let id := next_id n_id (notifications db) in
    Some (with_notifications
            (fun rows =>
               rows ++ [ {| n_id := id; n_sender_id := senderId;
                            n_recipient_id := recipientId; n_project_id := projectId;
                            n_type := "project_invitation"; n_message := message;
                            n_status := default_notification_status;
                            n_response := default_notification_response |} ]) db,
          {| affectedRows := 1; insertId := id |}).

Definition send_invitation (senderId : Z) (recipientEmail : string) (projectId : Z)
    (message : option string) : M http_response :=
  u <- queryDatabase (findUserQuery recipientEmail) ;;
  match u with
  | Err => ret (answer 500 "Database error")
  | Rows [] => ret (answer 404 "Recipient not found")
  | Rows (recipientId :: _) =>
      c <- queryDatabase (createNotificationQuery senderId recipientId projectId message) ;;
      match c with
      | Err => ret (answer 500 "Failed to send invitation")
      | Rows _ => ret (answer 200 "Invitation sent successfully")
      end
  end.

(** *** DELETE /remove_project_member *)

Definition delete_where {A} (p : A -> bool) (rows : list A) : list A :=
  filter (fun r => negb (p r)) rows.

(** DELETE FROM project_members WHERE project_id = ? AND user_id = ? *)
Definition removeMemberQuery (projectId userId : Z) : statement OkPacket :=
  fun db =>
    Some (with_project_members (delete_where (member_of projectId userId)) db,
          {| affectedRows := count (member_of projectId userId) (project_members db);
             insertId := 0 |}).

Definition remove_project_member (projectId userId : Z) : M http_response :=
  d <- queryDatabase (removeMemberQuery projectId userId) ;;
  match d with
  | Err => ret (answer 500 "Database error")
  | Rows _ => ret (answer 200 "Project member removed successfully")
  end.

(** *** DELETE /delete_project/:id and /admin/delete_project/:id *)

(** DELETE FROM notifications WHERE project_id = ? *)
Definition deleteNotificationsQuery (projectId : Z) : statement OkPacket :=
  fun db =>
    let hit := fun n => Z.eqb (n_project_id n) projectId in
    Some (with_notifications (delete_where hit) db,
          {| affectedRows := count hit (notifications db); insertId := 0 |}).

(** DELETE FROM project_members WHERE project_id = ? *)
Definition deleteProjectMembersQuery (projectId : Z) : statement OkPacket :=
  fun db =>
    let hit := fun m => Z.eqb (pm_project_id m) projectId in
    Some (with_project_members (delete_where hit) db,
          {| affectedRows := count hit (project_members db); insertId := 0 |}).

(** DELETE FROM user_history WHERE id = ? AND user_id = ? *)
Definition deleteProjectQuery (projectId userId : Z) : statement OkPacket :=
  fun db =>
    Some (with_user_history (delete_where (owned_by projectId userId)) db,
          {| affectedRows := count (owned_by projectId userId) (user_history db);
             insertId := 0 |}).

(** DELETE FROM user_history WHERE id = ? *)
Definition adminDeleteProjectQuery (projectId : Z) : statement OkPacket :=
  fun db =>
    let hit := fun h => Z.eqb (uh_id h) projectId in
    Some (with_user_history (delete_where hit) db,
          {| affectedRows := count hit (user_history db); insertId := 0 |}).

(** The handler of a user: three statements in a row, outside any
    transaction. *)
Definition delete_project (projectId userId : Z) : M http_response :=
  n <- queryDatabase (deleteNotificationsQuery projectId) ;;
  match n with
  | Err => ret (answer 500 "Database error")
  | Rows _ =>
      m <- queryDatabase (deleteProjectMembersQuery projectId) ;;
      match m with
      | Err => ret (answer 500 "Database error")
      | Rows _ =>
          p <- queryDatabase (deleteProjectQuery projectId userId) ;;
          match p with
          | Err => ret (answer 500 "Database error")
          | Rows _ => ret (answer 200 "Project deleted successfully")
          end
      end
  end.

(** The handler of an administrator: the same statements in a transaction,
    which is committed before the number of deleted projects is looked at. *)
Definition admin_delete_project (projectId : Z) : M http_response :=
  e <- beginTransaction ;;
  if e : bool then ret (answer 500 "Transaction error")
  else
    n <- queryDatabase (deleteNotificationsQuery projectId) ;;
    match n with
    | Err => rollback_with 500 "Error deleting notifications"
    | Rows _ =>
        m <- queryDatabase (deleteProjectMembersQuery projectId) ;;
        match m with
        | Err => rollback_with 500 "Error deleting project members"
        | Rows _ =>
            p <- queryDatabase (adminDeleteProjectQuery projectId) ;;
            match p with
            | Err => rollback_with 500 "Error deleting project"
            | Rows projectResults =>
                k <- commit ;;
                if k : bool then rollback_with 500 "Transaction commit error"
                else if Z.ltb 0 (affectedRows projectResults)
                     then ret (answer 200 "Project deleted successfully")
                     else ret (answer 404 "Project not found")
            end
        end
    end.

(** *** PUT /archive_project/:id *)

(** UPDATE user_history SET status = 'Archived' WHERE id = ? AND user_id = ? *)
Definition archiveProjectQuery (projectId userId : Z) : statement OkPacket :=
  fun db =>
    Some (with_user_history
            (update_where (owned_by projectId userId) (set_status "Archived")) db,
          {| affectedRows := count (owned_by projectId userId) (user_history db);
             insertId := 0 |}).

Definition archive_project (projectId userId : Z) : M http_response :=
  a <- queryDatabase (archiveProjectQuery projectId userId) ;;
  match a with
  | Err => ret (answer 500 "Database error")
  | Rows results =>
      if Z.ltb 0 (affectedRows results)
      then ret (answer 200 "Project archived successfully")
      else ret (answer 404
                  "Project not found or you do not have permission to archive this project")
  end.

(** *** POST /user_Update and POST /find_project *)

(** SQL [status <> 'Complete']: a NULL status does not satisfy it. *)
Definition not_complete (h : user_history_row) : bool :=
  match uh_status h with
  | Some st => negb (String.eqb st "Complete")
  | None => false
  end.

(** WHERE project_name = ? AND project_description = ?
    AND (user_id = ? OR id IN (SELECT project_id FROM project_members WHERE user_id = ?))
    AND status <> 'Complete' *)
Definition open_project_of (db : DB) (projectName projectDescription : string)
    (userId : Z) (h : user_history_row) : bool :=
  String.eqb (uh_project_name h) projectName
  && String.eqb (uh_project_description h) projectDescription
  && (Z.eqb (uh_user_id h) userId
      || existsb (fun m => Z.eqb (pm_user_id m) userId && Z.eqb (pm_project_id m) (uh_id h))
                 (project_members db))
  && not_complete h.

Definition set_session (session carbon : num) (stage : option string)
    (h : user_history_row) : user_history_row :=
  {| uh_id := uh_id h; uh_user_id := uh_user_id h;
     uh_organization := uh_organization h;
     uh_project_name := uh_project_name h;
     uh_project_description := uh_project_description h;
     uh_stage := stage; uh_project_id := uh_project_id h;
     uh_status := uh_status h;
     uh_carbon_emit := carbon;
     uh_session_duration := session;
     uh_stage_duration := uh_stage_duration h;
     uh_stage_start_date := uh_stage_start_date h;
     uh_stage_due_date := uh_stage_due_date h;
     uh_project_start_date := uh_project_start_date h;
     uh_project_due_date := uh_project_due_date h |}.

(** UPDATE user_history SET session_duration = ?, carbon_emit = ?, stage = ?
    WHERE id = ? AND (user_id = ? OR id IN (...)) AND project_name = ?
    AND project_description = ? AND status <> 'Complete' *)
Definition userUpdateQuery (sessionDuration carbonEmissions : float)
    (projectStage : option string) (projectId userId : Z)
    (projectName projectDescription : string) : statement OkPacket :=
  fun db =>
    let hit := fun h => Z.eqb (uh_id h) projectId
                        && open_project_of db projectName projectDescription userId h in
    match sql_number sessionDuration, sql_number carbonEmissions with
    | Some d, Some v =>
        Some (with_user_history
                (update_where hit (set_session (num_bind d) (num_bind v) projectStage)) db,
              {| affectedRows := count hit (user_history db); insertId := 0 |})
    | _, _ => None
    end.

Definition user_Update (userId : Z) (projectName projectDescription : string)
    (sessionDuration carbonEmissions : float) (projectStage : option string)
    (projectId : Z) : M http_response :=
  u <- queryDatabase (userUpdateQuery sessionDuration carbonEmissions projectStage
                        projectId userId projectName projectDescription) ;;
  match u with
  | Err => ret (answer 500 "Database error")
  | Rows results =>
      if Z.eqb (affectedRows results) 0
      then ret (answer 404 "No matching project found to update")
      else ret (answer 200 "Session updated successfully")
  end.

(** SELECT session_duration, id, status FROM user_history WHERE ... *)
Definition findProjectQuery (projectName projectDescription : string) (userId : Z)
    : statement (list user_history_row) :=
  fun db =>
    Some (db, filter (open_project_of db projectName projectDescription userId)
                     (user_history db)).

(** The handler answers 200 with the first project found, or with null. *)
Definition find_project (userId : Z) (projectName projectDescription : string)
    : M http_response :=
  f <- queryDatabase (findProjectQuery projectName projectDescription userId) ;;
  match f with
  | Err => ret (answer 500 "Database error")
  | Rows [] => ret (Json 200 "" None None)
  | Rows (project :: _) => ret (Json 200 "" (Some (uh_id project)) None)
  end.

(** *** POST /project-requests *)

(** The fields of the body next to title and description. *)
Record request_timeline := {
  rq_project_stage : option string;
  rq_organization : option string;
  rq_stage_duration : option Z;
  rq_stage_start_date : option Z;
  rq_stage_due_date : option Z;
  rq_project_start_date : option Z;
  rq_project_due_date : option Z
}.

Definition requested (userId : Z) (title description : string) (t : request_timeline)
    (id : Z) : project_requests_row :=
  {| pr_id := id; pr_user_id := userId; pr_title := title;
     pr_description := description;
     pr_project_stage := rq_project_stage t;
     pr_organization := rq_organization t;
     pr_stage_duration := rq_stage_duration t;
     pr_stage_start_date := rq_stage_start_date t;
     pr_stage_due_date := rq_stage_due_date t;
     pr_project_start_date := rq_project_start_date t;
     pr_project_due_date := rq_project_due_date t;
     pr_status := "pending";
     pr_reviewer_id := default_reviewer_id;
     pr_review_notes := default_review_notes |}.

(** INSERT INTO project_requests (...) VALUES (?, ?, ?, ?, ?, ?, ?, ?, ?, ?, 'pending') *)
Definition submitRequestQuery (userId : Z) (title description : string)
    (t : request_timeline) : statement OkPacket :=
  fun db =>
    let id := next_id pr_id (project_requests db) in
    Some (with_project_requests (fun rows => rows ++ [requested userId title description t id])
                                db,
          {| affectedRows := 1; insertId := id |}).

(** The handler; [title] and [description] are required to be truthy. *)
Definition submit_project_request (userId : Z) (title description : option string)
    (t : request_timeline) : M http_response :=
  match title, description with
  | Some ti, Some de =>
      if String.eqb ti "" || String.eqb de ""
      then ret (answer 400 "Title and description are required")
      else
        i <- queryDatabase (submitRequestQuery userId ti de t) ;;
        match i with
        | Err => ret (answer 500 "Database error")
        | Rows results =>
            ret (Json 201 "Project request submitted successfully"
                      (Some (insertId results)) None)
        end
  | _, _ => ret (answer 400 "Title and description are required")
  end.

(** *** PUT /setCurrentDevice *)

Definition set_current_device (deviceId : option Z) (u : users_row) : users_row :=
  {| u_id := u_id u; u_email := u_email u; u_region := u_region u;
     u_current_device_id := deviceId |}.

Definition with_users (f : list users_row -> list users_row) (db : DB) : DB :=
  {| users := f (users db); user_devices := user_devices db; cpus := cpus db;
     gpus := gpus db; cpusm := cpusm db; gpusm := gpusm db; ram := ram db;
     user_history := user_history db;
     project_members := project_members db;
     project_stage_progress := project_stage_progress db;
     notifications := notifications db;
     project_requests := project_requests db |}.

(** UPDATE users SET current_device_id = ? WHERE id = ? *)
Definition setCurrentDeviceQuery (deviceId : option Z) (userId : Z) : statement unit :=
  fun db =>
    Some (with_users (update_where (fun u => Z.eqb (u_id u) userId)
                                   (set_current_device deviceId)) db, tt).

Definition setCurrentDevice (userId : Z) (deviceId : option Z) : M http_response :=
  u <- queryDatabase (setCurrentDeviceQuery deviceId userId) ;;
  match u with
  | Err => ret (answer 500 "Database error")
  | Rows _ => ret (answer 200 "Current device updated successfully")
  end.

End Upkeep.

(** ** Column arithmetics *)

(** A DOUBLE column: the server adds in binary64, as JavaScript does. *)
#[export] Instance double_column : NumericColumn :=
  {| num := float; num_add := PrimFloat.add; num_zero := 0%float; num_bind := fun x => x |}.

(** The integer nearest to a finite double, halves away from zero. *)
Definition round_to_whole (x : float) : Z :=
  match Prim2SF x with
  | S754_finite negative m e =>
      let magnitude :=
        if Z.leb 0 e then Z.pos m * 2 ^ e
        else (2 * Z.pos m + 2 ^ (- e)) / (2 * 2 ^ (- e)) in
      if negative then - magnitude else magnitude
  | _ => 0
  end.

(** An integer column: a bound number is rounded to the nearest integer and
    the server adds exactly. *)
Definition whole_units : NumericColumn :=
  {| num := Z; num_add := Z.add; num_zero := 0; num_bind := round_to_whole |}.

(** ** A team and its project

    The scenario of the specification: an instance in stage Design owned by
    user 1, with members 2 and 3. *)

Definition design : string := "Design: Creating the software architecture".
Definition development : string := "Development: Writing the actual code".

Definition member_row (id projectId userId : Z) (role : string) (stage : string)
    (progress : option string) : project_members_row :=
  {| pm_id := id; pm_project_id := projectId; pm_user_id := userId; pm_role := role;
     pm_current_stage := Some stage; pm_progress_status := progress;
     pm_joined_at := Some 0 |}.

(** User 2 has asked for a project of their own. *)
Definition pending_request : project_requests_row :=
  {| pr_id := 1; pr_user_id := 2; pr_title := "P"; pr_description := "Q";
     pr_project_stage := Some design; pr_organization := Some "Acme"%string;
     pr_stage_duration := Some 14; pr_stage_start_date := Some 0;
     pr_stage_due_date := Some 14; pr_project_start_date := Some 0;
     pr_project_due_date := Some 42; pr_status := "pending";
     pr_reviewer_id := None; pr_review_notes := None |}.

(** User 1 has invited user 4 to the instance. *)
Definition invitation : notifications_row :=
  {| n_id := 1; n_sender_id := 1; n_recipient_id := 4; n_project_id := 1;
     n_type := "project_invitation"; n_message := None;
     n_status := Some "unread"%string; n_response := None |}.

Definition person (id : Z) (email : string) (region : option string) (device : option Z)
    : users_row :=
  {| u_id := id; u_email := email; u_region := region; u_current_device_id := device |}.

(** A machine drawing 65 W, 120 W and 15 W for processor, graphics and
    memory, with a 50 W supply: 250 W in all. *)
Definition machine (id : Z) : user_devices_row :=
  {| ud_id := id; ud_cpu := "i7"; ud_gpu := "rtx"; ud_ram := "DDR4"; ud_psu := 50 |}.

(** Noon of day 100. *)
Definition noon : Z := 100 * 86400 + 43200.

(** User 2 completes the last stage; the connection is lost when the
    membership is about to be updated, the wrapper reconnects and the update
    goes through, and the next query fails with an SQL error. *)
Definition reconnect_then_fail : list outcome := [Ok; Ok; Ok; Lost; Ok; Fail].

Section Fixtures.

Context {NC : NumericColumn}.

Definition design_instance (stage_duration : option Z) : user_history_row :=
  {| uh_id := 1; uh_user_id := 1; uh_organization := Some "Acme"%string;
     uh_project_name := "X"; uh_project_description := "Y";
     uh_stage := Some design; uh_project_id := Some 1;
     uh_status := Some "In Progress"%string;
     uh_carbon_emit := num_zero; uh_session_duration := num_zero;
     uh_stage_duration := stage_duration;
     uh_stage_start_date := Some 0; uh_stage_due_date := Some 14;
     uh_project_start_date := Some 0; uh_project_due_date := Some 42 |}.

Definition team_db (stage_duration : option Z) : DB :=
  {| users := [ person 1 "o@acme.sg" (Some "Singapore"%string) (Some 1);
                person 2 "a@acme.sg" (Some "Mars"%string) (Some 2);
                person 3 "b@acme.sg" None (Some 3);
                person 5 "c@acme.sg" (Some "constructor"%string) (Some 2) ];
     user_devices := [ machine 1; machine 2; machine 3 ];
     cpus := [ {| w_model := "i7"; w_avg_watt_usage := 65 |} ];
     gpus := [ {| w_model := "rtx"; w_avg_watt_usage := 120 |} ];
     cpusm := [ {| w_model := "i7"; w_avg_watt_usage := 65 |} ];
     gpusm := [ {| w_model := "rtx"; w_avg_watt_usage := 120 |} ];
     ram := [ {| w_model := "DDR4"; w_avg_watt_usage := 15 |} ];
     user_history := [ design_instance stage_duration ];
     project_members :=
       [ member_row 1 1 1 "project_owner" design None;
         member_row 2 1 2 "member" design (Some "In Progress"%string);
         member_row 3 1 3 "member" design (Some "In Progress"%string) ];
     project_stage_progress := [];
     notifications := [ invitation ];
     project_requests := [ pending_request ] |}.

(** The store at rest: no transaction is open. *)
Definition at_rest (db : DB) : Store :=
  {| cur := db; snap := None |}.

Definition team_store : Store := at_rest (team_db (Some 14)).

(** The Development stage of the project exists already, with no member
    yet; [status] is its status. *)
Definition development_instance (status : string) : user_history_row :=
  {| uh_id := 2; uh_user_id := 1; uh_organization := Some "Acme"%string;
     uh_project_name := "X"; uh_project_description := "Y";
     uh_stage := Some development; uh_project_id := Some 1;
     uh_status := Some status;
     uh_carbon_emit := num_zero; uh_session_duration := num_zero;
     uh_stage_duration := Some 14;
     uh_stage_start_date := Some 14; uh_stage_due_date := Some 28;
     uh_project_start_date := Some 0; uh_project_due_date := Some 42 |}.

Definition two_stage_store (status : string) : Store :=
  at_rest (with_user_history (fun rows => rows ++ [development_instance status])
             (team_db (Some 14))).

(** Members 2 and 3 have both completed the stage. *)
Definition finished_store : Store :=
  at_rest (with_project_members
             (map (fun m => if is_owner m then m
                            else set_progress (Some "Stage Complete"%string) m))
             (team_db (Some 14))).

Definition interrupted_store : Store :=
  snd (complete_project 1 2 None (Some design) noon reconnect_then_fail team_store).

(** The store after [m] has run with every call succeeding. *)
Definition after {A} (m : M A) (s : Store) : Store :=
  snd (m [] s).

(** The request of user 2 has been approved by administrator 9. *)
Definition approved_once : Store :=
  after (approve_project_request 1 9 None) team_store.

(** The instance of the team has been completed. *)
Definition completed_store : Store :=
  at_rest (with_user_history (map (set_status "Complete")) (team_db (Some 14))).

(** What an administrator sends to set up a project for user 1. *)
Definition new_project (leader : option string) (members : list string)
    : create_project_body :=
  {| cp_project_name := "N"; cp_project_description := "D";
     cp_status := Some "In Progress"%string;
     cp_stage := Some design;
     cp_owner_email := "o@acme.sg";
     cp_leader_email := leader;
     cp_members := members;
     cp_organization := Some "Acme"%string;
     cp_stage_duration := None; cp_stage_start_date := None;
     cp_stage_due_date := None; cp_project_start_date := None;
     cp_project_due_date := None |}.

(** The timeline of a request for the Design stage, two weeks long. *)
Definition two_weeks : request_timeline :=
  {| rq_project_stage := Some design; rq_organization := Some "Acme"%string;
     rq_stage_duration := Some 14; rq_stage_start_date := Some 0;
     rq_stage_due_date := Some 14; rq_project_start_date := Some 0;
     rq_project_due_date := Some 42 |}.

(** A team whose member 2 works on a machine with a processor the table
    lists under a name with a plus sign. *)
Definition plus_store : Store :=
  at_rest
    {| users := users (team_db (Some 14));
       user_devices :=
         [ machine 1;
           {| ud_id := 2; ud_cpu := "Snapdragon 8+ Gen 1"; ud_gpu := "rtx"; ud_ram := "DDR4";
              ud_psu := 50 |};
           machine 3 ];
       cpus := cpus (team_db (Some 14))
               ++ [ {| w_model := "Snapdragon 8+ Gen 1"; w_avg_watt_usage := 65 |} ];
       gpus := gpus (team_db (Some 14));
       cpusm := cpusm (team_db (Some 14));
       gpusm := gpusm (team_db (Some 14));
       ram := ram (team_db (Some 14));
       user_history := user_history (team_db (Some 14));
       project_members := project_members (team_db (Some 14));
       project_stage_progress := project_stage_progress (team_db (Some 14));
       notifications := notifications (team_db (Some 14));
       project_requests := project_requests (team_db (Some 14)) |}.

End Fixtures.

(** ** Vocabulary of the properties *)

Section Vocabulary.

Context {NC : NumericColumn} {UT : UrlTransport}.

(** A statement that always runs and leaves the tables as they are. *)
Definition reads {R} (q : statement R) : Prop :=
  forall db, exists r, q db = Some (db, r).

(** A statement the server never rejects. *)
Definition total {R} (q : statement R) : Prop :=
  forall db, exists d r, q db = Some (d, r).

(** The rows the evaluator counts: memberships of the instance whose role is
    not the owner's. *)
Definition contributor (projectId : Z) (m : project_members_row) : Prop :=
  pm_project_id m = projectId /\ pm_role m <> "project_owner"%string.

(** The membership an accepted invitation creates. *)
Definition invited_member (db : DB) (projectId userId : Z) : project_members_row :=
  {| pm_id := next_id pm_id (project_members db);
     pm_project_id := projectId; pm_user_id := userId; pm_role := "member";
     pm_current_stage := None; pm_progress_status := None; pm_joined_at := None |}.

(** The rows an approval adds for the requester. *)
Definition approved_instance (request : project_requests_row) (id : Z) : user_history_row :=
  set_project_id id (requested_project request id).

Definition approved_role (role : string) (request : project_requests_row) (projectId id : Z)
    : project_members_row :=
  {| pm_id := id; pm_project_id := projectId; pm_user_id := pr_user_id request;
     pm_role := role; pm_current_stage := pr_project_stage request;
     pm_progress_status := Some "In Progress"%string; pm_joined_at := None |}.

(** What the migration stores for a membership of the current instance. *)
Definition migrated_from (newProjectId userId : Z) (next : string)
    (old new : project_members_row) : Prop :=
  pm_project_id new = newProjectId /\
  pm_user_id new = pm_user_id old /\
  pm_role new = pm_role old /\
  pm_current_stage new = Some next /\
  (pm_role old = "project_owner"%string -> pm_progress_status new = None) /\
  (pm_role old <> "project_owner"%string -> pm_user_id old = userId ->
   pm_progress_status new = Some "In Progress"%string) /\
  (pm_role old <> "project_owner"%string -> pm_user_id old <> userId ->
   pm_progress_status new = Some "Not Started"%string).

(** The handler did not answer 200. *)
Definition failed (r : http_response) : Prop :=
  match r with
  | Json code _ _ _ => code <> 200
  | Crashed => True
  end.

(** The user has a current device, and [device] is what the handlers read
    for it. *)
Definition current_device (db : DB) (userId : Z) (user : users_row)
    (device : user_devices_row) : Prop :=
  (exists others, filter (fun u => Z.eqb (u_id u) userId) (users db) = user :: others) /\
  (exists id others,
     device_set user = Some id /\
     filter (fun d => Z.eqb (ud_id d) id) (user_devices db) = device :: others).

(** Both handlers as one: what they read, whom the UPDATE matches, what it
    adds. *)
Definition accrue (mobile : bool) : Z -> Z -> float -> M http_response :=
  if mobile then calculate_emissionsM else calculate_emissions.

Definition matched (mobile : bool) (db : DB) (projectId userId : Z)
    : user_history_row -> bool :=
  if mobile then owned_by projectId userId else owner_or_member db projectId userId.

Definition increment (mobile : bool) (sessionDuration delta : float)
    : user_history_row -> user_history_row :=
  if mobile then add_session_and_carbon sessionDuration delta else add_carbon delta.

Definition bindable (mobile : bool) (sessionDuration delta : float) : bool :=
  PrimFloat.is_finite delta && (negb mobile || PrimFloat.is_finite sessionDuration).

(** The delta a handler computes from the reference tables, or the answer
    with which it stops before. *)
Definition planned (mobile : bool) (db : DB) (userId : Z) (sessionDuration : float)
    : http_response + float :=
  match filter (fun u => Z.eqb (u_id u) userId) (users db) with
  | [] => inl (answer 404 "Current device not set")
  | user :: _ =>
      match device_set user with
      | None => inl (answer 404 "Current device not set")
      | Some id =>
          match filter (fun d => Z.eqb (ud_id d) id) (user_devices db) with
          | [] => inl (answer 404 "User device information not found")
          | device :: _ =>
              match usage_response ((if mobile then cpusm else cpus) db) (ud_cpu device),
                    usage_response ((if mobile then gpusm else gpus) db) (ud_gpu device),
                    usage_response (ram db) (ud_ram device) with
              | Some c, Some g, Some r =>
                  inr (if mobile
                       then mobile_emissions c g r sessionDuration (u_region user)
                       else desktop_emissions c g r (ud_psu device) sessionDuration
                              (u_region user))
              | _, _, _ =>
                  inl (answer 500 (if mobile then "Error fetching wattage data from server"
                                   else "Error fetching wattage data"))
              end
          end
      end
  end.

(** The invariant of the data model: a membership with the role of the
    owner has no progress status. *)
Definition owners_without_progress (db : DB) : Prop :=
  forall m, In m (project_members db) ->
            pm_role m = "project_owner"%string -> pm_progress_status m = None.

(** The verdict of the evaluator on a database. *)
Definition verdict (projectId : Z) (db : DB) : bool :=
  let members := filter (fun m => Z.eqb (pm_project_id m) projectId && negb (is_owner m))
                        (project_members db) in
  negb (Nat.eqb (List.length members) 0) && forallb stage_complete members.

(** [P] holds of the database the connection sees and of the committed
    one. *)
Definition kept (P : DB -> Prop) (s : Store) : Prop := P (cur s) /\ P (durable s).

(** A statement under which [P] is stable. *)
Definition keeps (P : DB -> Prop) {R} (q : statement R) : Prop :=
  forall db db' r, P db -> q db = Some (db', r) -> P db'.

End Vocabulary.

(** * Properties *)

(** ** Names in a URL *)

Ltac each_char c :=
  destruct c as [[] [] [] [] [] [] [] []]; vm_compute; try discriminate; auto.

Lemma plain_char_cases (c : ascii) :
  plain_char c = true ->
  (unreserved c = true /\ escape c = [c] /\ Ascii.eqb c "%" = false
   /\ Ascii.eqb c "+" = false /\ Ascii.eqb c "&" = false /\ Ascii.eqb c "]" = false
   /\ Nat.leb (nat_of_ascii c) 127 = true)
  \/ c = " "%char.
Proof. each_char c; intros _; left; repeat split. Qed.

Lemma plain_char_kept (c : ascii) :
  plain_char c = true -> negb (tab_or_newline c) = true /\ Ascii.eqb c "#" = false.
Proof. each_char c. Qed.

Lemma unreserved_kept (c : ascii) : unreserved c = true -> c0_or_space c = false.
Proof. each_char c. Qed.

Lemma plain_chars_each (l : list ascii) : plain_chars l = true -> forallb plain_char l = true.
Proof.
  induction l as [|c rest IH]; [reflexivity|].
  destruct rest as [|d rest].
  - simpl. intros H. unfold plain_char. rewrite H. reflexivity.
  - intros H. change (plain_chars (c :: d :: rest))
      with ((unreserved c || is_space c) && plain_chars (d :: rest)) in H.
    apply andb_true_iff in H. destruct H as [Hc Hrest].
    change (forallb plain_char (c :: d :: rest))
      with (plain_char c && forallb plain_char (d :: rest)).
    unfold plain_char at 1. rewrite Hc. apply IH. exact Hrest.
Qed.

Lemma strip_trailing_plain (l : list ascii) : plain_chars l = true -> strip_trailing l = l.
Proof.
  induction l as [|c rest IH]; [reflexivity|].
  destruct rest as [|d rest].
  - simpl. intros H. rewrite (unreserved_kept _ H). reflexivity.
  - intros H. change (plain_chars (c :: d :: rest))
      with ((unreserved c || is_space c) && plain_chars (d :: rest)) in H.
    apply andb_true_iff in H. destruct H as [_ Hrest].
    change (strip_trailing (c :: d :: rest))
      with (match strip_trailing (d :: rest) with
            | [] => if c0_or_space c then [] else [c]
            | kept => c :: kept
            end).
    rewrite (IH Hrest). reflexivity.
Qed.

Lemma filter_kept (l : list ascii) :
  forallb plain_char l = true -> filter (fun c => negb (tab_or_newline c)) l = l.
Proof.
  induction l as [|c rest IH]; [reflexivity|]. simpl. intros H.
  apply andb_true_iff in H. destruct H as [Hc Hrest].
  destruct (plain_char_kept _ Hc) as [-> _]. rewrite (IH Hrest). reflexivity.
Qed.

Lemma upto_kept (l : list ascii) : forallb plain_char l = true -> upto "#" l = l.
Proof.
  induction l as [|c rest IH]; [reflexivity|]. simpl. intros H.
  apply andb_true_iff in H. destruct H as [Hc Hrest].
  destruct (plain_char_kept _ Hc) as [_ ->]. rewrite (IH Hrest). reflexivity.
Qed.

Lemma decode_brackets_cons (c : ascii) (rest : list ascii) :
  Ascii.eqb c "%" = false -> decode_brackets (c :: rest) = c :: decode_brackets rest.
Proof.
  intros H. destruct rest as [|x [|y rest]]; simpl; rewrite ?H; reflexivity.
Qed.

Lemma decode_brackets_percent_encode (l : list ascii) :
  forallb plain_char l = true -> decode_brackets (percent_encode l) = percent_encode l.
Proof.
  induction l as [|c rest IH]; [reflexivity|]. simpl. intros H.
  apply andb_true_iff in H. destruct H as [Hc Hrest].
  destruct (plain_char_cases _ Hc) as [(_ & -> & Hp & _)| ->].
  - cbn [app]. rewrite (@decode_brackets_cons c _ Hp), (IH Hrest). reflexivity.
  - change (escape " ") with ["%"%char; "2"%char; "0"%char]. cbn [app].
    change (decode_brackets ("%"%char :: "2"%char :: "0"%char :: percent_encode rest))
      with ("%"%char :: decode_brackets ("2"%char :: "0"%char :: percent_encode rest)).
    rewrite !decode_brackets_cons by reflexivity. rewrite (IH Hrest). reflexivity.
Qed.

Lemma percent_encode_quiet (l : list ascii) :
  forallb plain_char l = true ->
  forallb (fun c => negb (Ascii.eqb c "&") && negb (Ascii.eqb c "]")
                    && negb (Ascii.eqb c "+")) (percent_encode l) = true.
Proof.
  induction l as [|c rest IH]; [reflexivity|]. simpl. intros H.
  apply andb_true_iff in H. destruct H as [Hc Hrest].
  rewrite forallb_app, (IH Hrest), andb_true_r.
  destruct (plain_char_cases _ Hc) as [(_ & -> & _ & Hplus & Hamp & Hclose & _)| ->].
  - simpl. rewrite Hplus, Hamp, Hclose. reflexivity.
  - reflexivity.
Qed.

Lemma split_on_one (sep : ascii) (l : list ascii) :
  forallb (fun c => negb (Ascii.eqb c sep)) l = true -> split_on sep l = [l].
Proof.
  induction l as [|c rest IH]; [reflexivity|]. simpl. intros H.
  apply andb_true_iff in H. destruct H as [Hc Hrest].
  rewrite (IH Hrest). apply negb_true_iff in Hc. rewrite Hc. reflexivity.
Qed.

Lemma bracket_equals_none (l : list ascii) :
  forallb (fun c => negb (Ascii.eqb c "]")) l = true -> bracket_equals l = None.
Proof.
  induction l as [|c rest IH]; [reflexivity|]. intros H.
  change (forallb (fun c => negb (Ascii.eqb c "]")) (c :: rest))
    with (negb (Ascii.eqb c "]") && forallb (fun c => negb (Ascii.eqb c "]")) rest) in H.
  apply andb_true_iff in H. destruct H as [Hc Hrest].
  apply negb_true_iff in Hc. destruct rest as [|d rest]; [reflexivity|].
  change (bracket_equals (c :: d :: rest))
    with (if Ascii.eqb c "]" && Ascii.eqb d "=" then Some O
          else option_map S (bracket_equals (d :: rest))).
  rewrite Hc, (IH Hrest). reflexivity.
Qed.

Lemma percent_decode_percent_encode (l : list ascii) :
  forallb plain_char l = true -> percent_decode (percent_encode l) = Some l.
Proof.
  induction l as [|c rest IH]; [reflexivity|]. simpl. intros H.
  apply andb_true_iff in H. destruct H as [Hc Hrest].
  destruct (plain_char_cases _ Hc) as [(_ & -> & Hp & _)| ->].
  - simpl. rewrite Hp, (IH Hrest). reflexivity.
  - change (escape " ") with ["%"%char; "2"%char; "0"%char]. simpl.
    rewrite (IH Hrest). reflexivity.
Qed.

Lemma utf8_ascii (l : list ascii) : forallb plain_char l = true -> utf8_from Start l = true.
Proof.
  induction l as [|c rest IH]; [reflexivity|]. simpl. intros H.
  apply andb_true_iff in H. destruct H as [Hc Hrest].
  destruct (plain_char_cases _ Hc) as [(_ & _ & _ & _ & _ & _ & Hlow)| ->].
  - rewrite Hlow. exact (IH Hrest).
  - exact (IH Hrest).
Qed.

Lemma without_plus (l : list ascii) :
  forallb (fun c => negb (Ascii.eqb c "+")) l = true ->
  map (fun c => if Ascii.eqb c "+" then " "%char else c) l = l.
Proof.
  induction l as [|c rest IH]; [reflexivity|]. simpl. intros H.
  apply andb_true_iff in H. destruct H as [Hc Hrest].
  apply negb_true_iff in Hc. rewrite Hc, (IH Hrest). reflexivity.
Qed.

Lemma forallb_weaken {A} (p q : A -> bool) (l : list A) :
  (forall x, p x = true -> q x = true) -> forallb p l = true -> forallb q l = true.
Proof.
  intros Hpq. induction l as [|x rest IH]; [reflexivity|]. simpl. intros H.
  apply andb_true_iff in H. destruct H as [Hx Hrest].
  rewrite (Hpq _ Hx), (IH Hrest). reflexivity.
Qed.

(** A name of letters, digits, [-], [.], [_], [~] and inner spaces is read
    by the endpoint as it was written: the instance needs no shortcut. *)
Lemma received_plain (name : string) : url_plain name = true -> received name = Some name.
Proof.
  unfold url_plain. intros Hplain.
  pose proof (plain_chars_each _ Hplain) as Hok.
  set (l := list_ascii_of_string name) in *.
  pose proof (percent_encode_quiet _ Hok) as Hquiet.
  assert (Hamp : forallb (fun c => negb (Ascii.eqb c "&")) (percent_encode l) = true).
  { revert Hquiet. apply forallb_weaken. intros x Hx.
    apply andb_true_iff in Hx. destruct Hx as [Hx _].
    apply andb_true_iff in Hx. tauto. }
  assert (Hclose : forallb (fun c => negb (Ascii.eqb c "]")) (percent_encode l) = true).
  { revert Hquiet. apply forallb_weaken. intros x Hx.
    apply andb_true_iff in Hx. destruct Hx as [Hx _].
    apply andb_true_iff in Hx. tauto. }
  assert (Hplus : forallb (fun c => negb (Ascii.eqb c "+")) (percent_encode l) = true).
  { revert Hquiet. apply forallb_weaken. intros x Hx.
    apply andb_true_iff in Hx. tauto. }
  assert (Hsent : query_sent name = (list_ascii_of_string "model=" ++ percent_encode l)%list).
  { unfold query_sent. fold l.
    rewrite (strip_trailing_plain _ Hplain), (filter_kept _ Hok), (upto_kept _ Hok).
    reflexivity. }
  assert (Hparts : firstn 1000 (split_on "&" (decode_brackets (query_sent name)))
                   = [(list_ascii_of_string "model=" ++ percent_encode l)%list]).
  { rewrite Hsent. simpl app.
    rewrite !decode_brackets_cons by reflexivity.
    rewrite (decode_brackets_percent_encode _ Hok).
    rewrite split_on_one; [reflexivity|]. simpl. exact Hamp. }
  assert (Hkv : key_and_value (list_ascii_of_string "model=" ++ percent_encode l)%list
                = (list_ascii_of_string "model", percent_encode l)).
  { unfold key_and_value. rewrite bracket_equals_none by (simpl; exact Hclose).
    reflexivity. }
  assert (Hval : decoder (percent_encode l) = l).
  { unfold decoder. rewrite (without_plus _ Hplus), (percent_decode_percent_encode _ Hok),
      (utf8_ascii _ Hok). reflexivity. }
  unfold received, parseValues. rewrite Hparts. cbn [fold_left]. rewrite Hkv, Hval.
  unfold l. rewrite string_of_list_ascii_of_string. reflexivity.
Qed.

(** What the endpoint reads is what the two parsers give, for every name. *)
Lemma form_urlencoded_received (name : string) :
  req_query_model (UrlTransport := form_urlencoded) name = received name.
Proof.
  simpl. destruct (url_plain name) eqn:H; [|reflexivity].
  symmetry. apply received_plain. exact H.
Qed.


Section Evaluator.

Context {NC : NumericColumn}.

(** *** The connection *)

Lemma durable_createConnection (s : Store) : durable (createConnection s) = durable s.
Proof. reflexivity. Qed.

Lemma store_eta (s : Store) : {| cur := cur s; snap := snap s |} = s.
Proof. destruct s; reflexivity. Qed.

Lemma reads_total {R} (q : statement R) : reads q -> total q.
Proof. intros H db. destruct (H db) as [r Hr]. eauto. Qed.

Lemma queryDatabase_reads {R} (q : statement R) (Hq : reads q) :
  forall os s r os' s',
    queryDatabase q os s = (r, os', s') ->
    durable s' = durable s /\ (~ In Lost os -> s' = s).
Proof.
  assert (Hex : forall os s r os' s',
             execute q os s = (r, os', s') -> s' = s).
  { intros os s r os' s' H. unfold execute in H.
    destruct (Hq (cur s)) as [x Hx]. rewrite Hx in H.
    inversion H; subst. apply store_eta. }
  induction os as [|o os IH]; intros s r os' s' H; simpl in H.
  - apply Hex in H. subst. tauto.
  - destruct o.
    + apply Hex in H. subst. tauto.
    + inversion H; subst. tauto.
    + apply IH in H. destruct H as [H _]. split.
      * rewrite H. apply durable_createConnection.
      * intros Hn. exfalso. apply Hn. left. reflexivity.
Qed.

Lemma queryDatabase_Err {R} (q : statement R) (Hq : total q) :
  forall os s os' s',
    queryDatabase q os s = (Err, os', s') ->
    durable s' = durable s /\ (~ In Lost os -> s' = s).
Proof.
  assert (Hex : forall os s os' s', execute q os s = (Err, os', s') -> False).
  { intros os s os' s' H. unfold execute in H.
    destruct (Hq (cur s)) as [d [x Hx]]. rewrite Hx in H. discriminate. }
  induction os as [|o os IH]; intros s os' s' H; simpl in H.
  - apply Hex in H. contradiction.
  - destruct o.
    + apply Hex in H. contradiction.
    + inversion H; subst. tauto.
    + apply IH in H. destruct H as [H _]. split.
      * rewrite H. apply durable_createConnection.
      * intros Hn. exfalso. apply Hn. left. reflexivity.
Qed.

Lemma getCurrentProjectQuery_reads (projectId : Z) : reads (getCurrentProjectQuery projectId).
Proof. intros db. eexists. reflexivity. Qed.

Lemma getMembersQuery_reads (projectId : Z) : reads (getMembersQuery projectId).
Proof. intros db. eexists. reflexivity. Qed.

Lemma updateProjectQuery_total (projectId : Z) : total (updateProjectQuery projectId).
Proof. intros db. do 2 eexists. reflexivity. Qed.

(** *** Completion evaluator *)

Lemma contributor_filter (projectId : Z) (m : project_members_row) :
  Z.eqb (pm_project_id m) projectId && negb (is_owner m) = true <-> contributor projectId m.
Proof.
  unfold contributor, is_owner.
  rewrite andb_true_iff, negb_true_iff, Z.eqb_eq.
  destruct (String.eqb_spec (pm_role m) "project_owner"); intuition congruence.
Qed.

Lemma stage_complete_iff (m : project_members_row) :
  stage_complete m = true <-> pm_progress_status m = Some "Stage Complete"%string.
Proof.
  unfold stage_complete. destruct (pm_progress_status m) as [st|].
  - destruct (String.eqb_spec st "Stage Complete"); split; congruence.
  - split; discriminate.
Qed.

Lemma update_where_In {A} (p : A -> bool) (f : A -> A) (rows : list A) (x : A) :
  In x (update_where p f rows) ->
  exists y, In y rows /\ x = (if p y then f y else y).
Proof.
  unfold update_where. rewrite in_map_iff. intros [y [Hy Hin]]. eauto.
Qed.

Lemma queryDatabase_script {R} (q : statement R) :
  forall os s r os' s',
    queryDatabase q os s = (r, os', s') -> ~ In Lost os -> ~ In Lost os'.
Proof.
  induction os as [|o os IH]; intros s r os' s' H Hn; simpl in H.
  - unfold execute in H. destruct (q (cur s)) as [[d x]|]; inversion H; subst; auto.
  - destruct o.
    + unfold execute in H.
      destruct (q (cur s)) as [[d x]|]; inversion H; subst; intros Hi; apply Hn; right; auto.
    + inversion H; subst. intros Hi; apply Hn; right; auto.
    + exfalso. apply Hn. left. reflexivity.
Qed.

Lemma queryDatabase_Rows {R} (q : statement R) :
  forall os s r os' s',
    queryDatabase q os s = (Rows r, os', s') -> ~ In Lost os ->
    exists d, q (cur s) = Some (d, r) /\ s' = {| cur := d; snap := snap s |}.
Proof.
  intros os s r os' s' H Hn. destruct os as [|[] os]; simpl in H.
  - unfold execute in H. destruct (q (cur s)) as [[d x]|]; inversion H; subst; eauto.
  - unfold execute in H. destruct (q (cur s)) as [[d x]|]; inversion H; subst; eauto.
  - discriminate.
  - exfalso. apply Hn. left. reflexivity.
Qed.

Lemma queryDatabase_nil {R} (q : statement R) (s : Store) (d : DB) (r : R) :
  q (cur s) = Some (d, r) ->
  queryDatabase q [] s = (Rows r, [], {| cur := d; snap := snap s |}).
Proof. intros H. simpl. unfold execute. rewrite H. reflexivity. Qed.

(** With the store answering every query the evaluator returns, and writes
    only when it reports complete. *)
Lemma evaluator_runs (projectId : Z) (s : Store) :
  exists b,
    checkAndUpdateProjectCompletion projectId [] s
      = (Rows b, [],
         {| cur := if b : bool
                   then with_user_history
                          (update_where (fun h => Z.eqb (uh_id h) projectId)
                                        (set_status "Complete")) (cur s)
                   else cur s;
            snap := snap s |}).
Proof.
  unfold checkAndUpdateProjectCompletion, bind, ret. simpl. unfold execute. simpl.
  destruct (filter (fun m => Z.eqb (pm_project_id m) projectId && negb (is_owner m))
                   (project_members (cur s))) as [|m0 members].
  - exists false. reflexivity.
  - cbn [List.length Nat.eqb].
    destruct (forallb stage_complete (m0 :: members)).
    + exists true. reflexivity.
    + exists false. reflexivity.
Qed.

(** C1. The evaluator returns when the store answers its queries; and
    whenever it returns a verdict (no query failed, the connection was not
    lost), the verdict is complete exactly when the instance has a non-owner
    membership and every non-owner membership has progress status Stage
    Complete; so without any non-owner membership the verdict is not
    complete; and when the verdict is complete, the status of the instance
    has been set to Complete and nothing else has changed. *)
Theorem checkAndUpdateProjectCompletion_complete_iff (projectId : Z) (s : Store) :
  (exists b s', checkAndUpdateProjectCompletion projectId [] s = (Rows b, [], s')) /\
  forall (os : list outcome) (b : bool) (os' : list outcome) (s' : Store),
    ~ In Lost os ->
    checkAndUpdateProjectCompletion projectId os s = (Rows b, os', s') ->
    (b = true <->
       (exists m, In m (project_members (cur s)) /\ contributor projectId m) /\
       (forall m, In m (project_members (cur s)) -> contributor projectId m ->
                  pm_progress_status m = Some "Stage Complete"%string)) /\
    ((forall m, In m (project_members (cur s)) -> ~ contributor projectId m) -> b = false) /\
    (b = true ->
       snap s' = snap s /\
       project_members (cur s') = project_members (cur s) /\
       user_history (cur s') =
         map (fun h => if Z.eqb (uh_id h) projectId then set_status "Complete" h else h)
             (user_history (cur s)) /\
       forall h, In h (user_history (cur s')) -> uh_id h = projectId ->
                 uh_status h = Some "Complete"%string).
Proof.
  split.
  { destruct (evaluator_runs projectId s) as [b Hb]. eauto. }
  intros os b os' s' Hn H.
  unfold checkAndUpdateProjectCompletion, bind, ret in H.
  destruct (queryDatabase (getMembersQuery projectId) os s) as [[r1 os1] s1] eqn:E1.
  pose proof (queryDatabase_script _ _ _ E1 Hn) as Hn1.
  destruct r1 as [members|]; [|discriminate].
  apply queryDatabase_Rows in E1; [|exact Hn].
  destruct E1 as [d [Hq Hs1]]. unfold getMembersQuery in Hq.
  inversion Hq as [[Hd Hm]]. clear Hq. subst d. rewrite store_eta in Hs1. subst s1.
  assert (Hin : forall m, In m members <->
                          In m (project_members (cur s)) /\ contributor projectId m).
  { intros m. rewrite <- Hm, filter_In, contributor_filter. tauto. }
  clear Hm.
  destruct members as [|m0 members].
  - simpl in H. inversion H; subst. split; [|split].
    + split; [discriminate|]. intros [[m [H1 H2]] _].
      destruct (proj2 (Hin m) (conj H1 H2)).
    + reflexivity.
    + discriminate.
  - cbn [List.length Nat.eqb] in H.
    destruct (forallb stage_complete (m0 :: members)) eqn:Hall.
    + destruct (queryDatabase (updateProjectQuery projectId) os1 s) as [[r2 os2] s2] eqn:E2.
      destruct r2 as [packet|]; [|discriminate].
      inversion H; subst. clear H.
      apply queryDatabase_Rows in E2; [|exact Hn1].
      destruct E2 as [d [Hq Hs2]]. unfold updateProjectQuery in Hq.
      inversion Hq; subst. clear Hq.
      split; [|split].
      * split; [|reflexivity]. intros _. split.
        -- exists m0. apply Hin. left. reflexivity.
        -- intros m H1 H2. rewrite forallb_forall in Hall.
           apply stage_complete_iff, Hall, Hin. tauto.
      * intros Hno. exfalso. apply (Hno m0); apply Hin; left; reflexivity.
      * intros _. simpl. repeat split.
        intros h Hh Hid. apply update_where_In in Hh.
        destruct Hh as [y [_ Hy]]. subst h.
        destruct (Z.eqb (uh_id y) projectId) eqn:E; [reflexivity|].
        apply Z.eqb_neq in E. contradiction.
    + inversion H; subst. split; [|split].
      * split; [discriminate|]. intros [_ Hc]. exfalso.
        assert (forallb stage_complete (m0 :: members) = true) as Habs.
        { apply forallb_forall. intros m Hmem. apply stage_complete_iff.
          apply Hin in Hmem. destruct Hmem. auto. }
        congruence.
      * reflexivity.
      * discriminate.
Qed.

(** C10. Whenever the evaluator does not report complete (no non-owner
    membership, some non-owner membership not at Stage Complete, or a query
    that failed) it has written nothing: the committed database is the one
    it started from, and unless the connection was lost on the way the
    connection sees exactly what it saw before.  Its only write is the one
    that sets the status of the instance to Complete when it reports
    complete. *)
Theorem checkAndUpdateProjectCompletion_frame (projectId : Z) (os : list outcome)
    (s : Store) (r : result bool) (os' : list outcome) (s' : Store) :
  checkAndUpdateProjectCompletion projectId os s = (r, os', s') ->
  (r <> Rows true -> durable s' = durable s /\ (~ In Lost os -> s' = s)) /\
  (r = Rows true -> ~ In Lost os ->
   s' = {| cur := with_user_history
                    (update_where (fun h => Z.eqb (uh_id h) projectId)
                                  (set_status "Complete")) (cur s);
           snap := snap s |}).
Proof.
  unfold checkAndUpdateProjectCompletion, bind, ret. intros H.
  destruct (queryDatabase (getMembersQuery projectId) os s) as [[r1 os1] s1] eqn:E1.
  pose proof (queryDatabase_reads (getMembersQuery_reads projectId) _ _ E1) as [Hd1 Hs1].
  pose proof (queryDatabase_script _ _ _ E1) as Hn1.
  destruct r1 as [members|].
  - destruct (Nat.eqb (List.length members) 0).
    + inversion H; subst. split; [auto|discriminate].
    + destruct (forallb stage_complete members).
      * destruct (queryDatabase (updateProjectQuery projectId) os1 s1)
          as [[r2 os2] s2] eqn:E2.
        destruct r2 as [pk|].
        -- inversion H; subst. split; [intros Hr; contradiction Hr; reflexivity|].
           intros _ Hn. apply queryDatabase_Rows in E2; [|auto].
           destruct E2 as [d [Hq Hs2]]. rewrite (Hs1 Hn) in *.
           unfold updateProjectQuery in Hq. inversion Hq; subst. reflexivity.
        -- inversion H; subst. split; [|discriminate]. intros _.
           apply (queryDatabase_Err (updateProjectQuery_total projectId)) in E2.
           destruct E2 as [Hd2 Hs2]. split.
           ++ congruence.
           ++ intros Hn. rewrite (Hs2 (Hn1 Hn)). auto.
      * inversion H; subst. split; [auto|discriminate].
  - inversion H; subst. split; [auto|discriminate].
Qed.

End Evaluator.

Lemma checkAndUpdateProjectCompletion_complete_iff_witness :
  (true = true <->
     (exists m, In m (project_members (cur finished_store)) /\ contributor 1 m) /\
     (forall m, In m (project_members (cur finished_store)) -> contributor 1 m ->
                pm_progress_status m = Some "Stage Complete"%string)) /\
  ((forall m, In m (project_members (cur finished_store)) -> ~ contributor 1 m) ->
   true = false) /\
  (true = true ->
     snap (snd (checkAndUpdateProjectCompletion 1 [Ok; Ok] finished_store))
       = snap finished_store /\
     project_members (cur (snd (checkAndUpdateProjectCompletion 1 [Ok; Ok] finished_store)))
       = project_members (cur finished_store) /\
     user_history (cur (snd (checkAndUpdateProjectCompletion 1 [Ok; Ok] finished_store)))
       = map (fun h => if Z.eqb (uh_id h) 1 then set_status "Complete" h else h)
             (user_history (cur finished_store)) /\
     forall h,
       In h (user_history
               (cur (snd (checkAndUpdateProjectCompletion 1 [Ok; Ok] finished_store)))) ->
       uh_id h = 1 -> uh_status h = Some "Complete"%string).
Proof.
  refine (proj2 (@checkAndUpdateProjectCompletion_complete_iff double_column 1
                   finished_store)
                [Ok; Ok] true []
                (snd (checkAndUpdateProjectCompletion 1 [Ok; Ok] finished_store))
                _ eq_refl).
  simpl. intros [H|[H|[]]]; discriminate.
Defined.

Lemma checkAndUpdateProjectCompletion_frame_witness :
  (Rows false <> Rows true ->
   durable team_store = durable team_store /\ (~ In Lost [Ok] -> team_store = team_store)) /\
  (Rows false = Rows true -> ~ In Lost [Ok] ->
   team_store =
     {| cur := with_user_history
                 (update_where (fun h => Z.eqb (uh_id h) 1) (set_status "Complete"))
                 (cur team_store);
        snap := snap team_store |}).
Proof.
  exact (@checkAndUpdateProjectCompletion_frame double_column 1 [Ok]
           team_store (Rows false) [] team_store eq_refl).
Defined.

(** *** Invitations *)

Section Invitations.

Context {NC : NumericColumn}.

Lemma filter_update_where {A} (p : A -> bool) (f : A -> A) (rows : list A) :
  (forall x, p (f x) = p x) ->
  filter p (update_where p f rows) = map f (filter p rows).
Proof.
  intros Hp. unfold update_where. induction rows as [|x rows IH]; simpl.
  - reflexivity.
  - destruct (p x) eqn:E.
    + rewrite Hp, E. simpl. rewrite IH. reflexivity.
    + rewrite E. exact IH.
Qed.

(** A non-owner membership that is not at Stage Complete keeps the
    evaluator from reporting complete. *)
Lemma evaluator_blocked (projectId : Z) (s : Store) (m : project_members_row) :
  In m (project_members (cur s)) ->
  pm_project_id m = projectId ->
  pm_role m <> "project_owner"%string ->
  pm_progress_status m <> Some "Stage Complete"%string ->
  checkAndUpdateProjectCompletion projectId [] s = (Rows false, [], s).
Proof.
  intros Hin Hp Hr Hs.
  unfold checkAndUpdateProjectCompletion, bind, ret. simpl. unfold execute. simpl.
  rewrite store_eta.
  remember (filter (fun m => Z.eqb (pm_project_id m) projectId && negb (is_owner m))
                   (project_members (cur s))) as members eqn:Hm.
  assert (Hmem : In m members).
  { rewrite Hm. apply filter_In. split; [exact Hin|].
    apply contributor_filter. split; assumption. }
  destruct members as [|m0 members]; [destruct Hmem|].
  cbn [List.length Nat.eqb].
  destruct (forallb stage_complete (m0 :: members)) eqn:Hall; [|reflexivity].
  exfalso. rewrite forallb_forall in Hall.
  apply Hs, stage_complete_iff, Hall, Hmem.
Qed.

(** C9. Accepting an invitation that is addressed to the caller adds one
    membership of the invited instance for the caller, with role member and
    with neither a current stage nor a progress status; the evaluator then
    reports the instance not complete, and keeps doing so in every later
    state in which a membership of the instance with role member has a
    progress status other than Stage Complete. *)
Theorem respondToInvitation_accepted_member (notificationId userId : Z) (s : Store)
    (n : notifications_row) (others : list notifications_row) :
  filter (addressed_to notificationId userId) (notifications (cur s)) = n :: others ->
  exists s',
    respondToInvitation notificationId userId (Some "accepted"%string) [] s
      = (answer 200 "Invitation response recorded successfully", [], s') /\
    snap s' = None /\
    project_members (cur s') =
      project_members (cur s) ++ [invited_member (cur s) (n_project_id n) userId] /\
    checkAndUpdateProjectCompletion (n_project_id n) [] s' = (Rows false, [], s') /\
    forall (t : Store) (m : project_members_row),
      In m (project_members (cur t)) ->
      pm_project_id m = n_project_id n ->
      pm_role m = "member"%string ->
      pm_progress_status m <> Some "Stage Complete"%string ->
      checkAndUpdateProjectCompletion (n_project_id n) [] t = (Rows false, [], t).
Proof.
  intros Hn.
  unfold respondToInvitation, bind, ret. simpl. unfold execute. simpl.
  rewrite filter_update_where by reflexivity.
  rewrite Hn. simpl. unfold commit_response, bind, ret. simpl.
  eexists. split; [reflexivity|]. simpl. split; [reflexivity|].
  split; [reflexivity|].
  assert (Hblock : forall (t : Store) (m : project_members_row),
             In m (project_members (cur t)) ->
             pm_project_id m = n_project_id n ->
             pm_role m = "member"%string ->
             pm_progress_status m <> Some "Stage Complete"%string ->
             checkAndUpdateProjectCompletion (n_project_id n) [] t = (Rows false, [], t)).
  { intros t m Hin Hp Hr Hs. apply (evaluator_blocked t m Hin Hp); [|exact Hs].
    rewrite Hr. discriminate. }
  split; [|exact Hblock].
  apply Hblock with (m := invited_member (cur s) (n_project_id n) userId).
  - simpl. apply in_or_app. right. left. reflexivity.
  - reflexivity.
  - reflexivity.
  - discriminate.
Qed.

End Invitations.

Lemma respondToInvitation_accepted_member_witness :
  exists s',
    respondToInvitation 1 4 (Some "accepted"%string) [] team_store
      = (answer 200 "Invitation response recorded successfully", [], s') /\
    snap s' = None /\
    project_members (cur s') =
      project_members (cur team_store) ++ [invited_member (cur team_store) 1 4] /\
    checkAndUpdateProjectCompletion 1 [] s' = (Rows false, [], s') /\
    forall (t : Store) (m : project_members_row),
      In m (project_members (cur t)) ->
      pm_project_id m = 1 ->
      pm_role m = "member"%string ->
      pm_progress_status m <> Some "Stage Complete"%string ->
      checkAndUpdateProjectCompletion 1 [] t = (Rows false, [], t).
Proof.
  exact (@respondToInvitation_accepted_member double_column 1 4 team_store
           invitation [] eq_refl).
Defined.

(** C3. Accepting the same invitation twice: both responses are recorded
    with 200, and the recipient ends up with two memberships of the
    instance. *)
Theorem respondToInvitation_twice_duplicates :
  exists s1 s2,
    respondToInvitation 1 4 (Some "accepted"%string) [] team_store
      = (answer 200 "Invitation response recorded successfully", [], s1) /\
    respondToInvitation 1 4 (Some "accepted"%string) [] s1
      = (answer 200 "Invitation response recorded successfully", [], s2) /\
    filter (member_of 1 4) (project_members (cur s2)) =
      [ {| pm_id := 4; pm_project_id := 1; pm_user_id := 4; pm_role := "member";
           pm_current_stage := None; pm_progress_status := None; pm_joined_at := None |};
        {| pm_id := 5; pm_project_id := 1; pm_user_id := 4; pm_role := "member";
           pm_current_stage := None; pm_progress_status := None; pm_joined_at := None |} ].
Proof.
  do 2 eexists. split; [reflexivity|]. split; reflexivity.
Qed.

(** The direct assignment of a member looks for a membership of the pair
    first and refuses a second one. *)
Lemma add_project_member_refuses_second :
  add_project_member 1 "a@acme.sg" "member" 0 [] team_store
    = (answer 400 "User is already a member of this project", [], team_store).
Proof. reflexivity. Qed.

(** *** Project requests *)

Section Requests.

Context {NC : NumericColumn}.

Lemma fold_max_ge {A} (key : A -> Z) (rows : list A) (r : A) :
  In r rows -> key r <= fold_right (fun r acc => Z.max (key r) acc) 0 rows.
Proof.
  induction rows as [|x rows IH]; simpl; intros H; [destruct H|].
  destruct H as [H|H].
  - subst. lia.
  - specialize (IH H). lia.
Qed.

Lemma next_id_fresh {A} (key : A -> Z) (rows : list A) (r : A) :
  In r rows -> key r < next_id key rows.
Proof. intros H. unfold next_id. pose proof (fold_max_ge key rows r H). lia. Qed.

Lemma update_where_none {A} (p : A -> bool) (f : A -> A) (rows : list A) :
  (forall r, In r rows -> p r = false) -> update_where p f rows = rows.
Proof.
  intros H. unfold update_where. induction rows as [|x rows IH]; simpl; [reflexivity|].
  rewrite (H x) by (left; reflexivity). f_equal. apply IH.
  intros r Hr. apply H. right. exact Hr.
Qed.

Lemma update_where_app {A} (p : A -> bool) (f : A -> A) (l1 l2 : list A) :
  update_where p f (l1 ++ l2) = update_where p f l1 ++ update_where p f l2.
Proof. unfold update_where. apply map_app. Qed.

Lemma count_cons_nonzero {A} (p : A -> bool) (rows : list A) (r : A) (others : list A) :
  filter p rows = r :: others -> Z.eqb (count p rows) 0 = false.
Proof. intros H. unfold count. rewrite H. reflexivity. Qed.

(** C7, as the code has it. Neither handler looks at the status of the
    request. Approving a request that exists, whatever its status, answers
    200, marks it approved, and adds one instance with status In Progress
    and an owner and a leader membership for the requester; rejecting a
    request that exists, whatever its status, answers 200, marks it
    rejected and changes nothing else. *)
Theorem decide_project_request_any_status (requestId reviewerId : Z)
    (review_notes : option string) (s : Store)
    (request : project_requests_row) (others : list project_requests_row) :
  filter (fun r => Z.eqb (pr_id r) requestId) (project_requests (cur s)) = request :: others ->
  let decided := decide "approved" reviewerId review_notes request in
  let projectId := next_id uh_id (user_history (cur s)) in
  let owner := approved_role "project_owner" decided projectId
                 (next_id pm_id (project_members (cur s))) in
  let leader := approved_role "project_leader" decided projectId
                  (next_id pm_id (project_members (cur s) ++ [owner])) in
  (exists s',
     approve_project_request requestId reviewerId review_notes [] s
       = (Json 200 "Project request approved and project created successfully"
               (Some projectId) None, [], s') /\
     snap s' = None /\
     project_requests (cur s') =
       update_where (fun r => Z.eqb (pr_id r) requestId)
                    (decide "approved" reviewerId review_notes) (project_requests (cur s)) /\
     user_history (cur s') = user_history (cur s) ++ [approved_instance decided projectId] /\
     uh_status (approved_instance decided projectId) = Some "In Progress"%string /\
     project_members (cur s') = project_members (cur s) ++ [owner; leader]) /\
  reject_project_request requestId reviewerId review_notes [] s
    = (answer 200 "Project request rejected successfully", [],
       {| cur := with_project_requests
                   (update_where (fun r => Z.eqb (pr_id r) requestId)
                                 (decide "rejected" reviewerId review_notes)) (cur s);
          snap := snap s |}).
Proof.
  intros Hreq decided projectId owner leader. split.
  - unfold approve_project_request, bind, ret. simpl. unfold execute. simpl.
    rewrite (count_cons_nonzero _ _ Hreq).
    simpl. unfold execute. simpl.
    rewrite filter_update_where by reflexivity. rewrite Hreq.
    simpl. unfold execute. simpl.
    eexists. split; [reflexivity|]. simpl. split; [reflexivity|].
    split; [reflexivity|]. split; [|split; [reflexivity|]].
    + rewrite update_where_app. simpl. rewrite Z.eqb_refl.
      rewrite update_where_none; [reflexivity|].
      intros r Hr. apply Z.eqb_neq. pose proof (next_id_fresh uh_id _ _ Hr). lia.
    + unfold insert_rows. simpl. rewrite <- app_assoc. reflexivity.
  - unfold reject_project_request, bind, ret. simpl. unfold execute. simpl.
    rewrite (count_cons_nonzero _ _ Hreq). reflexivity.
Qed.

(** X27. A request that does not exist is refused by both handlers with 404,
    and nothing is written. *)
Lemma decide_unknown_request (requestId reviewerId : Z) (review_notes : option string)
    (s : Store) :
  snap s = None ->
  (forall r, In r (project_requests (cur s)) -> Z.eqb (pr_id r) requestId = false) ->
  approve_project_request requestId reviewerId review_notes [] s
    = (answer 404 "Request not found", [], s) /\
  reject_project_request requestId reviewerId review_notes [] s
    = (answer 404 "Request not found", [], s).
Proof.
  intros Hs Hno.
  assert (Hc : count (fun r => Z.eqb (pr_id r) requestId) (project_requests (cur s)) = 0).
  { unfold count. induction (project_requests (cur s)) as [|r rows IH]; [reflexivity|].
    simpl. rewrite (Hno r) by (left; reflexivity). apply IH.
    intros x Hx. apply Hno. right. exact Hx. }
  destruct s as [db sn]. simpl in *. subst sn. split.
  - unfold approve_project_request, bind, ret. simpl. unfold execute. simpl.
    rewrite Hc. reflexivity.
  - unfold reject_project_request, bind, ret.
    cbn [queryDatabase]. unfold execute, decideRequestQuery. cbn [cur snap affectedRows].
    rewrite Hc. unfold with_project_requests.
    rewrite update_where_none by exact Hno.
    destruct db; reflexivity.
Qed.

End Requests.

Lemma decide_unknown_request_witness :
  approve_project_request (NC := double_column) 7 9 None [] team_store
    = (answer 404 "Request not found", [], team_store) /\
  reject_project_request 7 9 None [] team_store
    = (answer 404 "Request not found", [], team_store).
Proof.
  apply (@decide_unknown_request double_column 7 9 None team_store).
  - reflexivity.
  - intros r [<-|[]]. reflexivity.
Defined.

Lemma decide_project_request_any_status_witness :
  reject_project_request 1 9 None [] approved_once
    = (answer 200 "Project request rejected successfully", [],
       {| cur := with_project_requests
                   (update_where (fun r => Z.eqb (pr_id r) 1) (decide "rejected" 9 None))
                   (cur approved_once);
          snap := snap approved_once |}).
Proof.
  exact (proj2 (@decide_project_request_any_status double_column 1 9 None approved_once
                  (decide "approved" 9 None pending_request) [] eq_refl)).
Defined.

(** Approving the request of user 2 a second time answers 200 again and
    creates a second instance with its own owner and leader memberships. *)
Lemma approve_twice_creates_two_projects :
  exists s2,
    map pr_status (project_requests (cur approved_once)) = ["approved"%string] /\
    approve_project_request 1 9 None [] approved_once
      = (Json 200 "Project request approved and project created successfully"
              (Some 3) None, [], s2) /\
    map uh_id (user_history (cur approved_once)) = [1; 2] /\
    map uh_id (user_history (cur s2)) = [1; 2; 3] /\
    map (fun m => (pm_project_id m, pm_user_id m, pm_role m))
        (filter (fun m => Z.eqb (pm_user_id m) 2 && negb (Z.eqb (pm_project_id m) 1))
                (project_members (cur s2)))
      = [ (2, 2, "project_owner"%string); (2, 2, "project_leader"%string);
          (3, 2, "project_owner"%string); (3, 2, "project_leader"%string) ].
Proof.
  exists (after (approve_project_request 1 9 None) approved_once).
  split; [|split; [|split; [|split]]]; vm_compute; reflexivity.
Qed.

(** C2. The approval of a project request stores the membership of the
    owner with progress status In Progress. *)
Theorem approve_project_request_owner_in_progress :
  exists s',
    approve_project_request 1 9 None [] team_store
      = (Json 200 "Project request approved and project created successfully"
              (Some 2) None, [], s') /\
    filter is_owner (filter (fun m => Z.eqb (pm_project_id m) 2) (project_members (cur s')))
      = [ {| pm_id := 4; pm_project_id := 2; pm_user_id := 2; pm_role := "project_owner";
             pm_current_stage := Some design;
             pm_progress_status := Some "In Progress"%string;
             pm_joined_at := None |} ].
Proof.
  exists approved_once. split; vm_compute; reflexivity.
Qed.

(** *** Stage transition *)

Section Transition.

Context {NC : NumericColumn}.

Lemma filter_update_where_none {A} (p q : A -> bool) (f : A -> A) (rows : list A) :
  (forall x, q (f x) = q x) ->
  (forall x, In x rows -> q x = false) ->
  filter q (update_where p f rows) = [].
Proof.
  intros Hq Hn. unfold update_where. induction rows as [|x rows IH]; simpl; [reflexivity|].
  assert (Hx : q (if p x then f x else x) = false).
  { destruct (p x); [rewrite Hq|]; apply Hn; left; reflexivity. }
  rewrite Hx. apply IH. intros y Hy. apply Hn. right. exact Hy.
Qed.

Lemma completeCurrentStageQuery_runs (projectId userId : Z) (stage : option string)
    (now : Z) (db : DB) :
  exists f, completeCurrentStageQuery projectId userId stage now db
            = Some (with_project_stage_progress f db, tt).
Proof.
  unfold completeCurrentStageQuery.
  destruct (existsb _ _); eexists; reflexivity.
Qed.

Lemma filter_none {A} (q : A -> bool) (rows : list A) :
  (forall x, In x rows -> q x = false) -> filter q rows = [].
Proof.
  intros Hn. induction rows as [|x rows IH]; simpl; [reflexivity|].
  rewrite (Hn x) by (left; reflexivity). apply IH.
  intros y Hy. apply Hn. right. exact Hy.
Qed.

Lemma filter_update_where_comm {A} (p q : A -> bool) (f : A -> A) (rows : list A) :
  (forall x, q (f x) = q x) ->
  filter q (update_where p f rows) = update_where p f (filter q rows).
Proof.
  intros Hq. unfold update_where. induction rows as [|x rows IH]; simpl; [reflexivity|].
  assert (Hx : q (if p x then f x else x) = q x) by (destruct (p x); auto).
  rewrite Hx. destruct (q x); simpl; rewrite IH; reflexivity.
Qed.

Lemma existsb_filter_update_where {A} (p q : A -> bool) (f : A -> A) (rows : list A) :
  existsb q rows = match update_where p f (filter q rows) with
                   | [] => false
                   | _ :: _ => true
                   end.
Proof.
  unfold update_where. induction rows as [|x rows IH]; [reflexivity|].
  simpl. destruct (q x); [reflexivity|exact IH].
Qed.

Lemma map_update_where {A B} (g : A -> B) (p : A -> bool) (f : A -> A) (rows : list A) :
  (forall x, g (f x) = g x) -> map g (update_where p f rows) = map g rows.
Proof.
  intros Hg. unfold update_where. rewrite map_map. apply map_ext.
  intros x. destruct (p x); auto.
Qed.

Lemma next_id_update_where {A} (key : A -> Z) (p : A -> bool) (f : A -> A) (rows : list A) :
  (forall x, key (f x) = key x) ->
  next_id key (update_where p f rows) = next_id key rows.
Proof.
  intros Hk. unfold next_id, update_where. f_equal.
  induction rows as [|x rows IH]; simpl; [reflexivity|].
  rewrite IH. destruct (p x); [rewrite Hk|]; reflexivity.
Qed.

Lemma isoDate_addDays (t k : Z) : isoDate (addDays t k) = isoDate t + k.
Proof. unfold isoDate, addDays. apply Z.div_add. discriminate. Qed.

Lemma memberValue_migrated (newProjectId userId now id : Z) (next : string)
    (m : project_members_row) :
  migrated_from newProjectId userId next m (memberValue newProjectId next userId now m id).
Proof.
  unfold migrated_from, memberValue. simpl.
  destruct (String.eqb_spec (pm_role m) "project_owner");
    destruct (Z.eqb_spec (pm_user_id m) userId); intuition congruence.
Qed.

Lemma number_from_migrated (newProjectId userId now : Z) (next : string)
    (members : list project_members_row) :
  forall n,
    Forall2 (migrated_from newProjectId userId next) members
      (number_from n (map (memberValue newProjectId next userId now) members)).
Proof.
  induction members as [|m members IH]; intros n; simpl; constructor.
  - apply memberValue_migrated.
  - apply IH.
Qed.

(** C4, as the code has it. When the instance exists (with its owner among
    the users), a next stage is named, and no row of [user_history] has the
    name and description of the instance, the next stage as its stage and
    the project group of the instance (or no project group) as its group,
    archived or not, and when today and the due date are days a [Date] can
    hold, then with the store answering every query a row for the next
    stage is created: status In Progress, start date today, due date the
    start date plus the stage duration in days (14 days when the stage
    duration is null or 0), organization, name, description, stage
    duration and project dates cloned; and every membership of the current
    instance is copied to it with its role, with progress status null for
    an owner, In Progress for another role of the completing user and Not
    Started for every other membership. *)
Theorem complete_project_creates_next_stage (projectId userId : Z) (next : string)
    (currentStage : option string) (now : Z) (s : Store)
    (currentProject : user_history_row) (others : list user_history_row) :
  filter (fun h => Z.eqb (uh_id h) projectId
                   && existsb (fun u => Z.eqb (u_id u) (uh_user_id h)) (users (cur s)))
         (user_history (cur s)) = currentProject :: others ->
  next <> ""%string ->
  (forall h, In h (user_history (cur s)) ->
             next_stage_match (uh_project_name currentProject)
               (uh_project_description currentProject) next
               (num_or (uh_project_id currentProject) projectId) h = false) ->
  valid_time now = true ->
  valid_time (addDays now (num_or (uh_stage_duration currentProject) 14)) = true ->
  let newProjectId := next_id uh_id (user_history (cur s)) in
  let created :=
    next_stage_row currentProject next projectId (isoDate now)
      (isoDate now + num_or (uh_stage_duration currentProject) 14) newProjectId in
  let members := filter (fun m => Z.eqb (pm_project_id m) projectId)
                        (project_members (cur s)) in
  exists (allCompleted : bool) (migrated : list project_members_row) (s' : Store),
    complete_project projectId userId (Some next) currentStage now [] s
      = (match members with
         | [] => Json 200 "Stage completed successfully" (Some newProjectId) None
         | _ :: _ => stage_answer allCompleted newProjectId
         end, [], s') /\
    snap s' = None /\
    user_history (cur s') =
      (if allCompleted
       then update_where (fun h => Z.eqb (uh_id h) projectId) (set_status "Complete")
                         (user_history (cur s))
       else user_history (cur s)) ++ [created] /\
    (uh_status created = Some "In Progress"%string /\
     uh_user_id created = uh_user_id currentProject /\
     uh_project_id created = Some (num_or (uh_project_id currentProject) projectId) /\
     uh_carbon_emit created = num_zero /\
     uh_session_duration created = num_zero /\
     uh_stage created = Some next /\
     uh_stage_start_date created = Some (isoDate now) /\
     uh_stage_due_date created
       = Some (isoDate now + num_or (uh_stage_duration currentProject) 14) /\
     uh_organization created = uh_organization currentProject /\
     uh_project_name created = uh_project_name currentProject /\
     uh_project_description created = uh_project_description currentProject /\
     uh_stage_duration created = uh_stage_duration currentProject /\
     uh_project_start_date created = uh_project_start_date currentProject /\
     uh_project_due_date created = uh_project_due_date currentProject) /\
    project_members (cur s') =
      update_where (fun m => member_of projectId userId m && negb (is_owner m))
                   (set_progress (Some "Stage Complete"%string))
                   (project_members (cur s)) ++ migrated /\
    Forall2 (migrated_from newProjectId userId next) members migrated.
Proof.
  intros Hcur Hnext Hnone Hnow Hdue newProjectId created members.
  assert (Hdates : next_stage_dates currentProject now
                   = Some (isoDate now,
                           isoDate now + num_or (uh_stage_duration currentProject) 14)).
  { unfold next_stage_dates, toISODate. rewrite Hnow, Hdue, isoDate_addDays. reflexivity. }
  unfold complete_project, bind.
  rewrite (@queryDatabase_nil _ _ (getCurrentProjectQuery projectId) s (cur s) [currentProject]).
  2:{ unfold getCurrentProjectQuery. rewrite Hcur. reflexivity. }
  cbv beta iota zeta.
  assert (Hs : str_or (Some next) None = Some next).
  { unfold str_or. destruct (String.eqb_spec next ""); [contradiction|reflexivity]. }
  rewrite Hs. simpl beginTransaction. cbv beta iota zeta.
  destruct (completeCurrentStageQuery_runs projectId userId
              (str_or currentStage (uh_stage currentProject)) now (cur s)) as [f Hf].
  erewrite queryDatabase_nil by (cbn [cur]; exact Hf). cbv beta iota zeta.
  erewrite queryDatabase_nil by reflexivity. cbv beta iota zeta.
  cbn [cur snap].
  match goal with |- context [checkAndUpdateProjectCompletion projectId [] ?st] =>
    destruct (evaluator_runs projectId st) as [b Hb]; rewrite Hb; clear Hb end.
  cbv beta iota zeta. cbn [cur snap].
  set (pm1 := update_where (fun m => member_of projectId userId m && negb (is_owner m))
                (set_progress (Some "Stage Complete"%string)) (project_members (cur s))).
  set (uh2 := if b
              then update_where (fun h => Z.eqb (uh_id h) projectId) (set_status "Complete")
                                (user_history (cur s))
              else user_history (cur s)).
  match goal with |- context [queryDatabase (checkExistingQuery _ _ _ _) [] ?st] =>
    remember (cur st) as d2 eqn:Hd2 end.
  assert (Huh : user_history d2 = uh2) by (subst d2 uh2; destruct b; reflexivity).
  assert (Hpm : project_members d2 = pm1) by (subst d2 pm1; destruct b; reflexivity).
  cbn [cur snap] in Hd2. rewrite <- Hd2. clear Hd2 f Hf.
  assert (Hfree : filter (next_stage_match (uh_project_name currentProject)
                            (uh_project_description currentProject) next
                            (num_or (uh_project_id currentProject) projectId)) uh2 = []).
  { subst uh2. destruct b.
    - apply filter_update_where_none; [reflexivity|exact Hnone].
    - apply filter_none. exact Hnone. }
  assert (Hid : next_id uh_id uh2 = newProjectId).
  { subst uh2 newProjectId. destruct b; [|reflexivity].
    apply next_id_update_where. reflexivity. }
  erewrite queryDatabase_nil
    by (cbn [cur]; unfold checkExistingQuery; rewrite Huh, Hfree; reflexivity).
  cbv beta iota zeta. cbn [map firstn].
  unfold createNextStage. rewrite Hdates. unfold bind.
  erewrite queryDatabase_nil
    by (cbn [cur]; unfold createNextStageQuery; rewrite Huh, Hid; reflexivity).
  cbv beta iota zeta. cbn [insertId].
  erewrite queryDatabase_nil
    by (cbn [cur]; unfold transferMembersQuery; cbn [project_members with_user_history];
        rewrite Hpm; reflexivity).
  cbv beta iota zeta.
  assert (Hmv : map (memberValue newProjectId next userId now)
                    (filter (fun m => Z.eqb (pm_project_id m) projectId) pm1)
                = map (memberValue newProjectId next userId now) members).
  { subst pm1 members. rewrite filter_update_where_comm by reflexivity.
    apply map_update_where. reflexivity. }
  rewrite Hmv.
  exists b, (number_from (next_id pm_id pm1)
               (map (memberValue newProjectId next userId now) members)).
  destruct members as [|m0 members'] eqn:Hmem.
  - cbn [map List.length Nat.eqb]. unfold commit_with, bind, ret. simpl commit.
    cbv beta iota zeta. eexists. split; [reflexivity|].
    cbn [cur snap user_history project_members with_user_history].
    rewrite Huh, Hpm. split; [reflexivity|]. split; [reflexivity|].
    split; [|split; [rewrite app_nil_r; reflexivity|constructor]].
    subst created. cbn. repeat split.
  - cbn [map List.length Nat.eqb].
    erewrite queryDatabase_nil by reflexivity. cbv beta iota zeta.
    erewrite queryDatabase_nil by reflexivity. cbv beta iota zeta.
    erewrite queryDatabase_nil by reflexivity. cbv beta iota zeta.
    unfold commit_with, bind, ret. simpl commit. cbv beta iota zeta.
    eexists. split; [reflexivity|].
    cbn [cur snap user_history project_members with_user_history with_project_members].
    rewrite Huh, Hpm. split; [reflexivity|]. split; [reflexivity|].
    split; [|split; [reflexivity|
      apply (number_from_migrated newProjectId userId now next (m0 :: members'))]].
    subst created. cbn. repeat split.
Qed.

End Transition.

Lemma complete_project_creates_next_stage_witness :
  exists (allCompleted : bool) (s' : Store),
    complete_project 1 2 (Some development) (Some design) noon [] team_store
      = (stage_answer allCompleted 2, [], s').
Proof.
  destruct (@complete_project_creates_next_stage double_column 1 2 development
              (Some design) noon team_store (design_instance (Some 14)) [] eq_refl)
    as (b & migrated & s' & H & _).
  - discriminate.
  - intros h [<-|[]]. reflexivity.
  - reflexivity.
  - reflexivity.
  - exists b, s'. exact H.
Defined.

(** With a stage duration of 0 days the next stage is due 14 days after its
    start, not on the day of its start: the row created for it does not
    satisfy due date = start date + stage duration. *)
Lemma complete_project_zero_duration_due_date :
  complete_project 1 2 (Some development) (Some design) noon []
      (at_rest (team_db (Some 0)))
    = (Json 200 "Stage-User-Completed" (Some 2) None, [],
       after (complete_project 1 2 (Some development) (Some design) noon)
             (at_rest (team_db (Some 0)))) /\
  map (fun h => (uh_id h, uh_stage_duration h, uh_stage_start_date h, uh_stage_due_date h))
      (user_history
         (cur (after (complete_project 1 2 (Some development) (Some design) noon)
                     (at_rest (team_db (Some 0))))))
    = [ (1, Some 0, Some 0, Some 14); (2, Some 0, Some 100, Some 114) ] /\
  ~ (forall h,
       In h (user_history
               (cur (after (complete_project 1 2 (Some development) (Some design) noon)
                           (at_rest (team_db (Some 0)))))) ->
       uh_id h = 2 ->
       exists start duration,
         uh_stage_start_date h = Some start /\
         uh_stage_duration h = Some duration /\
         uh_stage_due_date h = Some (start + duration)).
Proof.
  split; [vm_compute; reflexivity|]. split; [vm_compute; reflexivity|].
  intros H.
  destruct (H (next_stage_row (design_instance (Some 0)) development 1 100 114 2))
    as (start & duration & Hs & Hd & Hdue).
  - vm_compute. right. left. reflexivity.
  - reflexivity.
  - vm_compute in Hs, Hd, Hdue. inversion Hs; inversion Hd; subst. discriminate.
Qed.

(** With a stage duration of 100,000,000 days the due date of the next
    stage is no date: formatting it throws after the membership has been
    updated, so the request is never answered and the transaction it opened
    is neither committed nor rolled back. *)
Lemma complete_project_due_date_out_of_range :
  let s := at_rest (team_db (NC := double_column) (Some 100000000)) in
  valid_time (addDays noon 100000000) = false /\
  fst (fst (complete_project 1 2 (Some development) (Some design) noon [] s)) = Crashed /\
  snap (after (complete_project 1 2 (Some development) (Some design) noon) s)
    = Some (team_db (Some 100000000)) /\
  map uh_id (user_history
               (cur (after (complete_project 1 2 (Some development) (Some design) noon) s)))
    = [1].
Proof. vm_compute. repeat split; reflexivity. Qed.

(** An archived row of the next stage counts as the next stage: the caller
    is added to it and no instance is created. *)
Lemma complete_project_joins_archived_stage :
  complete_project 1 2 (Some development) (Some design) noon []
      (two_stage_store "Archived")
    = (Json 200 "Stage-User-Completed" (Some 2) None, [],
       after (complete_project 1 2 (Some development) (Some design) noon)
             (two_stage_store "Archived")) /\
  map (fun h => (uh_id h, uh_status h))
      (user_history
         (cur (after (complete_project 1 2 (Some development) (Some design) noon)
                     (two_stage_store "Archived"))))
    = [ (1, Some "In Progress"%string); (2, Some "Archived"%string) ].
Proof. split; vm_compute; reflexivity. Qed.

(** An owner who completes the stage while the row of the next stage exists
    is copied to it with progress status In Progress. *)
Lemma complete_project_owner_joins_in_progress :
  map (fun m => (pm_project_id m, pm_user_id m, pm_role m, pm_progress_status m))
      (filter (fun m => Z.eqb (pm_project_id m) 2)
         (project_members
            (cur (after (complete_project 1 1 (Some development) (Some design) noon)
                        (two_stage_store "In Progress")))))
    = [ (2, 1, "project_owner"%string, Some "In Progress"%string) ].
Proof. vm_compute. reflexivity. Qed.

(** *** Unit of work *)

Section UnitOfWork.

Context {NC : NumericColumn}.

Lemma queryDatabase_inv {R} (q : statement R) (os : list outcome) (s : Store)
    (r : result R) (os' : list outcome) (s' : Store) :
  ~ In Lost os ->
  queryDatabase q os s = (r, os', s') ->
  ~ In Lost os' /\ snap s' = snap s.
Proof.
  intros Hn H. split; [exact (queryDatabase_script _ _ _ H Hn)|].
  destruct os as [|[] os]; simpl in H.
  - unfold execute in H. destruct (q (cur s)) as [[d x]|]; inversion H; reflexivity.
  - unfold execute in H. destruct (q (cur s)) as [[d x]|]; inversion H; reflexivity.
  - inversion H; reflexivity.
  - exfalso. apply Hn. left. reflexivity.
Qed.

Lemma rollback_in_transaction (s : Store) (d0 : DB) :
  snap s = Some d0 -> rollback s = {| cur := d0; snap := None |}.
Proof. intros H. unfold rollback, durable. rewrite H. reflexivity. Qed.

Lemma evaluator_inv (projectId : Z) (os : list outcome) (s : Store)
    (r : result bool) (os' : list outcome) (s' : Store) :
  ~ In Lost os ->
  checkAndUpdateProjectCompletion projectId os s = (r, os', s') ->
  ~ In Lost os' /\ snap s' = snap s.
Proof.
  intros Hn H. unfold checkAndUpdateProjectCompletion, bind, ret in H.
  destruct (queryDatabase (getMembersQuery projectId) os s) as [[r1 os1] s1] eqn:E1.
  apply queryDatabase_inv in E1; [|exact Hn]. destruct E1 as [Hn1 Hs1].
  destruct r1 as [members|]; [|inversion H; subst; auto].
  destruct (Nat.eqb (List.length members) 0); [inversion H; subst; auto|].
  destruct (forallb stage_complete members); [|inversion H; subst; auto].
  destruct (queryDatabase (updateProjectQuery projectId) os1 s1) as [[r2 os2] s2] eqn:E2.
  apply queryDatabase_inv in E2; [|exact Hn1]. destruct E2 as [Hn2 Hs2].
  destruct r2; inversion H; subst; split; congruence.
Qed.

Ltac rolled_back H :=
  unfold rollback_with, do_rollback, bind, ret in H;
  inversion H; subst; apply rollback_in_transaction; congruence.

Ltac query H :=
  match type of H with
  | context [queryDatabase ?q ?os ?s] =>
      let E := fresh "E" in
      let r := fresh "answered" in
      destruct (queryDatabase q os s) as [[r ?os] ?s] eqn:E;
      apply queryDatabase_inv in E; [|assumption];
      destruct E as [? ?];
      cbv beta iota zeta in H
  end.

Lemma commit_with_undone (ok : http_response) (d0 : DB) (os : list outcome) (s : Store)
    (r : http_response) (os' : list outcome) (s' : Store) :
  ~ failed ok ->
  snap s = Some d0 ->
  commit_with ok os s = (r, os', s') ->
  failed r ->
  s' = {| cur := d0; snap := None |}.
Proof.
  intros Hok Hs H Hr. unfold commit_with, bind, ret, commit in H.
  destruct os as [|[] os]; cbv beta iota zeta in H;
    try (inversion H; subst; contradiction);
    rolled_back H.
Qed.

Lemma stage_answer_ok (b : bool) (id : Z) : ~ failed (stage_answer b id).
Proof. destruct b; simpl; intros H; apply H; reflexivity. Qed.

Lemma joinExistingStage_undone (projectId userId : Z) (next : string) (now : Z)
    (allCompleted : bool) (existingProjectId : Z) (d0 : DB)
    (os : list outcome) (s : Store) (r : http_response) (os' : list outcome) (s' : Store) :
  ~ In Lost os ->
  snap s = Some d0 ->
  joinExistingStage projectId userId next now allCompleted existingProjectId os s
    = (r, os', s') ->
  failed r ->
  s' = {| cur := d0; snap := None |}.
Proof.
  intros Hn Hs H Hr. unfold joinExistingStage, bind in H.
  query H. destruct answered as [[|m ms]|]; [| |rolled_back H].
  - query H. destruct answered as [?|]; [|rolled_back H].
    eapply commit_with_undone; [apply stage_answer_ok| |exact H|exact Hr]. congruence.
  - query H. destruct answered as [?|]; [|rolled_back H].
    eapply commit_with_undone; [apply stage_answer_ok| |exact H|exact Hr]. congruence.
Qed.

Lemma createNextStage_undone (currentProject : user_history_row) (projectId userId : Z)
    (next : string) (now : Z) (allCompleted : bool) (d0 : DB)
    (os : list outcome) (s : Store) (r : http_response) (os' : list outcome) (s' : Store) :
  ~ In Lost os ->
  snap s = Some d0 ->
  createNextStage currentProject projectId userId next now allCompleted os s
    = (r, os', s') ->
  failed r ->
  r <> Crashed ->
  s' = {| cur := d0; snap := None |}.
Proof.
  intros Hn Hs H Hr Hc. unfold createNextStage in H.
  destruct (next_stage_dates currentProject now) as [[stage_start_date stage_due_date]|];
    [|unfold ret in H; inversion H; subst; contradiction Hc; reflexivity].
  unfold bind in H.
  query H. destruct answered as [insertResult|]; [|rolled_back H].
  query H. destruct answered as [membersToTransfer|]; [|rolled_back H].
  destruct (Nat.eqb _ 0).
  - eapply commit_with_undone; [| |exact H|exact Hr].
    + simpl. intros F. apply F. reflexivity.
    + congruence.
  - query H. destruct answered as [?|]; [|rolled_back H].
    query H. destruct answered as [?|]; [|rolled_back H].
    query H. destruct answered as [?|]; [|rolled_back H].
    eapply commit_with_undone; [apply stage_answer_ok| |exact H|exact Hr]. congruence.
Qed.

(** X1. As long as the connection is not lost, the unit of work of
    [complete_project] is all or nothing: when the handler answers, and
    does not answer 200, the store is the one it started from.  (When the
    due date of the next stage is no date, the handler raises instead of
    answering, and the transaction stays open.) *)
Lemma complete_project_undone (projectId userId : Z) (nextStage currentStage : option string)
    (now : Z) (os : list outcome) (s : Store)
    (r : http_response) (os' : list outcome) (s' : Store) :
  ~ In Lost os ->
  snap s = None ->
  complete_project projectId userId nextStage currentStage now os s = (r, os', s') ->
  failed r ->
  r <> Crashed ->
  s' = s.
Proof.
  intros Hn Hs H Hr Hc. unfold complete_project, bind in H.
  destruct (queryDatabase (getCurrentProjectQuery projectId) os s)
    as [[r0 os0] s0] eqn:E0.
  pose proof (queryDatabase_reads (getCurrentProjectQuery_reads projectId) _ _ E0)
    as [_ Hs0].
  specialize (Hs0 Hn). subst s0.
  apply queryDatabase_script in E0; [|exact Hn].
  destruct r0 as [[|currentProject rest]|];
    [inversion H; reflexivity| |inversion H; reflexivity].
  assert (Hbegin : forall e os1 s1,
             beginTransaction os0 s = (e, os1, s1) ->
             ~ In Lost os1 /\ (e = true -> s1 = s) /\ (e = false -> snap s1 = Some (cur s))).
  { intros e os1 s1 Hb. unfold beginTransaction in Hb.
    destruct os0 as [|[] os0]; inversion Hb; subst;
      (split; [intros F; apply E0; try right; assumption
              |split; [try discriminate; reflexivity|try discriminate; reflexivity]]). }
  destruct (beginTransaction os0 s) as [[e os1] s1] eqn:Eb.
  destruct (Hbegin _ _ _ eq_refl) as [Hn1 [Ht Hf]].
  cbv beta iota zeta in H.
  destruct e; [unfold ret in H; inversion H; subst; auto|].
  specialize (Hf eq_refl).
  assert (Hgoal : s' = {| cur := cur s; snap := None |} -> s' = s).
  { intros ->. rewrite <- Hs. apply store_eta. }
  apply Hgoal. clear Hgoal Hbegin Ht.
  query H. destruct answered as [?|]; [|rolled_back H].
  query H. destruct answered as [?|]; [|rolled_back H].
  match type of H with
  | context [checkAndUpdateProjectCompletion projectId ?o ?t] =>
      destruct (checkAndUpdateProjectCompletion projectId o t) as [[k os4] s4] eqn:Ek
  end.
  apply evaluator_inv in Ek; [|assumption]. destruct Ek as [Hn4 Hs4].
  cbv beta iota zeta in H.
  destruct k as [allCompleted|]; [|rolled_back H].
  destruct (str_or nextStage None) as [next|].
  - query H. destruct answered as [[|existingProjectId ids]|]; [| |rolled_back H].
    + eapply createNextStage_undone; [| |exact H|exact Hr|exact Hc].
      * assumption.
      * congruence.
    + eapply joinExistingStage_undone; [| |exact H|exact Hr].
      * assumption.
      * congruence.
  - eapply commit_with_undone; [| |exact H|exact Hr].
    + destruct allCompleted; simpl; intros F; apply F; reflexivity.
    + congruence.
Qed.

Lemma commit_response_undone (d0 : DB) (os : list outcome) (s : Store)
    (r : http_response) (os' : list outcome) (s' : Store) :
  snap s = Some d0 ->
  commit_response os s = (r, os', s') ->
  failed r ->
  s' = {| cur := d0; snap := None |}.
Proof.
  intros Hs H Hr. unfold commit_response, bind, ret, commit in H.
  destruct os as [|[] os]; cbv beta iota zeta in H;
    try (inversion H; subst; exfalso; apply Hr; reflexivity);
    rolled_back H.
Qed.

(** X2. As long as the connection is not lost, the response to an
    invitation is all or nothing: when the handler answers with an error,
    neither the notification nor a membership has changed. *)
Theorem respondToInvitation_undone (notificationId userId : Z) (response : option string)
    (os : list outcome) (s : Store) (r : http_response) (os' : list outcome) (s' : Store) :
  ~ In Lost os ->
  snap s = None ->
  respondToInvitation notificationId userId response os s = (r, os', s') ->
  failed r ->
  r <> Crashed ->
  s' = s.
Proof.
  intros Hn Hs H Hr Hc. unfold respondToInvitation, bind in H.
  assert (Hbegin : forall e os1 s1,
             beginTransaction os s = (e, os1, s1) ->
             ~ In Lost os1 /\ (e = true -> s1 = s) /\ (e = false -> snap s1 = Some (cur s))).
  { intros e os1 s1 Hb. unfold beginTransaction in Hb.
    destruct os as [|[] os]; inversion Hb; subst;
      (split; [intros F; apply Hn; try right; assumption
              |split; [try discriminate; reflexivity|try discriminate; reflexivity]]). }
  destruct (beginTransaction os s) as [[e os1] s1] eqn:Eb.
  destruct (Hbegin _ _ _ eq_refl) as [Hn1 [Ht Hf]].
  cbv beta iota zeta in H.
  destruct e; [unfold ret in H; inversion H; subst; auto|].
  specialize (Hf eq_refl).
  assert (Hgoal : s' = {| cur := cur s; snap := None |} -> s' = s).
  { intros ->. rewrite <- Hs. apply store_eta. }
  apply Hgoal. clear Hgoal Hbegin Ht.
  query H. destruct answered as [?|]; [|rolled_back H].
  destruct (is_accepted response).
  - query H. destruct answered as [[|projectId ids]|]; [| |rolled_back H].
    + unfold ret in H. inversion H; subst. contradiction Hc. reflexivity.
    + query H. destruct answered as [?|]; [|rolled_back H].
      eapply commit_response_undone; [|exact H|exact Hr]. congruence.
  - eapply commit_response_undone; [|exact H|exact Hr]. congruence.
Qed.

(** X3. As long as the connection is not lost, the approval of a project
    request is all or nothing: when the handler does not answer 200, the
    request, the projects and the memberships are as they were. *)
Theorem approve_project_request_undone (requestId reviewerId : Z)
    (review_notes : option string) (os : list outcome) (s : Store)
    (r : http_response) (os' : list outcome) (s' : Store) :
  ~ In Lost os ->
  snap s = None ->
  approve_project_request requestId reviewerId review_notes os s = (r, os', s') ->
  failed r ->
  s' = s.
Proof.
  intros Hn Hs H Hr. unfold approve_project_request, bind in H.
  assert (Hbegin : forall e os1 s1,
             beginTransaction os s = (e, os1, s1) ->
             ~ In Lost os1 /\ (e = true -> s1 = s) /\ (e = false -> snap s1 = Some (cur s))).
  { intros e os1 s1 Hb. unfold beginTransaction in Hb.
    destruct os as [|[] os]; inversion Hb; subst;
      (split; [intros F; apply Hn; try right; assumption
              |split; [try discriminate; reflexivity|try discriminate; reflexivity]]). }
  destruct (beginTransaction os s) as [[e os1] s1] eqn:Eb.
  destruct (Hbegin _ _ _ eq_refl) as [Hn1 [Ht Hf]].
  cbv beta iota zeta in H.
  destruct e; [unfold ret in H; inversion H; subst; auto|].
  specialize (Hf eq_refl).
  assert (Hgoal : s' = {| cur := cur s; snap := None |} -> s' = s).
  { intros ->. rewrite <- Hs. apply store_eta. }
  apply Hgoal. clear Hgoal Hbegin Ht.
  query H. destruct answered as [results|]; [|rolled_back H].
  destruct (Z.eqb (affectedRows results) 0); [rolled_back H|].
  query H. destruct answered as [[|request requests]|]; [rolled_back H| |rolled_back H].
  query H. destruct answered as [projectResult|]; [|rolled_back H].
  query H. destruct answered as [?|]; [|rolled_back H].
  query H. destruct answered as [?|]; [|rolled_back H].
  query H. destruct answered as [?|]; [|rolled_back H].
  unfold commit, ret in H.
  match type of H with
  | context [match ?o with [] => _ | _ :: _ => _ end] => destruct o as [|[] o']
  end; cbv beta iota zeta in H;
    try (inversion H; subst; exfalso; apply Hr; reflexivity);
    rolled_back H.
Qed.

End UnitOfWork.

Lemma complete_project_undone_witness :
  snd (complete_project 1 2 None (Some design) noon [Ok; Ok; Ok; Ok; Fail] team_store)
    = team_store.
Proof.
  apply (@complete_project_undone double_column 1 2 None (Some design) noon
           [Ok; Ok; Ok; Ok; Fail] team_store
           (answer 500 "Failed to check project completion") []).
  - simpl. intros [H|[H|[H|[H|[H|[]]]]]]; discriminate.
  - reflexivity.
  - vm_compute. reflexivity.
  - simpl. discriminate.
  - discriminate.
Defined.

Lemma respondToInvitation_undone_witness :
  snd (respondToInvitation 1 4 (Some "accepted"%string) [Ok; Ok; Ok; Fail] team_store)
    = team_store.
Proof.
  apply (@respondToInvitation_undone double_column 1 4 (Some "accepted"%string)
           [Ok; Ok; Ok; Fail] team_store (answer 500 "Transaction error") []).
  - simpl. intros [H|[H|[H|[H|[]]]]]; discriminate.
  - reflexivity.
  - vm_compute. reflexivity.
  - simpl. discriminate.
  - discriminate.
Defined.

Lemma approve_project_request_undone_witness :
  snd (approve_project_request 1 9 None [Ok; Ok; Ok; Ok; Ok; Fail] team_store)
    = team_store.
Proof.
  apply (@approve_project_request_undone double_column 1 9 None
           [Ok; Ok; Ok; Ok; Ok; Fail] team_store
           (answer 500 "Failed to add project owner") []).
  - simpl. intros [H|[H|[H|[H|[H|[H|[]]]]]]]; discriminate.
  - reflexivity.
  - vm_compute. reflexivity.
  - simpl. discriminate.
Defined.

(** C5. A connection lost inside the unit of work breaks it: the handler
    answers 500 for the step that failed, yet the membership of the caller
    stays at Stage Complete in the committed database, while the progress
    record written before it is gone. *)
Theorem complete_project_partial_after_reconnect :
  complete_project 1 2 None (Some design) noon reconnect_then_fail team_store
    = (answer 500 "Failed to check project completion", [], interrupted_store) /\
  map (fun m => (pm_user_id m, pm_progress_status m))
      (project_members (durable team_store))
    = [ (1, None); (2, Some "In Progress"%string); (3, Some "In Progress"%string) ] /\
  map (fun m => (pm_user_id m, pm_progress_status m))
      (project_members (durable interrupted_store))
    = [ (1, None); (2, Some "Stage Complete"%string); (3, Some "In Progress"%string) ] /\
  project_stage_progress (durable interrupted_store) = [] /\
  durable interrupted_store <> durable team_store.
Proof.
  split; [vm_compute; reflexivity|].
  split; [vm_compute; reflexivity|].
  split; [vm_compute; reflexivity|].
  split; [vm_compute; reflexivity|].
  intros H.
  apply (f_equal (fun d => map pm_progress_status (project_members d))) in H.
  vm_compute in H. discriminate.
Qed.

(** *** Emission accrual *)

Section Accrual.

Context {NC : NumericColumn} {UT : UrlTransport}.

Lemma getCarbonFactor_default (region : option string) :
  match region with
  | Some r => r <> "Singapore"%string /\ r <> "Philippines"%string /\ ~ In r object_prototype
  | None => True
  end ->
  getCarbonFactor region = Factor 0.412.
Proof.
  destruct region as [r|]; [|reflexivity].
  intros [H1 [H2 H3]]. unfold getCarbonFactor.
  destruct (String.eqb_spec r "Singapore"); [contradiction|].
  destruct (String.eqb_spec r "Philippines"); [contradiction|].
  destruct (existsb (String.eqb r) object_prototype) eqn:E; [|reflexivity].
  apply existsb_exists in E. destruct E as [k [Hk Hr]].
  apply String.eqb_eq in Hr. subst k. contradiction.
Qed.

Lemma sql_number_finite (x : float) : PrimFloat.is_finite x = true -> sql_number x = Some x.
Proof. intros H. unfold sql_number. rewrite H. reflexivity. Qed.

(** A name that arrives as it was written is looked up as it is stored. *)
Lemma usage_response_plain (table : list watt_row) (name : string) :
  url_plain name = true -> usage_response table name = watt_usage table name.
Proof.
  intros H. unfold usage_response. rewrite (req_query_model_plain name H). reflexivity.
Qed.

Ltac lookup H := erewrite queryDatabase_nil by (cbn [cur]; H); cbv beta iota zeta.

(** C6, as the code has it. For a user with a current device whose region
    gives the factor [factor], wattages that the three fetches deliver, and
    a session whose delta is a finite number: the desktop handler answers
    with ((CPU + GPU + RAM + PSU watts) / 3600 * seconds) * factor and adds
    it to [carbon_emit] of the instance if the caller owns it or is a
    member of it; the mobile handler leaves the PSU out, answers with
    (((CPU + GPU + RAM watts) * seconds) / 3600) * factor, and adds it, and
    the seconds to [session_duration], if the caller owns the instance. The
    factor is 0.412 for a region that is null or is neither a key of the
    table nor a name inherited from [Object.prototype]. A fetch delivers
    the wattage stored under the name of the component when that name
    arrives at the endpoint as it was written, which a name of letters,
    digits, [-], [.], [_], [~] and inner spaces does. With 250 W in all,
    3600 s and such a region the desktop delta is 103.0, and the increment
    is by 103.0. *)
Theorem calculate_emissions_formula (s : Store) (userId projectId : Z)
    (sessionDuration : float) (user : users_row) (device : user_devices_row)
    (factor : float) :
  current_device (cur s) userId user device ->
  getCarbonFactor (u_region user) = Factor factor ->
  (forall cpuW gpuW ramW : float,
     usage_response (cpus (cur s)) (ud_cpu device) = Some cpuW ->
     usage_response (gpus (cur s)) (ud_gpu device) = Some gpuW ->
     usage_response (ram (cur s)) (ud_ram device) = Some ramW ->
     let delta :=
       PrimFloat.mul
         (PrimFloat.mul
            (PrimFloat.div
               (PrimFloat.add (PrimFloat.add (PrimFloat.add cpuW gpuW) ramW) (ud_psu device))
               3600)
            sessionDuration)
         factor in
     PrimFloat.is_finite delta = true ->
     calculate_emissions userId projectId sessionDuration [] s
       = (Json 200 "" None (Some delta), [],
          {| cur := with_user_history
                      (update_where (owner_or_member (cur s) projectId userId)
                                    (add_carbon delta)) (cur s);
             snap := snap s |})) /\
  (forall cpuW gpuW ramW : float,
     usage_response (cpusm (cur s)) (ud_cpu device) = Some cpuW ->
     usage_response (gpusm (cur s)) (ud_gpu device) = Some gpuW ->
     usage_response (ram (cur s)) (ud_ram device) = Some ramW ->
     let delta :=
       PrimFloat.mul
         (PrimFloat.div
            (PrimFloat.mul (PrimFloat.add (PrimFloat.add cpuW gpuW) ramW) sessionDuration)
            3600)
         factor in
     PrimFloat.is_finite sessionDuration = true ->
     PrimFloat.is_finite delta = true ->
     calculate_emissionsM userId projectId sessionDuration [] s
       = (Json 200 "Carbon emissions calculated successfully" None (Some delta), [],
          {| cur := with_user_history
                      (update_where (owned_by projectId userId)
                                    (add_session_and_carbon sessionDuration delta)) (cur s);
             snap := snap s |})) /\
  (match u_region user with
   | Some r => r <> "Singapore"%string /\ r <> "Philippines"%string /\ ~ In r object_prototype
   | None => True
   end -> factor = 0.412%float) /\
  (forall (table : list watt_row) (name : string),
     url_plain name = true -> usage_response table name = watt_usage table name) /\
  (forall h, uh_carbon_emit (add_carbon 103 h) = num_add (uh_carbon_emit h) (num_bind 103)) /\
  desktop_emissions 65 120 15 50 3600 (Some "Atlantis"%string) = 103%float.
Proof.
  intros [[us Hu] [id [ds [Hid Hd]]]] Hf.
  split; [|split; [|split; [|split; [|split]]]].
  - intros cpuW gpuW ramW Hc Hg Hr delta Hfin.
    unfold calculate_emissions, bind.
    lookup ltac:(unfold deviceIdQuery; rewrite Hu; reflexivity).
    rewrite Hid.
    lookup ltac:(unfold userQuery; rewrite Hd; reflexivity).
    unfold fetch_usage. cbn [cur]. rewrite Hc, Hg, Hr.
    assert (Hdelta : desktop_emissions cpuW gpuW ramW (ud_psu device) sessionDuration
                       (u_region user) = delta).
    { unfold desktop_emissions. rewrite Hf. reflexivity. }
    rewrite Hdelta.
    lookup ltac:(unfold updateProjectEmissionsQuery; rewrite (sql_number_finite _ Hfin);
                 reflexivity).
    reflexivity.
  - intros cpuW gpuW ramW Hc Hg Hr delta Hsd Hfin.
    unfold calculate_emissionsM, bind.
    lookup ltac:(unfold deviceIdQuery; rewrite Hu; reflexivity).
    rewrite Hid.
    lookup ltac:(unfold userQuery; rewrite Hd; reflexivity).
    unfold fetch_usage. cbn [cur]. rewrite Hc, Hg, Hr.
    assert (Hdelta : mobile_emissions cpuW gpuW ramW sessionDuration (u_region user) = delta).
    { unfold mobile_emissions. rewrite Hf. reflexivity. }
    rewrite Hdelta.
    lookup ltac:(unfold updateQuery;
                 rewrite (sql_number_finite _ Hfin), (sql_number_finite _ Hsd);
                 reflexivity).
    reflexivity.
  - intros Hreg. apply getCarbonFactor_default in Hreg. congruence.
  - intros table name. apply usage_response_plain.
  - reflexivity.
  - reflexivity.
Qed.

Lemma accrue_planned (mobile : bool) (userId projectId : Z) (sessionDuration : float)
    (s : Store) :
  accrue mobile userId projectId sessionDuration [] s
    = match planned mobile (cur s) userId sessionDuration with
      | inl r => (r, [], s)
      | inr delta =>
          if bindable mobile sessionDuration delta
          then (Json 200 (if mobile then "Carbon emissions calculated successfully" else "")
                     None (Some delta), [],
                {| cur := with_user_history
                            (update_where (matched mobile (cur s) projectId userId)
                                          (increment mobile sessionDuration delta)) (cur s);
                   snap := snap s |})
          else (answer 500 "Database error", [], s)
      end.
Proof.
  destruct s as [db sn]. unfold planned, bindable, sql_number.
  destruct mobile; cbn [accrue negb orb cur snap].
  - unfold calculate_emissionsM, bind, ret. simpl. unfold execute. simpl.
    destruct (filter (fun u => Z.eqb (u_id u) userId) (users db)) as [|user us];
      [reflexivity|].
    destruct (device_set user) as [id|]; [|reflexivity].
    simpl. unfold execute. simpl.
    destruct (filter (fun d => Z.eqb (ud_id d) id) (user_devices db)) as [|device ds];
      [reflexivity|].
    unfold fetch_usage. simpl.
    destruct (usage_response (cpusm db) (ud_cpu device)) as [c|];
      destruct (usage_response (gpusm db) (ud_gpu device)) as [g|];
      destruct (usage_response (ram db) (ud_ram device)) as [r|]; try reflexivity.
    simpl. unfold execute, updateQuery, sql_number. simpl.
    destruct (PrimFloat.is_finite sessionDuration);
      destruct (PrimFloat.is_finite (mobile_emissions c g r sessionDuration (u_region user)));
      reflexivity.
  - unfold calculate_emissions, bind, ret. simpl. unfold execute. simpl.
    destruct (filter (fun u => Z.eqb (u_id u) userId) (users db)) as [|user us];
      [reflexivity|].
    destruct (device_set user) as [id|]; [|reflexivity].
    simpl. unfold execute. simpl.
    destruct (filter (fun d => Z.eqb (ud_id d) id) (user_devices db)) as [|device ds];
      [reflexivity|].
    unfold fetch_usage. simpl.
    destruct (usage_response (cpus db) (ud_cpu device)) as [c|];
      destruct (usage_response (gpus db) (ud_gpu device)) as [g|];
      destruct (usage_response (ram db) (ud_ram device)) as [r|]; try reflexivity.
    simpl. unfold execute, updateProjectEmissionsQuery, sql_number. simpl.
    destruct (PrimFloat.is_finite
                (desktop_emissions c g r (ud_psu device) sessionDuration (u_region user)));
      reflexivity.
Qed.








End Accrual.

Lemma calculate_emissions_formula_witness :
  calculate_emissions 2 1 3600 [] team_store
    = (Json 200 "" None (Some 103%float), [],
       {| cur := with_user_history
                   (update_where (owner_or_member (cur team_store) 1 2) (add_carbon 103))
                   (cur team_store);
          snap := snap team_store |}).
Proof.
  refine (proj1 (@calculate_emissions_formula double_column form_urlencoded team_store 2 1
                   3600 (person 2 "a@acme.sg" (Some "Mars"%string) (Some 2)) (machine 2)
                   0.412 _ eq_refl)
                65%float 120%float 15%float eq_refl eq_refl eq_refl eq_refl).
  split.
  - exists []. reflexivity.
  - exists 2, []. split; reflexivity.
Defined.

(** On the mobile path the 50 W of the supply do not count: for the owner's
    machine of 250 W in all and a session of 3600 s the delta is
    200 * 0.412, where the formula with the supply gives 103.0. *)
Lemma calculate_emissionsM_omits_psu :
  calculate_emissionsM 1 1 3600 [] team_store
    = (Json 200 "Carbon emissions calculated successfully" None
            (Some 82.399999999999991%float), [],
       after (calculate_emissionsM 1 1 3600) team_store) /\
  map uh_carbon_emit (user_history (cur (after (calculate_emissionsM 1 1 3600) team_store)))
    = [82.399999999999991%float] /\
  PrimFloat.mul
    (PrimFloat.mul
       (PrimFloat.div (PrimFloat.add (PrimFloat.add (PrimFloat.add 65 120) 15) 50) 3600)
       3600)
    0.412 = 103%float /\
  fst (fst (calculate_emissionsM 1 1 3600 [] team_store))
    <> Json 200 "Carbon emissions calculated successfully" None (Some 103%float).
Proof.
  split; [vm_compute; reflexivity|]. split; [vm_compute; reflexivity|].
  split; [vm_compute; reflexivity|].
  intros H.
  assert (E : fst (fst (calculate_emissionsM 1 1 3600 [] team_store))
              = Json 200 "Carbon emissions calculated successfully" None
                     (Some 82.399999999999991%float)) by (vm_compute; reflexivity).
  rewrite E in H. inversion H as [F];
    apply (f_equal (fun x => PrimFloat.eqb x 103)) in F; vm_compute in F; discriminate.
Qed.

(** A region that names a member of [Object.prototype] is not recognized,
    and its factor is not 0.412: the delta is not a number and the UPDATE
    is rejected. *)
Lemma calculate_emissions_inherited_region :
  getCarbonFactor (Some "constructor"%string) = Inherited /\
  calculate_emissions 5 1 3600 [] team_store = (answer 500 "Database error", [], team_store).
Proof. split; vm_compute; reflexivity. Qed.

(** A name with a [+] in it does not arrive as it was written: the query
    parser reads the [+] as a space, the endpoint finds no row, and the
    handler answers 500 and accrues nothing although the table lists the
    component. *)
Lemma calculate_emissions_name_altered :
  req_query_model "Snapdragon 8+ Gen 1" = Some "Snapdragon 8  Gen 1"%string /\
  watt_usage (cpus (cur plus_store)) "Snapdragon 8+ Gen 1" = Some 65%float /\
  calculate_emissions 2 1 3600 [] plus_store
    = (answer 500 "Error fetching wattage data", [], plus_store).
Proof. split; [|split]; vm_compute; reflexivity. Qed.



(** In a column of whole units a bound delta is rounded before it is added:
    two accruals of 82.4 by the owner leave 164. *)
Lemma accrual_whole_units :
  map uh_carbon_emit
      (user_history
         (cur (after (calculate_emissionsM (NC := whole_units) 1 1 3600)
                     (after (calculate_emissionsM 1 1 3600) team_store))))
    = [164].
Proof. vm_compute. reflexivity. Qed.

(** *** Owners carry no progress *)

Section OwnerProgress.

Context {NC : NumericColumn}.

Lemma number_from_In {A} (mk : list (Z -> A)) :
  forall n x, In x (number_from n mk) -> exists f k, In f mk /\ x = f k.
Proof.
  induction mk as [|f mk IH]; intros n x H; simpl in H; [destruct H|].
  destruct H as [H|H].
  - exists f, n. split; [left; reflexivity|symmetry; exact H].
  - destruct (IH _ _ H) as [g [k [Hg Hx]]]. exists g, k. split; [right|]; assumption.
Qed.

Lemma insert_rows_owners (mk : list (Z -> project_members_row)) (db : DB) :
  owners_without_progress db ->
  (forall f id, In f mk -> pm_role (f id) = "project_owner"%string ->
                pm_progress_status (f id) = None) ->
  owners_without_progress (with_project_members (insert_rows pm_id mk) db).
Proof.
  intros Hdb Hmk m Hin Hrole. simpl in Hin. unfold insert_rows in Hin.
  apply in_app_or in Hin. destruct Hin as [Hin|Hin].
  - apply Hdb; assumption.
  - apply number_from_In in Hin. destruct Hin as [f [k [Hf Hm]]]. subst m.
    apply Hmk; assumption.
Qed.

(** Marking the caller's stage complete leaves owners alone. *)
Lemma updateUserProgressQuery_owners (projectId userId : Z) (db db' : DB) :
  owners_without_progress db ->
  updateUserProgressQuery projectId userId db = Some (db', tt) ->
  owners_without_progress db'.
Proof.
  intros Hdb H. inversion H; subst. clear H. intros m Hin Hrole. simpl in Hin.
  apply update_where_In in Hin. destruct Hin as [y [Hy Hm]]. subst m.
  destruct (member_of projectId userId y && negb (is_owner y)) eqn:E.
  - apply andb_true_iff in E. destruct E as [_ E].
    unfold is_owner in E. simpl in Hrole. rewrite Hrole in E. discriminate.
  - apply Hdb; assumption.
Qed.

(** The migration to a new stage stores owners without progress. *)
Lemma addMembersQuery_owners (newProjectId userId now : Z) (nextStage : string)
    (members : list project_members_row) (db db' : DB) :
  owners_without_progress db ->
  addMembersQuery (map (memberValue newProjectId nextStage userId now) members) db
    = Some (db', tt) ->
  owners_without_progress db'.
Proof.
  intros Hdb H. inversion H; subst. clear H. apply insert_rows_owners; [exact Hdb|].
  intros f id Hf Hrole. apply in_map_iff in Hf. destruct Hf as [m [Hm _]]. subst f.
  simpl in *. rewrite Hrole. reflexivity.
Qed.

(** So does the creation of a project by an administrator. *)
Lemma adminAddOwnerQuery_owners (projectId ownerId now : Z) (stage : option string)
    (db db' : DB) :
  owners_without_progress db ->
  adminAddOwnerQuery projectId ownerId stage now db = Some (db', tt) ->
  owners_without_progress db'.
Proof.
  intros Hdb H. inversion H; subst. clear H. apply insert_rows_owners; [exact Hdb|].
  intros f id [Hf|[]] _. subst f. reflexivity.
Qed.

(** An accepted invitation adds a member, not an owner. *)
Lemma insertMemberQuery_owners (projectId userId : Z) (db db' : DB) :
  owners_without_progress db ->
  insertMemberQuery projectId userId db = Some (db', tt) ->
  owners_without_progress db'.
Proof.
  intros Hdb H. inversion H; subst. clear H. apply insert_rows_owners; [exact Hdb|].
  intros f id [Hf|[]] _. subst f. reflexivity.
Qed.

(** The approval of a request does not: the row of the owner it inserts has
    a progress status. *)
Lemma addOwnerQuery_breaks_owners (projectId userId : Z) (stage : option string)
    (db db' : DB) :
  addOwnerQuery projectId userId stage db = Some (db', tt) ->
  ~ owners_without_progress db'.
Proof.
  intros H Hinv. inversion H; subst. clear H.
  set (row := {| pm_id := next_id pm_id (project_members db); pm_project_id := projectId;
                 pm_user_id := userId; pm_role := "project_owner";
                 pm_current_stage := stage;
                 pm_progress_status := Some "In Progress"%string;
                 pm_joined_at := default_joined_at |}).
  assert (Hrow : pm_progress_status row = None).
  { apply Hinv; [|reflexivity]. simpl. unfold insert_rows. apply in_or_app.
    right. left. reflexivity. }
  discriminate.
Qed.

End OwnerProgress.

(** The project an administrator creates for owner 1, leader 2 and member
    3: the owner has no progress status. *)
Lemma create_project_owner_without_progress :
  map (fun m => (pm_user_id m, pm_role m, pm_progress_status m))
      (filter (fun m => Z.eqb (pm_project_id m) 2)
         (project_members
            (cur (after
                    (create_project
                       {| cp_project_name := "N"; cp_project_description := "D";
                          cp_status := Some "In Progress"%string;
                          cp_stage := Some design;
                          cp_owner_email := "o@acme.sg";
                          cp_leader_email := Some "a@acme.sg"%string;
                          cp_members := ["b@acme.sg"%string];
                          cp_organization := Some "Acme"%string;
                          cp_stage_duration := None; cp_stage_start_date := None;
                          cp_stage_due_date := None; cp_project_start_date := None;
                          cp_project_due_date := None |} noon)
                    team_store))))
    = [ (1, "project_owner"%string, None);
        (2, "project_leader"%string, Some "In Progress"%string);
        (3, "member"%string, Some "In Progress"%string) ].
Proof. vm_compute. reflexivity. Qed.

(** *** Further behaviour of the evaluator and of invitations *)

Section Repetition.

Context {NC : NumericColumn}.

Arguments update_where : simpl never.

Lemma update_where_idem {A} (p : A -> bool) (f : A -> A) (rows : list A) :
  (forall x, p (f x) = p x) -> (forall x, f (f x) = f x) ->
  update_where p f (update_where p f rows) = update_where p f rows.
Proof.
  intros Hp Hf. unfold update_where. rewrite map_map. apply map_ext.
  intros x. destruct (p x) eqn:E; [rewrite Hp, E; apply Hf|rewrite E; reflexivity].
Qed.

(** X4. The evaluator is idempotent: run a second time on the store it
    left, it gives the same verdict and changes nothing. *)
Theorem checkAndUpdateProjectCompletion_idempotent (projectId : Z) (s : Store) :
  exists b s1,
    checkAndUpdateProjectCompletion projectId [] s = (Rows b, [], s1) /\
    checkAndUpdateProjectCompletion projectId [] s1 = (Rows b, [], s1).
Proof.
  destruct s as [db sn].
  unfold checkAndUpdateProjectCompletion, bind, ret. simpl. unfold execute. simpl.
  destruct (filter (fun m => Z.eqb (pm_project_id m) projectId && negb (is_owner m))
                   (project_members db)) as [|m0 members] eqn:E.
  - exists false. eexists. split; [reflexivity|]. simpl. rewrite E. reflexivity.
  - cbn [List.length Nat.eqb].
    destruct (forallb stage_complete (m0 :: members)) eqn:F.
    + exists true. eexists. split; [reflexivity|]. simpl. rewrite E.
      cbn [List.length Nat.eqb]. rewrite F. simpl. unfold execute. simpl.
      unfold with_user_history. simpl.
      rewrite update_where_idem by reflexivity. reflexivity.
    + exists false. eexists. split; [reflexivity|]. simpl. rewrite E.
      cbn [List.length Nat.eqb]. rewrite F. reflexivity.
Qed.

(** X5. A response other than 'accepted' is recorded on the notification,
    which is marked read, and creates no membership. *)
Theorem respondToInvitation_declined (notificationId userId : Z) (response : option string)
    (s : Store) :
  response <> Some "accepted"%string ->
  exists s',
    respondToInvitation notificationId userId response [] s
      = (answer 200 "Invitation response recorded successfully", [], s') /\
    snap s' = None /\
    project_members (cur s') = project_members (cur s) /\
    user_history (cur s') = user_history (cur s) /\
    notifications (cur s') =
      map (fun n => if Z.eqb (n_id n) notificationId && Z.eqb (n_recipient_id n) userId
                    then set_response response n else n)
          (notifications (cur s)).
Proof.
  intros Hr.
  assert (Ha : is_accepted response = false).
  { unfold is_accepted. destruct response as [r|]; [|reflexivity].
    destruct (String.eqb_spec r "accepted"); [subst; contradiction Hr; reflexivity|reflexivity]. }
  unfold respondToInvitation, bind, ret. simpl. unfold execute. simpl.
  rewrite Ha. unfold commit_response, bind, ret. simpl.
  eexists. split; [reflexivity|]. simpl. repeat split.
Qed.

(** X6. Accepting a notification that is not addressed to the caller (or
    does not exist) raises inside the callback: no answer is sent, the
    transaction stays open, and nothing is committed. *)
Theorem respondToInvitation_without_notification (notificationId userId : Z) (s : Store) :
  (forall n, In n (notifications (cur s)) -> addressed_to notificationId userId n = false) ->
  exists s',
    respondToInvitation notificationId userId (Some "accepted"%string) [] s
      = (Crashed, [], s') /\
    snap s' = Some (cur s) /\
    durable s' = cur s /\
    project_members (cur s') = project_members (cur s) /\
    notifications (cur s') = notifications (cur s).
Proof.
  intros Hno.
  assert (Hf : filter (addressed_to notificationId userId) (notifications (cur s)) = []).
  { induction (notifications (cur s)) as [|n rows IH]; [reflexivity|]. simpl.
    rewrite (Hno n) by (left; reflexivity). apply IH.
    intros x Hx. apply Hno. right. exact Hx. }
  assert (Hu : update_where (addressed_to notificationId userId)
                 (set_response (Some "accepted"%string)) (notifications (cur s))
               = notifications (cur s)).
  { unfold update_where. rewrite <- (map_id (notifications (cur s))) at 2.
    apply map_ext_in. intros n Hn. rewrite (Hno n Hn). reflexivity. }
  unfold respondToInvitation, bind, ret.
  cbn [beginTransaction queryDatabase]. unfold execute, updateNotificationQuery.
  cbn [cur snap is_accepted String.eqb Ascii.eqb Bool.eqb].
  cbn [queryDatabase]. unfold execute, getProjectIdQuery. cbn [cur snap notifications
    with_notifications].
  rewrite Hu, Hf. cbn [map].
  eexists. split; [reflexivity|]. cbn [cur snap durable]. repeat split.
  exact Hu.
Qed.

End Repetition.

Lemma respondToInvitation_declined_witness :
  exists s',
    respondToInvitation 1 4 (Some "rejected"%string) [] team_store
      = (answer 200 "Invitation response recorded successfully", [], s') /\
    snap s' = None /\
    project_members (cur s') = project_members (cur team_store) /\
    user_history (cur s') = user_history (cur team_store) /\
    notifications (cur s') =
      map (fun n => if Z.eqb (n_id n) 1 && Z.eqb (n_recipient_id n) 4
                    then set_response (Some "rejected"%string) n else n)
          (notifications (cur team_store)).
Proof.
  apply (@respondToInvitation_declined double_column 1 4 (Some "rejected"%string)
           team_store).
  discriminate.
Defined.

Lemma respondToInvitation_without_notification_witness :
  exists s',
    respondToInvitation 1 2 (Some "accepted"%string) [] team_store = (Crashed, [], s') /\
    snap s' = Some (cur team_store) /\
    durable s' = cur team_store /\
    project_members (cur s') = project_members (cur team_store) /\
    notifications (cur s') = notifications (cur team_store).
Proof.
  apply (@respondToInvitation_without_notification double_column 1 2 team_store).
  intros n [<-|[]]. reflexivity.
Defined.

(** *** Completing a stage without creating the next one *)

Section Completion.

Context {NC : NumericColumn}.

Arguments update_where : simpl never.

Lemma evaluator_computes (projectId : Z) (s : Store) :
  checkAndUpdateProjectCompletion projectId [] s
    = (Rows (verdict projectId (cur s)), [],
       {| cur := if verdict projectId (cur s)
                 then with_user_history
                        (update_where (fun h => Z.eqb (uh_id h) projectId)
                                      (set_status "Complete")) (cur s)
                 else cur s;
          snap := snap s |}).
Proof.
  unfold checkAndUpdateProjectCompletion, verdict, bind, ret. simpl. unfold execute. simpl.
  destruct (filter (fun m => Z.eqb (pm_project_id m) projectId && negb (is_owner m))
                   (project_members (cur s))) as [|m0 members]; [reflexivity|].
  cbn [List.length Nat.eqb negb andb].
  destruct (forallb stage_complete (m0 :: members)); reflexivity.
Qed.

Lemma verdict_iff (projectId : Z) (db : DB) :
  verdict projectId db = true <->
  (exists m, In m (project_members db) /\ contributor projectId m) /\
  (forall m, In m (project_members db) -> contributor projectId m ->
             pm_progress_status m = Some "Stage Complete"%string).
Proof.
  unfold verdict.
  set (members := filter (fun m => Z.eqb (pm_project_id m) projectId && negb (is_owner m))
                         (project_members db)).
  assert (Hin : forall m, In m members <-> In m (project_members db) /\ contributor projectId m).
  { intros m. unfold members. rewrite filter_In, contributor_filter. tauto. }
  rewrite andb_true_iff, forallb_forall. split.
  - intros [Hne Hall]. split.
    + destruct members as [|m0 ms]; [discriminate|].
      exists m0. apply Hin. left. reflexivity.
    + intros m H1 H2. apply stage_complete_iff, Hall, Hin. tauto.
  - intros [[m0 Hm0] Hall]. split.
    + apply Hin in Hm0. destruct members; [destruct Hm0|reflexivity].
    + intros m Hm. apply stage_complete_iff. apply Hin in Hm. destruct Hm. auto.
Qed.

Lemma completeCurrentStageQuery_records (projectId userId : Z) (stage : option string)
    (now : Z) (db db' : DB) :
  completeCurrentStageQuery projectId userId stage now db = Some (db', tt) ->
  exists f,
    db' = with_project_stage_progress f db /\
    exists p, In p (f (project_stage_progress db)) /\
              sp_project_id p = projectId /\ sp_user_id p = userId /\
              sp_status p = "Complete"%string /\ sp_completion_date p = now.
Proof.
  unfold completeCurrentStageQuery. intros H.
  destruct (existsb (same_progress_key projectId userId stage)
                    (project_stage_progress db)) eqn:E; inversion H; subst; clear H.
  - eexists. split; [reflexivity|].
    apply existsb_exists in E. destruct E as [p [Hp Hk]].
    exists (refresh_progress now p). split.
    + unfold update_where. apply in_map_iff. exists p. rewrite Hk. auto.
    + unfold same_progress_key in Hk. rewrite !andb_true_iff, !Z.eqb_eq in Hk.
      simpl. tauto.
  - eexists. split; [reflexivity|]. eexists. split.
    + apply in_or_app. right. left. reflexivity.
    + simpl. auto.
Qed.

(** X7. Completing the last stage (no next stage named) of an existing
    instance, with the store answering: the caller's non-owner memberships
    of the instance go to Stage Complete, a progress record of the caller
    for the instance is Complete as of now, and the answer is
    Project-Completed, with the status of the instance set to Complete,
    exactly when the instance has a contributor and every contributor other
    than the caller was at Stage Complete already; otherwise it is
    User-Stage-Completed.  The caller need not be a member. *)
Theorem complete_project_last_stage (projectId userId : Z)
    (nextStage currentStage : option string) (now : Z) (s : Store)
    (currentProject : user_history_row) (others : list user_history_row) :
  filter (fun h => Z.eqb (uh_id h) projectId
                   && existsb (fun u => Z.eqb (u_id u) (uh_user_id h)) (users (cur s)))
         (user_history (cur s)) = currentProject :: others ->
  nextStage = None \/ nextStage = Some ""%string ->
  exists (allCompleted : bool) (s' : Store),
    complete_project projectId userId nextStage currentStage now [] s
      = (answer 200 (if allCompleted then "Project-Completed" else "User-Stage-Completed"),
         [], s') /\
    snap s' = None /\
    (allCompleted = true <->
       (exists m, In m (project_members (cur s)) /\ contributor projectId m) /\
       (forall m, In m (project_members (cur s)) -> contributor projectId m ->
                  pm_user_id m = userId \/
                  pm_progress_status m = Some "Stage Complete"%string)) /\
    project_members (cur s') =
      update_where (fun m => member_of projectId userId m && negb (is_owner m))
                   (set_progress (Some "Stage Complete"%string))
                   (project_members (cur s)) /\
    user_history (cur s') =
      (if allCompleted
       then update_where (fun h => Z.eqb (uh_id h) projectId) (set_status "Complete")
                         (user_history (cur s))
       else user_history (cur s)) /\
    (exists p, In p (project_stage_progress (cur s')) /\
               sp_project_id p = projectId /\ sp_user_id p = userId /\
               sp_status p = "Complete"%string /\ sp_completion_date p = now) /\
    users (cur s') = users (cur s) /\
    notifications (cur s') = notifications (cur s).
Proof.
  intros Hcur Hlast.
  assert (Hs : str_or nextStage None = None) by (destruct Hlast; subst; reflexivity).
  unfold complete_project, bind.
  rewrite (@queryDatabase_nil _ _ (getCurrentProjectQuery projectId) s (cur s) [currentProject]).
  2:{ unfold getCurrentProjectQuery. rewrite Hcur. reflexivity. }
  cbv beta iota zeta. rewrite Hs. simpl beginTransaction. cbv beta iota zeta.
  destruct (completeCurrentStageQuery projectId userId
              (str_or currentStage (uh_stage currentProject)) now (cur s))
    as [[d1 []]|] eqn:Hq.
  2:{ unfold completeCurrentStageQuery in Hq. destruct (existsb _ _); discriminate. }
  destruct (completeCurrentStageQuery_records _ _ _ _ _ Hq) as [f [Hd1 Hp]]. subst d1.
  erewrite queryDatabase_nil by (cbn [cur]; exact Hq). cbv beta iota zeta.
  erewrite queryDatabase_nil by reflexivity. cbv beta iota zeta.
  rewrite evaluator_computes. cbv beta iota zeta. cbn [cur snap].
  set (pm1 := update_where (fun m => member_of projectId userId m && negb (is_owner m))
                (set_progress (Some "Stage Complete"%string)) (project_members (cur s))).
  set (d2 := with_project_members (fun _ => pm1) (with_project_stage_progress f (cur s))).
  assert (Hd2 : with_project_members
                  (update_where (fun m => member_of projectId userId m && negb (is_owner m))
                                (set_progress (Some "Stage Complete"%string)))
                  (with_project_stage_progress f (cur s)) = d2) by reflexivity.
  rewrite Hd2.
  exists (verdict projectId d2).
  unfold commit_with, bind, ret. simpl commit. cbv beta iota zeta.
  exists {| cur := if verdict projectId d2
                   then with_user_history
                          (update_where (fun h => Z.eqb (uh_id h) projectId)
                                        (set_status "Complete")) d2
                   else d2;
            snap := None |}.
  split.
  { destruct (verdict projectId d2); reflexivity. }
  cbn [cur snap]. split; [reflexivity|]. split.
  { rewrite verdict_iff. cbn [d2 project_members with_project_members].
    split.
    - intros [[m [Hm Hc]] Hall]. split.
      + apply update_where_In in Hm. destruct Hm as [y [Hy Hm]]. exists y. split; [exact Hy|].
        subst m. destruct (member_of projectId userId y && negb (is_owner y)); exact Hc.
      + intros y Hy Hcy.
        destruct (member_of projectId userId y && negb (is_owner y)) eqn:E.
        * left. unfold member_of in E. rewrite !andb_true_iff, !Z.eqb_eq in E. tauto.
        * right.
          assert (Hin : In y pm1).
          { unfold pm1, update_where. apply in_map_iff. exists y. rewrite E. auto. }
          apply (Hall y Hin Hcy).
    - intros [[y [Hy Hc]] Hall]. split.
      + exists (if member_of projectId userId y && negb (is_owner y)
                then set_progress (Some "Stage Complete"%string) y else y). split.
        * unfold pm1, update_where. apply in_map_iff. exists y. auto.
        * destruct (member_of projectId userId y && negb (is_owner y)); exact Hc.
      + intros m Hm Hcm. apply update_where_In in Hm. destruct Hm as [z [Hz Hm]]. subst m.
        destruct (member_of projectId userId z && negb (is_owner z)) eqn:E; [reflexivity|].
        destruct (Hall z Hz Hcm) as [Hu|Hdone]; [|exact Hdone].
        exfalso. destruct Hcm as [Hpid Hrole]. unfold member_of, is_owner in E.
        rewrite Hpid, Hu, !Z.eqb_refl in E. simpl in E.
        apply negb_false_iff in E. apply String.eqb_eq in E. contradiction. }
  split.
  { destruct (verdict projectId d2); reflexivity. }
  split.
  { destruct (verdict projectId d2); reflexivity. }
  split.
  { destruct Hp as [p Hp]. exists p. destruct (verdict projectId d2); exact Hp. }
  split; destruct (verdict projectId d2); reflexivity.
Qed.

Lemma In_update_where_outside {A} (p : A -> bool) (f : A -> A) (rows : list A)
    (P : A -> Prop) (m : A) :
  (forall y, p y = true -> ~ P y) ->
  (forall y, p y = true -> ~ P (f y)) ->
  P m ->
  (In m (update_where p f rows) <-> In m rows).
Proof.
  intros H1 H2 Hm. split.
  - intros Hin. apply update_where_In in Hin. destruct Hin as [y [Hy Heq]].
    destruct (p y) eqn:E; subst m; [exfalso; apply (H2 y E Hm)|exact Hy].
  - intros Hin. unfold update_where. apply in_map_iff. exists m. split; [|exact Hin].
    destruct (p m) eqn:E; [exfalso; apply (H1 m E Hm)|reflexivity].
Qed.

(** X8. Completing a stage whose next stage has a row already, with the
    store answering: no instance is created and the answer names the
    existing row.  If the caller holds no membership on that row, each
    membership the caller holds on the current instance is copied to it,
    with its role, the next stage and progress In Progress, and nothing
    else is added; if the caller holds one, the caller's memberships on
    that row are set to In Progress and none is added.  Either way every
    membership of the caller on that row ends at In Progress, and no
    membership of any other user changes. *)
Theorem complete_project_joins_existing_stage (projectId userId : Z) (next : string)
    (currentStage : option string) (now : Z) (s : Store)
    (currentProject : user_history_row) (others : list user_history_row)
    (existing : user_history_row) (rest : list user_history_row) :
  filter (fun h => Z.eqb (uh_id h) projectId
                   && existsb (fun u => Z.eqb (u_id u) (uh_user_id h)) (users (cur s)))
         (user_history (cur s)) = currentProject :: others ->
  next <> ""%string ->
  filter (next_stage_match (uh_project_name currentProject)
            (uh_project_description currentProject) next
            (num_or (uh_project_id currentProject) projectId))
         (user_history (cur s)) = existing :: rest ->
  let completed :=
    update_where (fun m => member_of projectId userId m && negb (is_owner m))
                 (set_progress (Some "Stage Complete"%string))
                 (project_members (cur s)) in
  let copies :=
    map (fun m id =>
           {| pm_id := id; pm_project_id := uh_id existing;
              pm_user_id := pm_user_id m; pm_role := pm_role m;
              pm_current_stage := Some next;
              pm_progress_status := Some "In Progress"%string;
              pm_joined_at := Some now |})
        (filter (member_of projectId userId) (project_members (cur s))) in
  exists (allCompleted : bool) (s' : Store),
    complete_project projectId userId (Some next) currentStage now [] s
      = (stage_answer allCompleted (uh_id existing), [], s') /\
    snap s' = None /\
    map uh_id (user_history (cur s')) = map uh_id (user_history (cur s)) /\
    project_members (cur s') =
      (if existsb (member_of (uh_id existing) userId) (project_members (cur s))
       then update_where (member_of (uh_id existing) userId)
                         (set_progress (Some "In Progress"%string)) completed
       else completed ++ number_from (next_id pm_id (project_members (cur s))) copies) /\
    (forall m, In m (project_members (cur s')) ->
               pm_project_id m = uh_id existing -> pm_user_id m = userId ->
               pm_progress_status m = Some "In Progress"%string) /\
    (forall m, pm_user_id m <> userId ->
               (In m (project_members (cur s')) <-> In m (project_members (cur s)))).
Proof.
  intros Hcur Hnext Hfound completed copies.
  unfold complete_project, bind.
  rewrite (@queryDatabase_nil _ _ (getCurrentProjectQuery projectId) s (cur s) [currentProject]).
  2:{ unfold getCurrentProjectQuery. rewrite Hcur. reflexivity. }
  cbv beta iota zeta.
  assert (Hs : str_or (Some next) None = Some next).
  { unfold str_or. destruct (String.eqb_spec next ""); [contradiction|reflexivity]. }
  rewrite Hs. simpl beginTransaction. cbv beta iota zeta.
  destruct (completeCurrentStageQuery_runs projectId userId
              (str_or currentStage (uh_stage currentProject)) now (cur s)) as [f Hf].
  erewrite queryDatabase_nil by (cbn [cur]; exact Hf). cbv beta iota zeta.
  erewrite queryDatabase_nil by reflexivity. cbv beta iota zeta.
  rewrite evaluator_computes. cbv beta iota zeta. cbn [cur snap].
  set (d1 := with_project_members (fun _ => completed)
               (with_project_stage_progress f (cur s))).
  assert (Hd1 : with_project_members
                  (update_where (fun m => member_of projectId userId m && negb (is_owner m))
                                (set_progress (Some "Stage Complete"%string)))
                  (with_project_stage_progress f (cur s)) = d1) by reflexivity.
  rewrite Hd1. clear Hd1.
  set (b := verdict projectId d1).
  set (d2 := if b then with_user_history
                         (update_where (fun h => Z.eqb (uh_id h) projectId)
                                       (set_status "Complete")) d1
             else d1).
  assert (Hpm : project_members d2 = completed) by (unfold d2; destruct b; reflexivity).
  assert (Hids : map uh_id (user_history d2) = map uh_id (user_history (cur s))).
  { unfold d2. destruct b; [|reflexivity]. cbn [user_history with_user_history d1
      with_project_members with_project_stage_progress].
    apply map_update_where. reflexivity. }
  assert (Hex : map uh_id (firstn 1 (filter (next_stage_match
                     (uh_project_name currentProject)
                     (uh_project_description currentProject) next
                     (num_or (uh_project_id currentProject) projectId))
                     (user_history d2))) = [uh_id existing]).
  { unfold d2. destruct b.
    - cbn [user_history with_user_history d1 with_project_members
           with_project_stage_progress].
      rewrite filter_update_where_comm by reflexivity. rewrite Hfound.
      unfold update_where. cbn [map firstn].
      destruct (Z.eqb (uh_id existing) projectId); reflexivity.
    - cbn [user_history d1 with_project_members with_project_stage_progress].
      rewrite Hfound. reflexivity. }
  assert (Hothers : forall m, pm_user_id m <> userId ->
                              (In m completed <-> In m (project_members (cur s)))).
  { intros m Hm. unfold completed.
    apply In_update_where_outside with (P := fun x => pm_user_id x <> userId).
    - intros y Hy Hne. unfold member_of in Hy. rewrite !andb_true_iff, !Z.eqb_eq in Hy.
      apply Hne. tauto.
    - intros y Hy Hne. unfold member_of in Hy. rewrite !andb_true_iff, !Z.eqb_eq in Hy.
      apply Hne. simpl. tauto.
    - exact Hm. }
  assert (Hthere : filter (member_of (uh_id existing) userId) completed
                   = update_where (fun m => member_of projectId userId m && negb (is_owner m))
                                  (set_progress (Some "Stage Complete"%string))
                                  (filter (member_of (uh_id existing) userId)
                                          (project_members (cur s)))).
  { unfold completed. apply filter_update_where_comm. reflexivity. }
  assert (Hcopies : map (fun m id =>
                           {| pm_id := id; pm_project_id := uh_id existing;
                              pm_user_id := pm_user_id m; pm_role := pm_role m;
                              pm_current_stage := Some next;
                              pm_progress_status := Some "In Progress"%string;
                              pm_joined_at := Some now |})
                        (filter (member_of projectId userId) completed) = copies).
  { unfold completed, copies. rewrite filter_update_where_comm by reflexivity.
    apply map_update_where. reflexivity. }
  assert (Hnext_id : next_id pm_id completed = next_id pm_id (project_members (cur s))).
  { unfold completed. apply next_id_update_where. reflexivity. }
  erewrite queryDatabase_nil by (cbn [cur]; unfold checkExistingQuery; rewrite Hex; reflexivity).
  cbv beta iota zeta.
  unfold joinExistingStage, bind.
  erewrite queryDatabase_nil by (cbn [cur]; unfold checkMembershipQuery; rewrite Hpm; reflexivity).
  cbv beta iota zeta.
  exists b.
  assert (Hheld : existsb (member_of (uh_id existing) userId) (project_members (cur s))
                  = match filter (member_of (uh_id existing) userId) completed with
                    | [] => false
                    | _ :: _ => true
                    end).
  { rewrite Hthere. apply existsb_filter_update_where. }
  rewrite Hheld.
  destruct (filter (member_of (uh_id existing) userId) completed) as [|m0 ms] eqn:Hmem.
  - cbn [map].
    erewrite queryDatabase_nil by reflexivity. cbv beta iota zeta.
    unfold commit_with, bind, ret. simpl commit. cbv beta iota zeta.
    eexists. split; [reflexivity|]. cbn [cur snap]. split; [reflexivity|].
    cbn [user_history project_members with_project_members]. rewrite Hpm.
    split; [exact Hids|]. unfold insert_rows. rewrite Hcopies, Hnext_id.
    split; [reflexivity|]. split.
    + intros m Hin Hp Hu. apply in_app_or in Hin. destruct Hin as [Hin|Hin].
      * exfalso.
        assert (Hm' : In m (filter (member_of (uh_id existing) userId) completed)).
        { apply filter_In. split; [exact Hin|]. unfold member_of.
          rewrite Hp, Hu, !Z.eqb_refl. reflexivity. }
        rewrite Hmem in Hm'. destruct Hm'.
      * apply number_from_In in Hin. destruct Hin as [g [k [Hg Hm]]].
        apply in_map_iff in Hg. destruct Hg as [y [Hg _]]. subst g m. reflexivity.
    + intros m Hne. rewrite <- (Hothers m Hne). split.
      * intros Hin. apply in_app_or in Hin. destruct Hin as [Hin|Hin]; [exact Hin|].
        exfalso. apply number_from_In in Hin. destruct Hin as [g [k [Hg Hm]]].
        apply in_map_iff in Hg. destruct Hg as [y [Hg Hy]]. subst g m.
        apply filter_In in Hy. destruct Hy as [_ Hy]. unfold member_of in Hy.
        rewrite !andb_true_iff, !Z.eqb_eq in Hy. apply Hne. simpl. tauto.
      * intros Hin. apply in_or_app. left. exact Hin.
  - cbn [map].
    erewrite queryDatabase_nil by reflexivity. cbv beta iota zeta.
    unfold commit_with, bind, ret. simpl commit. cbv beta iota zeta.
    eexists. split; [reflexivity|]. cbn [cur snap]. split; [reflexivity|].
    cbn [user_history project_members with_project_members]. rewrite Hpm.
    split; [exact Hids|]. split; [reflexivity|]. split.
    + intros m Hin Hp Hu. apply update_where_In in Hin. destruct Hin as [y [Hy Hm]].
      destruct (member_of (uh_id existing) userId y) eqn:E; subst m; [reflexivity|].
      exfalso. unfold member_of in E. rewrite Hp, Hu, !Z.eqb_refl in E. discriminate.
    + intros m Hne. rewrite <- (Hothers m Hne).
      apply In_update_where_outside with (P := fun x => pm_user_id x <> userId).
      * intros y Hy Hn. unfold member_of in Hy. rewrite !andb_true_iff, !Z.eqb_eq in Hy.
        apply Hn. tauto.
      * intros y Hy Hn. unfold member_of in Hy. rewrite !andb_true_iff, !Z.eqb_eq in Hy.
        apply Hn. simpl. tauto.
      * exact Hne.
Qed.

End Completion.

Lemma complete_project_last_stage_witness :
  exists (allCompleted : bool) (s' : Store),
    complete_project (NC := double_column) 1 2 None (Some design) noon [] team_store
      = (answer 200 (if allCompleted then "Project-Completed" else "User-Stage-Completed"),
         [], s').
Proof.
  destruct (@complete_project_last_stage double_column 1 2 None (Some design) noon
              team_store (design_instance (Some 14)) [] eq_refl (or_introl eq_refl))
    as [b [s' [H _]]].
  exists b, s'. exact H.
Defined.

Lemma complete_project_joins_existing_stage_witness :
  exists (allCompleted : bool) (s' : Store),
    complete_project (NC := double_column) 1 2 (Some development) (Some design) noon []
      (two_stage_store "In Progress")
      = (stage_answer allCompleted 2, [], s') /\
    map uh_id (user_history (cur s')) = [1; 2] /\
    map (fun m => (pm_id m, pm_project_id m, pm_user_id m, pm_role m, pm_progress_status m))
        (project_members (cur s'))
      = [ (1, 1, 1, "project_owner"%string, None);
          (2, 1, 2, "member"%string, Some "Stage Complete"%string);
          (3, 1, 3, "member"%string, Some "In Progress"%string);
          (4, 2, 2, "member"%string, Some "In Progress"%string) ].
Proof.
  destruct (@complete_project_joins_existing_stage double_column 1 2 development
              (Some design) noon (two_stage_store "In Progress")
              (design_instance (Some 14)) [] (development_instance "In Progress") []
              eq_refl ltac:(discriminate) eq_refl)
    as [b [s' [H [_ [Hids [Hpm _]]]]]].
  exists b, s'. split; [exact H|]. split; [exact Hids|].
  rewrite Hpm. reflexivity.
Defined.
(** *** Direct assignment and removal of members *)

Section Membership.

Context {NC : NumericColumn}.

Lemma filter_nil_forall {A} (p : A -> bool) (rows : list A) :
  filter p rows = [] <-> (forall x, In x rows -> p x = false).
Proof.
  induction rows as [|x rows IH]; simpl.
  - split; [intros _ y []|reflexivity].
  - destruct (p x) eqn:E.
    + split; [discriminate|]. intros H. rewrite (H x) in E by (left; reflexivity).
      discriminate.
    + rewrite IH. split.
      * intros H y [<-|Hy]; [exact E|exact (H y Hy)].
      * intros H y Hy. apply H. right. exact Hy.
Qed.

Lemma delete_where_none {A} (p : A -> bool) (rows : list A) :
  (forall x, In x rows -> p x = false) -> delete_where p rows = rows.
Proof.
  intros H. unfold delete_where. induction rows as [|x rows IH]; [reflexivity|].
  simpl. rewrite (H x) by (left; reflexivity). simpl. f_equal. apply IH.
  intros y Hy. apply H. right. exact Hy.
Qed.

Lemma delete_where_app {A} (p : A -> bool) (xs ys : list A) :
  delete_where p (xs ++ ys) = delete_where p xs ++ delete_where p ys.
Proof. unfold delete_where. apply filter_app. Qed.

Lemma with_project_members_fixed (f : list project_members_row -> list project_members_row)
    (db : DB) :
  f (project_members db) = project_members db -> with_project_members f db = db.
Proof. destruct db; unfold with_project_members; simpl. intros ->. reflexivity. Qed.

(** X9. The direct assignment of a user who exists, with the store
    answering: a user who holds a membership of the project already is
    refused with 400 and nothing is written; otherwise exactly one
    membership is appended, with the role of the request and a fresh
    identifier. *)
Theorem add_project_member_once (projectId : Z) (userEmail role : string) (now : Z)
    (s : Store) (userId : Z) (others : list Z) :
  projectId <> 0 -> userEmail <> ""%string -> role <> ""%string ->
  map u_id (filter (fun u => String.eqb (u_email u) userEmail) (users (cur s)))
    = userId :: others ->
  exists (r : http_response) (s' : Store),
    add_project_member projectId userEmail role now [] s = (r, [], s') /\
    ((exists m, In m (project_members (cur s)) /\
                pm_project_id m = projectId /\ pm_user_id m = userId) ->
     r = answer 400 "User is already a member of this project" /\ s' = s) /\
    ((forall m, In m (project_members (cur s)) ->
                ~ (pm_project_id m = projectId /\ pm_user_id m = userId)) ->
     r = answer 200 "Member added successfully" /\
     snap s' = snap s /\
     cur s' = with_project_members
                (fun rows =>
                   rows ++ [ {| pm_id := next_id pm_id rows;
                                pm_project_id := projectId; pm_user_id := userId;
                                pm_role := role;
                                pm_current_stage := default_current_stage;
                                pm_progress_status := default_progress_status;
                                pm_joined_at := Some now |} ]) (cur s)).
Proof.
  intros Hp He Hr Hu. unfold add_project_member.
  destruct (Z.eqb_spec projectId 0); [contradiction|].
  destruct (String.eqb_spec userEmail ""); [contradiction|].
  destruct (String.eqb_spec role ""); [contradiction|].
  cbn [orb]. unfold bind.
  erewrite queryDatabase_nil by (unfold findUserQuery; rewrite Hu; reflexivity).
  cbv beta iota zeta. rewrite store_eta.
  erewrite queryDatabase_nil by reflexivity. cbv beta iota zeta. rewrite store_eta.
  destruct (filter (member_of projectId userId) (project_members (cur s)))
    as [|m0 ms] eqn:Hm; cbn [map].
  - erewrite queryDatabase_nil by reflexivity. cbv beta iota zeta.
    erewrite queryDatabase_nil by reflexivity. cbv beta iota zeta.
    do 2 eexists. split; [reflexivity|]. split.
    + intros [m [Hin [H1 H2]]]. exfalso.
      rewrite filter_nil_forall in Hm. specialize (Hm m Hin).
      unfold member_of in Hm. rewrite H1, H2, !Z.eqb_refl in Hm. discriminate.
    + intros _. split; [reflexivity|]. split; reflexivity.
  - do 2 eexists. split; [reflexivity|]. split.
    + intros _. split; reflexivity.
    + intros Hno. exfalso.
      assert (Hin : In m0 (filter (member_of projectId userId) (project_members (cur s))))
        by (rewrite Hm; left; reflexivity).
      apply filter_In in Hin. destruct Hin as [Hin Hb].
      unfold member_of in Hb. rewrite andb_true_iff, !Z.eqb_eq in Hb.
      exact (Hno m0 Hin Hb).
Qed.

(** X10. Assigning a user who has no membership of the project and removing
    that user again gives back the store as it was. *)
Theorem add_then_remove_project_member (projectId : Z) (userEmail role : string) (now : Z)
    (s : Store) (userId : Z) (others : list Z) :
  projectId <> 0 -> userEmail <> ""%string -> role <> ""%string ->
  map u_id (filter (fun u => String.eqb (u_email u) userEmail) (users (cur s)))
    = userId :: others ->
  (forall m, In m (project_members (cur s)) ->
             ~ (pm_project_id m = projectId /\ pm_user_id m = userId)) ->
  exists s1,
    add_project_member projectId userEmail role now [] s
      = (answer 200 "Member added successfully", [], s1) /\
    remove_project_member projectId userId [] s1
      = (answer 200 "Project member removed successfully", [], s).
Proof.
  intros Hp He Hr Hu Hno. unfold add_project_member.
  destruct (Z.eqb_spec projectId 0); [contradiction|].
  destruct (String.eqb_spec userEmail ""); [contradiction|].
  destruct (String.eqb_spec role ""); [contradiction|].
  cbn [orb]. unfold bind.
  erewrite queryDatabase_nil by (unfold findUserQuery; rewrite Hu; reflexivity).
  cbv beta iota zeta. rewrite store_eta.
  erewrite queryDatabase_nil by reflexivity. cbv beta iota zeta. rewrite store_eta.
  assert (Hf : forall m, In m (project_members (cur s)) ->
                         member_of projectId userId m = false).
  { intros m Hin. destruct (member_of projectId userId m) eqn:E; [|reflexivity].
    exfalso. unfold member_of in E. rewrite andb_true_iff, !Z.eqb_eq in E.
    exact (Hno m Hin E). }
  rewrite (proj2 (filter_nil_forall _ _) Hf). cbn [map].
  erewrite queryDatabase_nil by reflexivity. cbv beta iota zeta.
  erewrite queryDatabase_nil by reflexivity. cbv beta iota zeta.
  eexists. split; [reflexivity|].
  unfold remove_project_member, bind.
  erewrite queryDatabase_nil by reflexivity. cbv beta iota zeta. unfold ret.
  f_equal. cbn [cur snap]. rewrite <- (store_eta s) at 3. f_equal.
  change (with_project_members
            (fun rows => delete_where (member_of projectId userId)
                           (insert_rows pm_id
                              [fun id => {| pm_id := id; pm_project_id := projectId;
                                            pm_user_id := userId; pm_role := role;
                                            pm_current_stage := default_current_stage;
                                            pm_progress_status := default_progress_status;
                                            pm_joined_at := Some now |}] rows))
            (cur s) = cur s).
  apply with_project_members_fixed. unfold insert_rows.
  rewrite delete_where_app, (delete_where_none _ _ Hf).
  unfold delete_where, member_of. cbn. rewrite !Z.eqb_refl. cbn. apply app_nil_r.
Qed.

End Membership.

Lemma add_project_member_once_witness :
  exists (r : http_response) (s' : Store),
    add_project_member (NC := double_column) 1 "c@acme.sg" "member" noon [] team_store
      = (r, [], s') /\
    r = answer 200 "Member added successfully".
Proof.
  destruct (@add_project_member_once double_column 1 "c@acme.sg" "member" noon team_store
              5 [] ltac:(discriminate) ltac:(discriminate) ltac:(discriminate) eq_refl)
    as [r [s' [H [_ Hnew]]]].
  exists r, s'. split; [exact H|]. apply Hnew.
  intros m Hin [_ Hu]. simpl in Hin.
  destruct Hin as [<-|[<-|[<-|[]]]]; discriminate.
Defined.

Lemma add_then_remove_project_member_witness :
  exists s1,
    add_project_member (NC := double_column) 1 "c@acme.sg" "member" noon [] team_store
      = (answer 200 "Member added successfully", [], s1) /\
    remove_project_member 1 5 [] s1
      = (answer 200 "Project member removed successfully", [], team_store).
Proof.
  apply (@add_then_remove_project_member double_column 1 "c@acme.sg" "member" noon
           team_store 5 []); try discriminate; try reflexivity.
  intros m Hin [_ Hu]. simpl in Hin.
  destruct Hin as [<-|[<-|[<-|[]]]]; discriminate.
Defined.
(** *** Deleting and archiving projects *)

Section Deletion.

Context {NC : NumericColumn}.

Lemma delete_where_In {A} (p : A -> bool) (rows : list A) (x : A) :
  In x (delete_where p rows) <-> In x rows /\ p x = false.
Proof.
  unfold delete_where. rewrite filter_In. rewrite negb_true_iff. reflexivity.
Qed.

Lemma count_zero {A} (p : A -> bool) (rows : list A) :
  (forall x, In x rows -> p x = false) -> count p rows = 0.
Proof. intros H. unfold count. rewrite (filter_none _ _ H). reflexivity. Qed.

Lemma with_user_history_fixed (f : list user_history_row -> list user_history_row)
    (db : DB) :
  f (user_history db) = user_history db -> with_user_history f db = db.
Proof. destruct db; unfold with_user_history; simpl. intros ->. reflexivity. Qed.

(** X11. [delete_project] never looks at who owns the project before it
    deletes: called by a user who owns no row of that identifier, with the
    store answering, it answers 200, leaves the projects as they are, and
    has deleted every membership and every notification of the project. *)
Theorem delete_project_by_stranger (projectId userId : Z) (s : Store) :
  (forall h, In h (user_history (cur s)) ->
             ~ (uh_id h = projectId /\ uh_user_id h = userId)) ->
  exists s',
    delete_project projectId userId [] s
      = (answer 200 "Project deleted successfully", [], s') /\
    snap s' = snap s /\
    user_history (cur s') = user_history (cur s) /\
    (forall m, In m (project_members (cur s')) <->
               In m (project_members (cur s)) /\ pm_project_id m <> projectId) /\
    (forall n, In n (notifications (cur s')) <->
               In n (notifications (cur s)) /\ n_project_id n <> projectId).
Proof.
  intros Hno. unfold delete_project, bind.
  erewrite queryDatabase_nil by reflexivity. cbv beta iota zeta.
  erewrite queryDatabase_nil by reflexivity. cbv beta iota zeta.
  erewrite queryDatabase_nil by reflexivity. cbv beta iota zeta.
  eexists. split; [reflexivity|]. cbn [cur snap]. split; [reflexivity|].
  cbn [user_history project_members notifications with_user_history
       with_project_members with_notifications].
  split; [|split].
  - apply delete_where_none. intros h Hin.
    destruct (owned_by projectId userId h) eqn:E; [|reflexivity].
    exfalso. unfold owned_by in E. rewrite andb_true_iff, !Z.eqb_eq in E.
    exact (Hno h Hin E).
  - intros m. rewrite delete_where_In, Z.eqb_neq. reflexivity.
  - intros n. rewrite delete_where_In, Z.eqb_neq. reflexivity.
Qed.

(** X12. [delete_project] is not a unit of work: when its third statement
    fails it answers 500, the project is still there, and its memberships
    and notifications are gone. *)
Theorem delete_project_not_atomic (projectId userId : Z) (s : Store) :
  exists s',
    delete_project projectId userId [Ok; Ok; Fail] s
      = (answer 500 "Database error", [], s') /\
    snap s' = snap s /\
    user_history (cur s') = user_history (cur s) /\
    (forall m, In m (project_members (cur s')) <->
               In m (project_members (cur s)) /\ pm_project_id m <> projectId) /\
    (forall n, In n (notifications (cur s')) <->
               In n (notifications (cur s)) /\ n_project_id n <> projectId).
Proof.
  unfold delete_project, bind. cbn [queryDatabase]. unfold execute.
  cbn [deleteNotificationsQuery deleteProjectMembersQuery cur snap].
  eexists. split; [reflexivity|]. cbn [cur snap]. split; [reflexivity|].
  cbn [user_history project_members notifications with_user_history
       with_project_members with_notifications].
  split; [reflexivity|]. split.
  - intros m. rewrite delete_where_In, Z.eqb_neq. reflexivity.
  - intros n. rewrite delete_where_In, Z.eqb_neq. reflexivity.
Qed.

(** X13. The administrator's deletion commits before it looks at the number
    of projects deleted: for an identifier no project has, with the store
    answering, it answers 404, and the memberships and notifications that
    carry the identifier have been deleted for good. *)
Theorem admin_delete_project_unknown (projectId : Z) (s : Store) :
  (forall h, In h (user_history (cur s)) -> uh_id h <> projectId) ->
  exists s',
    admin_delete_project projectId [] s = (answer 404 "Project not found", [], s') /\
    snap s' = None /\
    user_history (cur s') = user_history (cur s) /\
    (forall m, In m (project_members (cur s')) <->
               In m (project_members (cur s)) /\ pm_project_id m <> projectId) /\
    (forall n, In n (notifications (cur s')) <->
               In n (notifications (cur s)) /\ n_project_id n <> projectId).
Proof.
  intros Hno.
  assert (Hf : forall h, In h (user_history (cur s)) -> Z.eqb (uh_id h) projectId = false).
  { intros h Hin. apply Z.eqb_neq. exact (Hno h Hin). }
  unfold admin_delete_project, bind. cbn [beginTransaction].
  erewrite queryDatabase_nil by reflexivity. cbv beta iota zeta.
  erewrite queryDatabase_nil by reflexivity. cbv beta iota zeta.
  erewrite queryDatabase_nil by reflexivity. cbv beta iota zeta.
  cbn [commit affectedRows cur snap].
  cbn [user_history project_members notifications with_user_history
       with_project_members with_notifications].
  rewrite (count_zero _ _ Hf). cbn [Z.ltb Z.compare]. unfold ret.
  eexists. split; [reflexivity|]. cbn [cur snap]. split; [reflexivity|].
  cbn [user_history project_members notifications with_user_history
       with_project_members with_notifications].
  split; [|split].
  - apply delete_where_none. exact Hf.
  - intros m. rewrite delete_where_In, Z.eqb_neq. reflexivity.
  - intros n. rewrite delete_where_In, Z.eqb_neq. reflexivity.
Qed.

(** X14. Archiving is the owner's: with the store answering, the handler
    answers 200 when the caller owns a row of that identifier, and then
    exactly the caller's rows of that identifier are Archived; otherwise it
    answers 404 and nothing is written. *)
Theorem archive_project_owner_only (projectId userId : Z) (s : Store) :
  exists (r : http_response) (s' : Store),
    archive_project projectId userId [] s = (r, [], s') /\
    snap s' = snap s /\
    user_history (cur s')
      = map (fun h => if Z.eqb (uh_id h) projectId && Z.eqb (uh_user_id h) userId
                      then set_status "Archived" h else h)
            (user_history (cur s)) /\
    project_members (cur s') = project_members (cur s) /\
    ((exists h, In h (user_history (cur s)) /\ uh_id h = projectId /\ uh_user_id h = userId) ->
     r = answer 200 "Project archived successfully") /\
    ((forall h, In h (user_history (cur s)) ->
                ~ (uh_id h = projectId /\ uh_user_id h = userId)) ->
     r = answer 404
           "Project not found or you do not have permission to archive this project" /\
     s' = s).
Proof.
  unfold archive_project, bind.
  erewrite queryDatabase_nil by reflexivity. cbv beta iota zeta. cbn [affectedRows].
  destruct (filter (owned_by projectId userId) (user_history (cur s))) as [|h0 hs] eqn:E.
  - assert (Hc : count (owned_by projectId userId) (user_history (cur s)) = 0)
      by (unfold count; rewrite E; reflexivity).
    rewrite Hc. cbn [Z.ltb Z.compare]. unfold ret.
    do 2 eexists. split; [reflexivity|]. cbn [cur snap]. split; [reflexivity|].
    split; [reflexivity|]. split; [reflexivity|]. split.
    + intros [h [Hin [H1 H2]]]. exfalso.
      assert (Hh : In h (filter (owned_by projectId userId) (user_history (cur s)))).
      { apply filter_In. split; [exact Hin|]. unfold owned_by.
        rewrite H1, H2, !Z.eqb_refl. reflexivity. }
      rewrite E in Hh. destruct Hh.
    + intros _. split; [reflexivity|].
      assert (Hu : update_where (owned_by projectId userId) (set_status "Archived")
                     (user_history (cur s)) = user_history (cur s)).
      { apply update_where_none. intros h Hin.
        destruct (owned_by projectId userId h) eqn:F; [|reflexivity]. exfalso.
        assert (Hh : In h (filter (owned_by projectId userId) (user_history (cur s))))
          by (apply filter_In; split; assumption).
        rewrite E in Hh. destruct Hh. }
      rewrite (with_user_history_fixed _ _ Hu). apply store_eta.
  - assert (Hc : Z.ltb 0 (count (owned_by projectId userId) (user_history (cur s))) = true).
    { unfold count. rewrite E. apply Z.ltb_lt. cbn [List.length]. lia. }
    rewrite Hc. unfold ret.
    do 2 eexists. split; [reflexivity|]. cbn [cur snap]. split; [reflexivity|].
    split; [reflexivity|]. split; [reflexivity|]. split.
    + intros _. reflexivity.
    + intros Hnone. exfalso.
      assert (Hh : In h0 (filter (owned_by projectId userId) (user_history (cur s))))
        by (rewrite E; left; reflexivity).
      apply filter_In in Hh. destruct Hh as [Hin Hb].
      unfold owned_by in Hb. rewrite andb_true_iff, !Z.eqb_eq in Hb.
      exact (Hnone h0 Hin Hb).
Qed.

End Deletion.

Lemma delete_project_by_stranger_witness :
  exists s',
    delete_project (NC := double_column) 1 2 [] team_store
      = (answer 200 "Project deleted successfully", [], s') /\
    user_history (cur s') = user_history (cur team_store) /\
    project_members (cur s') = [].
Proof.
  destruct (@delete_project_by_stranger double_column 1 2 team_store) as [s' [H [_ [Hu [Hm _]]]]].
  - intros h [<-|[]] [_ F]. discriminate.
  - exists s'. split; [exact H|]. split; [exact Hu|].
    destruct (project_members (cur s')) as [|m ms] eqn:E; [reflexivity|]. exfalso.
    destruct (proj1 (Hm m) (or_introl eq_refl)) as [Hin Hp].
    simpl in Hin. destruct Hin as [<-|[<-|[<-|[]]]]; apply Hp; reflexivity.
Defined.

Lemma admin_delete_project_unknown_witness :
  exists s',
    admin_delete_project (NC := double_column) 7 [] team_store
      = (answer 404 "Project not found", [], s') /\
    snap s' = None.
Proof.
  destruct (@admin_delete_project_unknown double_column 7 team_store) as [s' [H [Hs _]]].
  - intros h [<-|[]]. discriminate.
  - exists s'. split; [exact H|exact Hs].
Defined.

Lemma archive_project_owner_only_witness :
  exists (r : http_response) (s' : Store),
    archive_project (NC := double_column) 1 1 [] team_store = (r, [], s') /\
    r = answer 200 "Project archived successfully" /\
    map uh_status (user_history (cur s')) = [Some "Archived"%string].
Proof.
  destruct (@archive_project_owner_only double_column 1 1 team_store)
    as [r [s' [H [_ [Hu [_ [Hown _]]]]]]].
  exists r, s'. split; [exact H|]. split.
  - apply Hown. exists (design_instance (Some 14)).
    split; [left; reflexivity|split; reflexivity].
  - rewrite Hu. reflexivity.
Defined.
(** *** Handlers outside transactions, under any script *)

Section AtRest.

Context {NC : NumericColumn} {UT : UrlTransport}.

Lemma at_rest_eq (s s' : Store) :
  snap s = None -> snap s' = None -> cur s' = cur s -> s' = s.
Proof. destruct s, s'; simpl; intros; subst; reflexivity. Qed.

Lemma createConnection_at_rest (s : Store) : snap s = None -> createConnection s = s.
Proof. intros H. apply at_rest_eq; [exact H|reflexivity|]. unfold createConnection, durable.
  rewrite H. reflexivity. Qed.

(** Outside a transaction a lost connection costs nothing: the statement
    runs on the database as it was. *)
Lemma queryDatabase_at_rest {R} (q : statement R) :
  forall os s r os' s',
    snap s = None ->
    queryDatabase q os s = (r, os', s') ->
    snap s' = None /\
    match r with
    | Rows x => exists d, q (cur s) = Some (d, x) /\ cur s' = d
    | Err => s' = s
    end.
Proof.
  assert (Hex : forall os s r os' s',
             snap s = None -> execute q os s = (r, os', s') ->
             snap s' = None /\
             match r with
             | Rows x => exists d, q (cur s) = Some (d, x) /\ cur s' = d
             | Err => s' = s
             end).
  { intros os s r os' s' Hs H. unfold execute in H.
    destruct (q (cur s)) as [[d x]|]; inversion H; subst; simpl; eauto. }
  induction os as [|o os IH]; intros s r os' s' Hs H; simpl in H.
  - eapply Hex; eassumption.
  - destruct o.
    + eapply Hex; eassumption.
    + inversion H; subst. auto.
    + rewrite (createConnection_at_rest _ Hs) in H. eapply IH; eassumption.
Qed.

Lemma open_project_of_complete (db : DB) (name description : string) (userId : Z)
    (h : user_history_row) :
  uh_status h = Some "Complete"%string ->
  open_project_of db name description userId h = false.
Proof.
  intros H. unfold open_project_of, not_complete. rewrite H. cbn.
  apply andb_false_r.
Qed.

(** X15. A completed instance is frozen for [/user_Update]: whatever the
    outcomes of the calls, the handler does not answer 200 and the store is
    as it was. *)
Theorem user_Update_complete_frozen (userId : Z) (projectName projectDescription : string)
    (sessionDuration carbonEmissions : float) (projectStage : option string)
    (projectId : Z) (os : list outcome) (s : Store)
    (r : http_response) (os' : list outcome) (s' : Store) :
  snap s = None ->
  (forall h, In h (user_history (cur s)) -> uh_id h = projectId ->
             uh_status h = Some "Complete"%string) ->
  user_Update userId projectName projectDescription sessionDuration carbonEmissions
    projectStage projectId os s = (r, os', s') ->
  failed r /\ s' = s.
Proof.
  intros Hs Hc H. unfold user_Update, bind in H.
  destruct (queryDatabase _ os s) as [[a os1] s1] eqn:E.
  apply queryDatabase_at_rest in E; [|exact Hs]. destruct E as [Hs1 E].
  destruct a as [results|].
  - destruct E as [d [Hq Hd]]. subst d. unfold userUpdateQuery in Hq.
    destruct (sql_number sessionDuration); [|discriminate].
    destruct (sql_number carbonEmissions); [|discriminate].
    inversion Hq as [[Hd Hres]]. clear Hq. rewrite <- Hres in H. cbn [affectedRows] in H.
    assert (Hf : forall h, In h (user_history (cur s)) ->
                   Z.eqb (uh_id h) projectId
                   && open_project_of (cur s) projectName projectDescription userId h
                   = false).
    { intros h Hin. destruct (Z.eqb_spec (uh_id h) projectId); [|reflexivity].
      cbn. apply open_project_of_complete. apply Hc; assumption. }
    rewrite (count_zero _ _ Hf) in H. cbn in H. inversion H; subst. split.
    + cbn. discriminate.
    + apply at_rest_eq; [exact Hs|exact Hs1|]. rewrite <- Hd.
      apply with_user_history_fixed. apply update_where_none. exact Hf.
  - subst s1. inversion H; subst. split; [cbn; discriminate|reflexivity].
Qed.

(** X16. What [/find_project] finds, [/user_Update] updates: if the store
    answers and the lookup by name and description gives a project, then an
    update of that project under the same name and description, with
    finite numbers, answers 200. *)
Theorem find_project_then_user_Update (userId : Z) (projectName projectDescription : string)
    (sessionDuration carbonEmissions : float) (projectStage : option string)
    (projectId : Z) (s s1 : Store) :
  find_project userId projectName projectDescription [] s
    = (Json 200 "" (Some projectId) None, [], s1) ->
  PrimFloat.is_finite sessionDuration = true ->
  PrimFloat.is_finite carbonEmissions = true ->
  s1 = s /\
  exists s2,
    user_Update userId projectName projectDescription sessionDuration carbonEmissions
      projectStage projectId [] s
      = (answer 200 "Session updated successfully", [], s2) /\
    exists h, In h (user_history (cur s2)) /\ uh_id h = projectId /\
              uh_session_duration h = num_bind sessionDuration /\
              uh_carbon_emit h = num_bind carbonEmissions /\
              uh_stage h = projectStage.
Proof.
  intros Hfind Hd Hc. unfold find_project, bind in Hfind.
  erewrite queryDatabase_nil in Hfind by reflexivity. cbv beta iota zeta in Hfind.
  rewrite store_eta in Hfind.
  destruct (filter (open_project_of (cur s) projectName projectDescription userId)
                   (user_history (cur s))) as [|project ps] eqn:E; [discriminate|].
  inversion Hfind as [[Hid Hst]]. subst s1 projectId. split; [reflexivity|].
  assert (Hin : In project (filter (open_project_of (cur s) projectName projectDescription
                                      userId) (user_history (cur s))))
    by (rewrite E; left; reflexivity).
  apply filter_In in Hin. destruct Hin as [Hin Hopen].
  set (hit := fun h => Z.eqb (uh_id h) (uh_id project)
                       && open_project_of (cur s) projectName projectDescription userId h).
  assert (Hhit : hit project = true) by (unfold hit; rewrite Z.eqb_refl, Hopen; reflexivity).
  unfold user_Update, bind.
  erewrite queryDatabase_nil
    by (unfold userUpdateQuery; rewrite !sql_number_finite by assumption; reflexivity).
  cbv beta iota zeta. cbn [affectedRows]. fold hit.
  assert (Hn : Z.eqb (count hit (user_history (cur s))) 0 = false).
  { unfold count. destruct (filter hit (user_history (cur s))) as [|x xs] eqn:F.
    - exfalso. assert (Hx : In project (filter hit (user_history (cur s))))
        by (apply filter_In; split; assumption).
      rewrite F in Hx. destruct Hx.
    - apply Z.eqb_neq. cbn [List.length]. lia. }
  rewrite Hn. unfold ret. eexists. split; [reflexivity|].
  exists (set_session (num_bind sessionDuration) (num_bind carbonEmissions) projectStage
            project).
  split; [|repeat split].
  cbn [cur user_history with_user_history]. unfold update_where.
  apply in_map_iff. exists project. rewrite Hhit. split; [reflexivity|exact Hin].
Qed.

(** X17. [/setCurrentDevice] stores whatever identifier it is given. When
    no device has it, both accrual handlers answer 404 afterwards, with
    "Current device not set" for null and 0 and "User device information
    not found" otherwise, and accrue nothing. *)
Theorem setCurrentDevice_unknown_device (userId projectId : Z) (deviceId : option Z)
    (sessionDuration : float) (mobile : bool) (s : Store)
    (user : users_row) (others : list users_row) :
  filter (fun u => Z.eqb (u_id u) userId) (users (cur s)) = user :: others ->
  (forall dev, In dev (user_devices (cur s)) -> Some (ud_id dev) <> deviceId) ->
  exists s1,
    setCurrentDevice userId deviceId [] s
      = (answer 200 "Current device updated successfully", [], s1) /\
    accrue mobile userId projectId sessionDuration [] s1
      = (answer 404 match deviceId with
                    | None | Some 0 => "Current device not set"
                    | Some _ => "User device information not found"
                    end, [], s1).
Proof.
  intros Hu Hdev. unfold setCurrentDevice, bind.
  erewrite queryDatabase_nil by reflexivity. cbv beta iota zeta. unfold ret.
  eexists. split; [reflexivity|].
  rewrite accrue_planned. unfold planned. cbn [cur users user_devices with_users].
  rewrite filter_update_where_comm by reflexivity. rewrite Hu.
  unfold update_where. cbn [map].
  assert (Hid : Z.eqb (u_id user) userId = true).
  { assert (Hin : In user (filter (fun u => Z.eqb (u_id u) userId) (users (cur s))))
      by (rewrite Hu; left; reflexivity).
    apply filter_In in Hin. tauto. }
  rewrite Hid. unfold device_set. cbn [u_current_device_id set_current_device].
  destruct deviceId as [[|d|d]|]; try reflexivity.
  - rewrite filter_none; [reflexivity|]. intros dev Hin. apply Z.eqb_neq.
    intros F. apply (Hdev dev Hin). rewrite F. reflexivity.
  - rewrite filter_none; [reflexivity|]. intros dev Hin. apply Z.eqb_neq.
    intros F. apply (Hdev dev Hin). rewrite F. reflexivity.
Qed.

Ltac at_rest H :=
  match type of H with
  | context [queryDatabase ?q ?os ?s] =>
      let E := fresh "E" in
      let answered := fresh "answered" in
      destruct (queryDatabase q os s) as [[answered ?os] ?s] eqn:E;
      apply queryDatabase_at_rest in E; [|assumption];
      destruct E as [? E];
      cbv beta iota zeta in H
  end.

(** X18. The frame of the accrual handlers, whatever the outcomes of the
    calls: outside a transaction they write to [user_history] only, there
    to the two counters of rows with the identifier of the request only,
    the desktop handler never to [session_duration]; and an answer other
    than 200 means that nothing was written. *)
Theorem accrue_frame (mobile : bool) (userId projectId : Z) (sessionDuration : float)
    (os : list outcome) (s : Store) (r : http_response) (os' : list outcome) (s' : Store) :
  snap s = None ->
  accrue mobile userId projectId sessionDuration os s = (r, os', s') ->
  snap s' = None /\
  (failed r -> s' = s) /\
  with_user_history (fun _ => user_history (cur s)) (cur s') = cur s /\
  map (set_emissions num_zero num_zero) (user_history (cur s'))
    = map (set_emissions num_zero num_zero) (user_history (cur s)) /\
  (forall h, In h (user_history (cur s')) -> uh_id h <> projectId ->
             In h (user_history (cur s))) /\
  (mobile = false ->
   map uh_session_duration (user_history (cur s'))
     = map uh_session_duration (user_history (cur s))).
Proof.
  intros Hs H.
  assert (Hsame : forall t : Store, snap t = None -> cur t = cur s ->
            snap t = None /\ (failed r -> t = s) /\
            with_user_history (fun _ => user_history (cur s)) (cur t) = cur s /\
            map (set_emissions num_zero num_zero) (user_history (cur t))
              = map (set_emissions num_zero num_zero) (user_history (cur s)) /\
            (forall h, In h (user_history (cur t)) -> uh_id h <> projectId ->
                       In h (user_history (cur s))) /\
            (mobile = false ->
             map uh_session_duration (user_history (cur t))
               = map uh_session_duration (user_history (cur s)))).
  { intros t Ht Hcur. split; [exact Ht|]. split; [intros _; apply at_rest_eq; assumption|].
    rewrite Hcur. split; [apply with_user_history_fixed; reflexivity|].
    split; [reflexivity|]. split; [intros h Hin _; exact Hin|reflexivity]. }
  assert (Hwrote : forall (t : Store) (p : user_history_row -> bool)
                          (f : user_history_row -> user_history_row) text amount,
            snap t = None ->
            cur t = with_user_history (update_where p f) (cur s) ->
            r = Json 200 text None amount ->
            (forall h, p h = true -> uh_id h = projectId) ->
            (forall h, set_emissions num_zero num_zero (f h)
                       = set_emissions num_zero num_zero h) ->
            (mobile = false -> forall h, uh_session_duration (f h) = uh_session_duration h) ->
            snap t = None /\ (failed r -> t = s) /\
            with_user_history (fun _ => user_history (cur s)) (cur t) = cur s /\
            map (set_emissions num_zero num_zero) (user_history (cur t))
              = map (set_emissions num_zero num_zero) (user_history (cur s)) /\
            (forall h, In h (user_history (cur t)) -> uh_id h <> projectId ->
                       In h (user_history (cur s))) /\
            (mobile = false ->
             map uh_session_duration (user_history (cur t))
               = map uh_session_duration (user_history (cur s)))).
  { intros t p f text amount Ht Hcur Hr Hp Hf Hd. split; [exact Ht|].
    split; [intros F; subst r; exfalso; apply F; reflexivity|].
    rewrite Hcur. split; [destruct (cur s); reflexivity|].
    cbn [user_history with_user_history]. split; [|split].
    - unfold update_where. rewrite map_map. apply map_ext.
      intros h. destruct (p h); [apply Hf|reflexivity].
    - intros h Hin Hne. apply update_where_In in Hin. destruct Hin as [y [Hy Hh]].
      destruct (p y) eqn:E; [|subst h; exact Hy]. exfalso. apply Hne.
      subst h. rewrite <- (Hp y E).
      change (uh_id (f y)) with (uh_id (set_emissions num_zero num_zero (f y))).
      rewrite Hf. reflexivity.
    - intros Hm. unfold update_where. rewrite map_map. apply map_ext.
      intros h. destruct (p h); [apply (Hd Hm)|reflexivity]. }
  destruct mobile; cbn [accrue] in H.
  - unfold calculate_emissionsM, bind, ret, fetch_usage in H.
    at_rest H. destruct answered as [[|user us]|].
    + destruct E as [d [Hq Hd]]. subst d. inversion Hq as [[Hd Hrows]].
      inversion H; subst. apply Hsame; [assumption|symmetry; assumption].
    + destruct E as [d [Hq Hd]]. subst d. inversion Hq as [[Hd Hrows]].
      assert (Hs0 : s0 = s) by (apply at_rest_eq; [assumption|assumption|symmetry; assumption]).
      subst s0. clear Hd Hq.
      destruct (device_set user) as [id|]; [|inversion H; subst; apply Hsame; auto].
      at_rest H. destruct answered as [[|device ds]|].
      * destruct E as [d [Hq' Hd']]. subst d. inversion Hq' as [[Hd' Hrows']].
        inversion H; subst. apply Hsame; [assumption|symmetry; assumption].
      * destruct E as [d [Hq' Hd']]. subst d. inversion Hq' as [[Hd' Hrows']].
        assert (Hs1 : s0 = s)
          by (apply at_rest_eq; [assumption|assumption|symmetry; assumption]).
        subst s0. clear Hd' Hq'.
        destruct (usage_response (cpusm (cur s)) (ud_cpu device)) as [c|];
          [|inversion H; subst; apply Hsame; auto].
        destruct (usage_response (gpusm (cur s)) (ud_gpu device)) as [g|];
          [|inversion H; subst; apply Hsame; auto].
        destruct (usage_response (ram (cur s)) (ud_ram device)) as [w|];
          [|inversion H; subst; apply Hsame; auto].
        at_rest H. destruct answered as [u|].
        -- destruct E as [d [Hq'' Hd'']]. subst d. unfold updateQuery in Hq''.
           destruct (sql_number sessionDuration) as [x|]; [|discriminate].
           destruct (sql_number _) as [v|]; [|discriminate].
           inversion Hq'' as [[Hd'' Hu]]. inversion H; subst.
           eapply Hwrote; [assumption|symmetry; exact Hd''|reflexivity| | |discriminate].
           ++ intros h Hh. unfold owned_by in Hh. rewrite andb_true_iff, Z.eqb_eq in Hh.
              tauto.
           ++ intros h. reflexivity.
        -- subst. inversion H; subst. apply Hsame; auto.
      * subst. inversion H; subst. apply Hsame; auto.
    + subst. inversion H; subst. apply Hsame; auto.
  - unfold calculate_emissions, bind, ret, fetch_usage in H.
    at_rest H. destruct answered as [[|user us]|].
    + destruct E as [d [Hq Hd]]. subst d. inversion Hq as [[Hd Hrows]].
      inversion H; subst. apply Hsame; [assumption|symmetry; assumption].
    + destruct E as [d [Hq Hd]]. subst d. inversion Hq as [[Hd Hrows]].
      assert (Hs0 : s0 = s) by (apply at_rest_eq; [assumption|assumption|symmetry; assumption]).
      subst s0. clear Hd Hq.
      destruct (device_set user) as [id|]; [|inversion H; subst; apply Hsame; auto].
      at_rest H. destruct answered as [[|device ds]|].
      * destruct E as [d [Hq' Hd']]. subst d. inversion Hq' as [[Hd' Hrows']].
        inversion H; subst. apply Hsame; [assumption|symmetry; assumption].
      * destruct E as [d [Hq' Hd']]. subst d. inversion Hq' as [[Hd' Hrows']].
        assert (Hs1 : s0 = s)
          by (apply at_rest_eq; [assumption|assumption|symmetry; assumption]).
        subst s0. clear Hd' Hq'.
        destruct (usage_response (cpus (cur s)) (ud_cpu device)) as [c|];
          [|inversion H; subst; apply Hsame; auto].
        destruct (usage_response (gpus (cur s)) (ud_gpu device)) as [g|];
          [|inversion H; subst; apply Hsame; auto].
        destruct (usage_response (ram (cur s)) (ud_ram device)) as [w|];
          [|inversion H; subst; apply Hsame; auto].
        at_rest H. destruct answered as [u|].
        -- destruct E as [d [Hq'' Hd'']]. subst d.
           unfold updateProjectEmissionsQuery in Hq''.
           destruct (sql_number _) as [v|]; [|discriminate].
           inversion Hq'' as [[Hd'' Hu]]. inversion H; subst.
           eapply Hwrote; [assumption|symmetry; exact Hd''|reflexivity| | |].
           ++ intros h Hh. unfold owner_or_member in Hh.
              rewrite andb_true_iff, Z.eqb_eq in Hh. tauto.
           ++ intros h. reflexivity.
           ++ intros _ h. reflexivity.
        -- subst. inversion H; subst. apply Hsame; auto.
      * subst. inversion H; subst. apply Hsame; auto.
    + subst. inversion H; subst. apply Hsame; auto.
Qed.

(** X26. [complete_project] on an identifier that no instance with a
    known owner has: whatever the outcomes of the calls, the handler does
    not answer 200, opens no transaction and writes nothing.  An instance
    whose owner is no longer among the users counts as not found. *)
Theorem complete_project_unknown_instance (projectId userId : Z)
    (nextStage currentStage : option string) (now : Z)
    (os : list outcome) (s : Store) (r : http_response) (os' : list outcome) (s' : Store) :
  snap s = None ->
  (forall h, In h (user_history (cur s)) -> uh_id h = projectId ->
             forall u, In u (users (cur s)) -> u_id u <> uh_user_id h) ->
  complete_project projectId userId nextStage currentStage now os s = (r, os', s') ->
  failed r /\ s' = s.
Proof.
  intros Hs Hno H. unfold complete_project, bind in H.
  at_rest H. destruct answered as [rows|].
  - destruct E as [d [Hq Hd]]. subst d. unfold getCurrentProjectQuery in Hq.
    rewrite filter_none in Hq.
    + inversion Hq as [[Hd Hrows]]. subst rows. cbn [firstn] in H.
      unfold ret in H. inversion H; subst. split; [cbn; discriminate|].
      apply at_rest_eq; [assumption|assumption|symmetry; assumption].
    + intros h Hin. destruct (Z.eqb_spec (uh_id h) projectId) as [Hid|]; [|reflexivity].
      cbn [andb]. destruct (existsb _ (users (cur s))) eqn:Ex; [|reflexivity].
      exfalso. apply existsb_exists in Ex. destruct Ex as [u [Hu Heq]].
      apply Z.eqb_eq in Heq. exact (Hno h Hin Hid u Hu Heq).
  - subst. unfold ret in H. inversion H; subst. split; [cbn; discriminate|reflexivity].
Qed.

End AtRest.

Lemma user_Update_complete_frozen_witness :
  failed (answer 404 "No matching project found to update") /\
  @completed_store double_column = completed_store.
Proof.
  apply (@user_Update_complete_frozen double_column 2 "X" "Y" 60 1 (Some design) 1
           [] completed_store (answer 404 "No matching project found to update")
           [] completed_store).
  - reflexivity.
  - intros h [<-|[]] _. reflexivity.
  - vm_compute. reflexivity.
Defined.

Lemma find_project_then_user_Update_witness :
  exists s2,
    user_Update (NC := double_column) 2 "X" "Y" 60 1 (Some design) 1 [] team_store
      = (answer 200 "Session updated successfully", [], s2).
Proof.
  destruct (@find_project_then_user_Update double_column 2 "X" "Y" 60 1 (Some design) 1
              team_store team_store) as [_ [s2 [H _]]].
  - vm_compute. reflexivity.
  - reflexivity.
  - reflexivity.
  - exists s2. exact H.
Defined.

Lemma setCurrentDevice_unknown_device_witness :
  exists s1,
    setCurrentDevice (NC := double_column) 2 (Some 9) [] team_store
      = (answer 200 "Current device updated successfully", [], s1) /\
    accrue false 2 1 3600 [] s1
      = (answer 404 "User device information not found", [], s1).
Proof.
  apply (@setCurrentDevice_unknown_device double_column form_urlencoded 2 1 (Some 9) 3600
           false team_store
           (person 2 "a@acme.sg" (Some "Mars"%string) (Some 2))
           [] eq_refl).
  intros dev Hin. simpl in Hin.
  destruct Hin as [<-|[<-|[<-|[]]]]; discriminate.
Defined.

Lemma accrue_frame_witness :
  map uh_session_duration
      (user_history (cur (after (accrue (NC := double_column) false 2 1 3600) team_store)))
    = map uh_session_duration (user_history (cur team_store)).
Proof.
  refine (proj2 (proj2 (proj2 (proj2 (proj2
            (@accrue_frame double_column form_urlencoded false 2 1 3600 [] team_store
               (Json 200 "" None (Some 103%float)) []
               (after (accrue false 2 1 3600) team_store) eq_refl _))))) eq_refl).
  vm_compute. reflexivity.
Defined.

Lemma complete_project_unknown_instance_witness :
  failed (answer 404 "Project not found") /\ @team_store double_column = team_store.
Proof.
  apply (@complete_project_unknown_instance double_column 7 2 None (Some design) noon
           [Lost; Ok] team_store (answer 404 "Project not found") [] team_store).
  - reflexivity.
  - intros h [<-|[]] F. discriminate F.
  - vm_compute. reflexivity.
Defined.
(** *** Further units of work *)

Section Atomic.

Context {NC : NumericColumn}.

Ltac rolled_back H :=
  unfold rollback_with, do_rollback, bind, ret in H;
  inversion H; subst; apply rollback_in_transaction; congruence.

Ltac query H :=
  match type of H with
  | context [queryDatabase ?q ?os ?s] =>
      let E := fresh "E" in
      let r := fresh "answered" in
      destruct (queryDatabase q os s) as [[r ?os] ?s] eqn:E;
      apply queryDatabase_inv in E; [|assumption];
      destruct E as [? ?];
      cbv beta iota zeta in H
  end.

Lemma beginTransaction_inv (os : list outcome) (s : Store) (e : bool)
    (os1 : list outcome) (s1 : Store) :
  ~ In Lost os ->
  beginTransaction os s = (e, os1, s1) ->
  ~ In Lost os1 /\ (e = true -> s1 = s) /\ (e = false -> snap s1 = Some (cur s)).
Proof.
  intros Hn Hb. unfold beginTransaction in Hb.
  destruct os as [|[] os]; inversion Hb; subst;
    (split; [intros F; apply Hn; try right; assumption
            |split; [try discriminate; reflexivity|try discriminate; reflexivity]]).
Qed.

(** X19. As long as the connection is not lost, an answer 500 of the
    administrator's deletion means that nothing was deleted. *)
Theorem admin_delete_project_undone (projectId : Z) (os : list outcome) (s : Store)
    (text : string) (os' : list outcome) (s' : Store) :
  ~ In Lost os ->
  snap s = None ->
  admin_delete_project projectId os s = (answer 500 text, os', s') ->
  s' = s.
Proof.
  intros Hn Hs H. unfold admin_delete_project, bind in H.
  destruct (beginTransaction os s) as [[e os1] s1] eqn:Eb.
  destruct (beginTransaction_inv _ _ Hn Eb) as [Hn1 [Ht Hf]].
  cbv beta iota zeta in H.
  destruct e; [unfold ret in H; inversion H; subst; auto|].
  specialize (Hf eq_refl).
  assert (Hgoal : s' = {| cur := cur s; snap := None |} -> s' = s).
  { intros ->. rewrite <- Hs. apply store_eta. }
  apply Hgoal. clear Hgoal Ht.
  query H. destruct answered as [?|]; [|rolled_back H].
  query H. destruct answered as [?|]; [|rolled_back H].
  query H. destruct answered as [projectResults|]; [|rolled_back H].
  unfold commit, ret in H.
  match type of H with
  | context [match ?o with [] => _ | _ :: _ => _ end] => destruct o as [|[] o']
  end; cbv beta iota zeta in H;
    try (destruct (Z.ltb 0 (affectedRows projectResults)); inversion H);
    rolled_back H.
Qed.

(** X20. As long as the connection is not lost, the creation of a project
    by an administrator is all or nothing: when the handler does not answer
    200, no project and no membership has been added. *)
Theorem create_project_undone (body : create_project_body) (now : Z)
    (os : list outcome) (s : Store) (r : http_response) (os' : list outcome) (s' : Store) :
  ~ In Lost os ->
  snap s = None ->
  create_project body now os s = (r, os', s') ->
  failed r ->
  s' = s.
Proof.
  intros Hn Hs H Hr. unfold create_project in H.
  destruct (create_project_timeline body now) as [timeline|];
    [|unfold ret in H; inversion H; reflexivity].
  unfold create_project_with, bind in H.
  destruct (beginTransaction os s) as [[e os1] s1] eqn:Eb.
  destruct (beginTransaction_inv _ _ Hn Eb) as [Hn1 [Ht Hf]].
  cbv beta iota zeta in H.
  destruct e; [unfold ret in H; inversion H; subst; auto|].
  specialize (Hf eq_refl).
  assert (Hgoal : s' = {| cur := cur s; snap := None |} -> s' = s).
  { intros ->. rewrite <- Hs. apply store_eta. }
  apply Hgoal. clear Hgoal Ht.
  assert (Hcommit : forall projectId o t,
            ~ In Lost o -> snap t = Some (cur s) ->
            commit_with (Json 200 "" (Some projectId) None) o t = (r, os', s') ->
            s' = {| cur := cur s; snap := None |}).
  { intros projectId o t Ho Hsn Hc.
    eapply commit_with_undone; [|exact Hsn|exact Hc|exact Hr].
    simpl. intros F. apply F. reflexivity. }
  query H. destruct answered as [[|ownerId owners]|]; [rolled_back H| |rolled_back H].
  query H.
  destruct answered as [[|leader leaders]|]; [| |rolled_back H].
  - destruct (str_falsy (cp_leader_email body)); [|rolled_back H].
    query H. destruct answered as [projectResult|]; [|rolled_back H].
    query H. destruct answered as [?|]; [|rolled_back H].
    query H. destruct answered as [?|]; [|rolled_back H].
    eapply Hcommit; [|  |exact H]; [assumption|congruence].
  - destruct (str_falsy (cp_leader_email body)).
    + query H. destruct answered as [projectResult|]; [|rolled_back H].
      query H. destruct answered as [?|]; [|rolled_back H].
      query H. destruct answered as [?|]; [|rolled_back H].
      eapply Hcommit; [|  |exact H]; [assumption|congruence].
    + query H. destruct answered as [projectResult|]; [|rolled_back H].
      query H. destruct answered as [?|]; [|rolled_back H].
      query H. destruct answered as [?|]; [|rolled_back H].
      destruct leader as [|leader|leader].
      * eapply Hcommit; [|  |exact H]; [assumption|congruence].
      * query H. destruct answered as [?|]; [|rolled_back H].
        destruct (cp_members body) as [|member members].
        -- eapply Hcommit; [|  |exact H]; [assumption|congruence].
        -- query H. destruct answered as [[|id ids]|]; [| |rolled_back H].
           ++ eapply Hcommit; [|  |exact H]; [assumption|congruence].
           ++ query H. destruct answered as [?|]; [|rolled_back H].
              eapply Hcommit; [|  |exact H]; [assumption|congruence].
      * query H. destruct answered as [?|]; [|rolled_back H].
        destruct (cp_members body) as [|member members].
        -- eapply Hcommit; [|  |exact H]; [assumption|congruence].
        -- query H. destruct answered as [[|id ids]|]; [| |rolled_back H].
           ++ eapply Hcommit; [|  |exact H]; [assumption|congruence].
           ++ query H. destruct answered as [?|]; [|rolled_back H].
              eapply Hcommit; [|  |exact H]; [assumption|congruence].
Qed.

End Atomic.

Lemma admin_delete_project_undone_witness :
  snd (admin_delete_project (NC := double_column) 1 [Ok; Ok; Fail] team_store) = team_store.
Proof.
  apply (@admin_delete_project_undone double_column 1 [Ok; Ok; Fail] team_store
           "Error deleting project members" []).
  - intros [H|[H|[H|[]]]]; discriminate.
  - reflexivity.
  - vm_compute. reflexivity.
Defined.

Lemma create_project_undone_witness :
  snd (create_project (NC := double_column)
         (new_project (Some "a@acme.sg"%string) ["b@acme.sg"%string]) noon
         [Ok; Ok; Ok; Ok; Ok; Ok; Fail] team_store) = team_store.
Proof.
  apply (@create_project_undone double_column
           (new_project (Some "a@acme.sg"%string) ["b@acme.sg"%string]) noon
           [Ok; Ok; Ok; Ok; Ok; Ok; Fail] team_store
           (answer 500 "Failed to add project leader") []).
  - intros [H|[H|[H|[H|[H|[H|[H|[]]]]]]]]; discriminate.
  - reflexivity.
  - vm_compute. reflexivity.
  - simpl. discriminate.
Defined.
(** *** The owner invariant under any script *)

Section Kept.

Context {NC : NumericColumn}.

Variable P : DB -> Prop.

Lemma reads_keeps {R} (q : statement R) : reads q -> keeps P q.
Proof.
  intros Hq db db' r Hdb H. destruct (Hq db) as [x Hx]. rewrite Hx in H.
  inversion H; subst. exact Hdb.
Qed.

Lemma queryDatabase_kept {R} (q : statement R) (Hq : keeps P q) :
  forall os s r os' s',
    kept P s -> queryDatabase q os s = (r, os', s') -> kept P s'.
Proof.
  assert (Hex : forall os s r os' s',
             kept P s -> execute q os s = (r, os', s') -> kept P s').
  { intros os s r os' s' [Hc Hd] H. unfold execute in H.
    destruct (q (cur s)) as [[d x]|] eqn:E; inversion H; subst; [|split; assumption].
    split; [exact (Hq _ _ _ Hc E)|]. unfold durable in *. cbn [snap cur].
    destruct (snap s); [exact Hd|exact (Hq _ _ _ Hc E)]. }
  induction os as [|o os IH]; intros s r os' s' Hk H; simpl in H.
  - eapply Hex; eassumption.
  - destruct o.
    + eapply Hex; eassumption.
    + inversion H; subst. exact Hk.
    + eapply IH; [|exact H]. destruct Hk as [_ Hd]. split; exact Hd.
Qed.

Lemma beginTransaction_kept (os : list outcome) (s : Store) (e : bool)
    (os' : list outcome) (s' : Store) :
  kept P s -> beginTransaction os s = (e, os', s') -> kept P s'.
Proof.
  intros [Hc Hd] H. unfold beginTransaction in H.
  destruct os as [|[] os]; inversion H; subst; split; assumption.
Qed.

Lemma commit_kept (os : list outcome) (s : Store) (e : bool)
    (os' : list outcome) (s' : Store) :
  kept P s -> commit os s = (e, os', s') -> kept P s'.
Proof.
  intros [Hc Hd] H. unfold commit in H.
  destruct os as [|[] os]; inversion H; subst; split; assumption.
Qed.

Lemma rollback_with_kept (code : Z) (text : string) (os : list outcome) (s : Store)
    (r : http_response) (os' : list outcome) (s' : Store) :
  kept P s -> rollback_with code text os s = (r, os', s') -> kept P s'.
Proof.
  intros [Hc Hd] H. unfold rollback_with, do_rollback, bind, ret in H.
  inversion H; subst. split; exact Hd.
Qed.

Lemma commit_with_kept (ok : http_response) (os : list outcome) (s : Store)
    (r : http_response) (os' : list outcome) (s' : Store) :
  kept P s -> commit_with ok os s = (r, os', s') -> kept P s'.
Proof.
  intros Hk H. unfold commit_with, bind in H.
  destruct (commit os s) as [[e os1] s1] eqn:E.
  pose proof (@commit_kept _ _ _ _ _ Hk E) as E'. cbv beta iota zeta in H.
  destruct e; [exact (@rollback_with_kept _ _ _ _ _ _ _ E' H)|].
  unfold ret in H. inversion H; subst. exact E'.
Qed.

End Kept.

Section OwnersKept.

Context {NC : NumericColumn}.

Notation "x <- m ;; k" := (bind m (fun x => k))
  (at level 61, m at next level, right associativity).

Lemma keeps_reading {R} (q : statement R) :
  (forall db, exists r, q db = Some (db, r)) -> keeps owners_without_progress q.
Proof. intros H. apply reads_keeps. exact H. Qed.

Lemma keeps_user_history {R} (q : statement R) :
  (forall db db' r, q db = Some (db', r) -> project_members db' = project_members db) ->
  keeps owners_without_progress q.
Proof.
  intros Hq db db' r Hdb H m Hin. apply Hdb. rewrite <- (Hq _ _ _ H). exact Hin.
Qed.

Lemma keeps_insert_rows {R} (q : statement R) (mk : DB -> list (Z -> project_members_row)) :
  (forall db db' r, q db = Some (db', r) ->
                    db' = with_project_members (insert_rows pm_id (mk db)) db) ->
  (forall db f id, In f (mk db) -> pm_role (f id) <> "project_owner"%string \/
                                   pm_progress_status (f id) = None) ->
  keeps owners_without_progress q.
Proof.
  intros Hq Hmk db db' r Hdb H. rewrite (Hq _ _ _ H).
  apply insert_rows_owners; [exact Hdb|].
  intros f id Hf Hrole. destruct (Hmk db f id Hf) as [Hn|Hn]; [contradiction|exact Hn].
Qed.

Ltac step H Hk tac :=
  match type of H with
  | context [queryDatabase ?q ?os ?s] =>
      let E := fresh "E" in
      let Hq := fresh "Hq" in
      let Hk2 := fresh "Hk" in
      let r := fresh "answered" in
      assert (Hq : keeps owners_without_progress q) by tac;
      destruct (queryDatabase q os s) as [[r ?os] ?s] eqn:E;
      pose proof (@queryDatabase_kept _ _ _ _ Hq _ _ _ _ _ Hk E) as Hk2;
      clear Hk E Hq; rename Hk2 into Hk;
      cbv beta iota zeta in H
  end.

Ltac reading := apply keeps_reading; intros ?; eexists; reflexivity.

Ltac writing_projects :=
  apply keeps_user_history; intros ? ? ? Hx; inversion Hx; reflexivity.

Ltac finish H Hk :=
  first [ exact (@rollback_with_kept _ _ _ _ _ _ _ _ _ Hk H)
        | exact (@commit_with_kept _ _ _ _ _ _ _ _ Hk H)
        | (unfold ret in H; inversion H; subst; exact Hk) ].

(** X21. The creation of a project by an administrator keeps the owner
    invariant, whatever the outcomes of the calls, lost connections
    included: if no membership with the role of the owner has a progress
    status before, in the database the connection sees and in the
    committed one, then none has afterwards. *)
Theorem create_project_keeps_owners (body : create_project_body) (now : Z)
    (os : list outcome) (s : Store) (r : http_response) (os' : list outcome) (s' : Store) :
  owners_without_progress (cur s) ->
  owners_without_progress (durable s) ->
  create_project body now os s = (r, os', s') ->
  owners_without_progress (cur s') /\ owners_without_progress (durable s').
Proof.
  intros Hc Hd H.
  assert (Hk : kept owners_without_progress s) by (split; assumption).
  clear Hc Hd. change (kept owners_without_progress s').
  unfold create_project in H.
  destruct (create_project_timeline body now) as [timeline|];
    [|unfold ret in H; inversion H; subst; exact Hk].
  unfold create_project_with, bind in H.
  destruct (beginTransaction os s) as [[e os1] s1] eqn:Eb.
  pose proof (@beginTransaction_kept _ _ _ _ _ _ _ Hk Eb) as Hk1.
  clear Hk Eb. rename Hk1 into Hk.
  cbv beta iota zeta in H.
  destruct e; [finish H Hk|].
  step H Hk reading.
  destruct answered as [[|ownerId owners]|]; [finish H Hk| |finish H Hk].
  step H Hk reading. rename answered into leaderResults.
  assert (Hmembers : forall projectId ids,
            keeps owners_without_progress
              (adminAddMembersQuery projectId (cp_stage body) ids)).
  { intros projectId ids.
    apply keeps_insert_rows with
             (mk := fun _ => map (fun userId id =>
                       {| pm_id := id; pm_project_id := projectId; pm_user_id := userId;
                          pm_role := "member";
                          pm_current_stage := cp_stage body;
                          pm_progress_status := Some "In Progress"%string;
                          pm_joined_at := default_joined_at |}) ids).
    - intros db db' x Hx. inversion Hx. reflexivity.
    - intros db f id Hf. apply in_map_iff in Hf. destruct Hf as [u [<- _]].
      left. discriminate. }
  assert (Hleader : forall projectId leader,
            keeps owners_without_progress
              (adminAddLeaderQuery projectId leader (cp_stage body) now)).
  { intros projectId leader.
    apply keeps_insert_rows with
             (mk := fun _ => [fun id =>
                       {| pm_id := id; pm_project_id := projectId; pm_user_id := leader;
                          pm_role := "project_leader";
                          pm_current_stage := cp_stage body;
                          pm_progress_status := Some "In Progress"%string;
                          pm_joined_at := Some now |}]).
    - intros db db' x Hx. inversion Hx. reflexivity.
    - intros db f id [<-|[]]. left. discriminate. }
  assert (Howner : forall projectId,
            keeps owners_without_progress
              (adminAddOwnerQuery projectId ownerId (cp_stage body) now)).
  { intros projectId.
    apply keeps_insert_rows with
             (mk := fun _ => [fun id =>
                       {| pm_id := id; pm_project_id := projectId; pm_user_id := ownerId;
                          pm_role := "project_owner";
                          pm_current_stage := cp_stage body;
                          pm_progress_status := None;
                          pm_joined_at := Some now |}]).
    - intros db db' x Hx. inversion Hx. reflexivity.
    - intros db f id [<-|[]]. right. reflexivity. }
  assert (Hrest : forall (leaderId : option Z) os2 s2,
            kept owners_without_progress s2 ->
            (c <- queryDatabase (adminCreateProjectQuery body timeline ownerId) ;;
             match c with
             | Err => rollback_with 500 "Failed to create project"
             | Rows projectResult =>
                 let projectId := insertId projectResult in
                 i <- queryDatabase (updateProjectIdQuery projectId) ;;
                 match i with
                 | Err => rollback_with 500 "Failed to update project ID"
                 | Rows _ =>
                     a <- queryDatabase
                            (adminAddOwnerQuery projectId ownerId (cp_stage body) now) ;;
                     match a with
                     | Err => rollback_with 500 "Failed to add project owner"
                     | Rows _ =>
                         match leaderId with
                         | Some 0 | None =>
                             commit_with (Json 200 "" (Some projectId) None)
                         | Some leader =>
                             b <- queryDatabase
                                    (adminAddLeaderQuery projectId leader (cp_stage body)
                                       now) ;;
                             match b with
                             | Err => rollback_with 500 "Failed to add project leader"
                             | Rows _ =>
                                 match cp_members body with
                                 | [] => commit_with (Json 200 "" (Some projectId) None)
                                 | _ :: _ =>
                                     f <- queryDatabase (findMembersQuery (cp_members body)) ;;
                                     match f with
                                     | Err =>
                                         rollback_with 500 "Failed to find project members"
                                     | Rows [] =>
                                         commit_with (Json 200 "" (Some projectId) None)
                                     | Rows (id :: ids) =>
                                         m <- queryDatabase
                                                (adminAddMembersQuery projectId
                                                   (cp_stage body) (id :: ids)) ;;
                                         match m with
                                         | Err =>
                                             rollback_with 500
                                               "Failed to add project members"
                                         | Rows _ =>
                                             commit_with
                                               (Json 200 "" (Some projectId) None)
                                         end
                                     end
                                 end
                             end
                         end
                     end
                 end
             end) os2 s2 = (r, os', s') ->
            kept owners_without_progress s').
  { clear H Hk. intros leaderId o t Hk H. unfold bind in H.
    step H Hk writing_projects.
    destruct answered as [projectResult|]; [|finish H Hk].
    step H Hk writing_projects.
    destruct answered as [?|]; [|finish H Hk].
    step H Hk ltac:(apply Howner).
    destruct answered as [?|]; [|finish H Hk].
    destruct leaderId as [[|leader|leader]|]; try (finish H Hk).
    - step H Hk ltac:(apply Hleader).
      destruct answered as [?|]; [|finish H Hk].
      destruct (cp_members body) as [|member members]; [finish H Hk|].
      step H Hk reading.
      destruct answered as [[|id ids]|]; [finish H Hk| |finish H Hk].
      step H Hk ltac:(apply Hmembers).
      destruct answered as [?|]; finish H Hk.
    - step H Hk ltac:(apply Hleader).
      destruct answered as [?|]; [|finish H Hk].
      destruct (cp_members body) as [|member members]; [finish H Hk|].
      step H Hk reading.
      destruct answered as [[|id ids]|]; [finish H Hk| |finish H Hk].
      step H Hk ltac:(apply Hmembers).
      destruct answered as [?|]; finish H Hk. }
  destruct leaderResults as [[|leader leaders]|]; [| |finish H Hk].
  - destruct (str_falsy (cp_leader_email body)); [|finish H Hk].
    exact (Hrest None _ _ Hk H).
  - destruct (str_falsy (cp_leader_email body)).
    + exact (Hrest None _ _ Hk H).
    + exact (Hrest (Some leader) _ _ Hk H).
Qed.

(** X22. The response to an invitation keeps the owner invariant, whatever
    the response and the outcomes of the calls, lost connections included,
    and also when the handler raises: if no membership with the role of the
    owner has a progress status before, none has afterwards. *)
Theorem respondToInvitation_keeps_owners (notificationId userId : Z)
    (response : option string)
    (os : list outcome) (s : Store) (r : http_response) (os' : list outcome) (s' : Store) :
  owners_without_progress (cur s) ->
  owners_without_progress (durable s) ->
  respondToInvitation notificationId userId response os s = (r, os', s') ->
  owners_without_progress (cur s') /\ owners_without_progress (durable s').
Proof.
  intros Hc Hd H.
  assert (Hk : kept owners_without_progress s) by (split; assumption).
  clear Hc Hd. change (kept owners_without_progress s').
  assert (Hcr : forall o t, kept owners_without_progress t ->
                            commit_response o t = (r, os', s') ->
                            kept owners_without_progress s').
  { intros o t Ht Hcm. unfold commit_response, bind in Hcm.
    destruct (commit o t) as [[e o1] t1] eqn:E.
    pose proof (@commit_kept _ _ _ _ _ _ _ Ht E) as E'. cbv beta iota zeta in Hcm.
    destruct e; [exact (@rollback_with_kept _ _ _ _ _ _ _ _ _ E' Hcm)|].
    unfold ret in Hcm. inversion Hcm; subst. exact E'. }
  unfold respondToInvitation, bind in H.
  destruct (beginTransaction os s) as [[e os1] s1] eqn:Eb.
  pose proof (@beginTransaction_kept _ _ _ _ _ _ _ Hk Eb) as Hk1.
  clear Hk Eb. rename Hk1 into Hk.
  cbv beta iota zeta in H.
  destruct e; [finish H Hk|].
  step H Hk ltac:(intros db db' x Hdb Hx; inversion Hx; subst; exact Hdb).
  destruct answered as [?|]; [|finish H Hk].
  destruct (is_accepted response); [|exact (Hcr _ _ Hk H)].
  step H Hk reading.
  destruct answered as [[|projectId ids]|]; [finish H Hk| |finish H Hk].
  step H Hk ltac:(intros db db' x Hdb Hx; destruct x;
                  eapply insertMemberQuery_owners; eassumption).
  destruct answered as [?|]; [|finish H Hk].
  exact (Hcr _ _ Hk H).
Qed.

End OwnersKept.

Lemma create_project_keeps_owners_witness :
  owners_without_progress
    (cur (snd (create_project (NC := double_column)
                 (new_project (Some "a@acme.sg"%string) ["b@acme.sg"%string]) noon
                 [Ok; Lost; Ok] team_store))) /\
  owners_without_progress
    (durable (snd (create_project (NC := double_column)
                     (new_project (Some "a@acme.sg"%string) ["b@acme.sg"%string]) noon
                     [Ok; Lost; Ok] team_store))).
Proof.
  apply (@create_project_keeps_owners double_column
           (new_project (Some "a@acme.sg"%string) ["b@acme.sg"%string]) noon
           [Ok; Lost; Ok] team_store
           (fst (fst (create_project
                        (new_project (Some "a@acme.sg"%string) ["b@acme.sg"%string]) noon
                        [Ok; Lost; Ok] team_store)))
           (snd (fst (create_project
                        (new_project (Some "a@acme.sg"%string) ["b@acme.sg"%string]) noon
                        [Ok; Lost; Ok] team_store)))).
  - intros m Hin Hrole. simpl in Hin.
    destruct Hin as [<-|[<-|[<-|[]]]]; try reflexivity; discriminate.
  - intros m Hin Hrole. simpl in Hin.
    destruct Hin as [<-|[<-|[<-|[]]]]; try reflexivity; discriminate.
  - vm_compute. reflexivity.
Defined.

Lemma respondToInvitation_keeps_owners_witness :
  owners_without_progress
    (cur (snd (respondToInvitation (NC := double_column) 1 4 (Some "accepted"%string)
                 [Ok; Lost; Ok] team_store))) /\
  owners_without_progress
    (durable (snd (respondToInvitation (NC := double_column) 1 4 (Some "accepted"%string)
                     [Ok; Lost; Ok] team_store))).
Proof.
  apply (@respondToInvitation_keeps_owners double_column 1 4 (Some "accepted"%string)
           [Ok; Lost; Ok] team_store
           (fst (fst (respondToInvitation 1 4 (Some "accepted"%string)
                        [Ok; Lost; Ok] team_store)))
           (snd (fst (respondToInvitation 1 4 (Some "accepted"%string)
                        [Ok; Lost; Ok] team_store)))).
  - intros m Hin Hrole. simpl in Hin.
    destruct Hin as [<-|[<-|[<-|[]]]]; try reflexivity; discriminate.
  - intros m Hin Hrole. simpl in Hin.
    destruct Hin as [<-|[<-|[<-|[]]]]; try reflexivity; discriminate.
  - vm_compute. reflexivity.
Defined.
(** *** Handlers in sequence *)

Section Composition.

Context {NC : NumericColumn}.

Arguments update_where : simpl never.

Lemma filter_fresh {A} (key : A -> Z) (rows : list A) :
  filter (fun r => Z.eqb (key r) (next_id key rows)) rows = [].
Proof.
  apply filter_none. intros r Hr. apply Z.eqb_neq.
  pose proof (next_id_fresh key _ _ Hr). lia.
Qed.

(** X23. An invitation sent to a user who exists can be accepted by that
    user, with the store answering: the notification created carries the
    next identifier, and accepting it adds exactly one membership of the
    named project for the recipient, with role member.  Neither handler
    looks at the project or at the sender. *)
Theorem send_invitation_then_accept (senderId projectId : Z) (recipientEmail : string)
    (message : option string) (s : Store) (recipientId : Z) (others : list Z) :
  map u_id (filter (fun u => String.eqb (u_email u) recipientEmail) (users (cur s)))
    = recipientId :: others ->
  exists s1 s2,
    send_invitation senderId recipientEmail projectId message [] s
      = (answer 200 "Invitation sent successfully", [], s1) /\
    respondToInvitation (next_id n_id (notifications (cur s))) recipientId
      (Some "accepted"%string) [] s1
      = (answer 200 "Invitation response recorded successfully", [], s2) /\
    snap s2 = None /\
    project_members (cur s2)
      = project_members (cur s) ++ [invited_member (cur s) projectId recipientId] /\
    notifications (cur s2)
      = notifications (cur s)
        ++ [ {| n_id := next_id n_id (notifications (cur s)); n_sender_id := senderId;
                n_recipient_id := recipientId; n_project_id := projectId;
                n_type := "project_invitation"; n_message := message;
                n_status := Some "read"%string;
                n_response := Some "accepted"%string |} ].
Proof.
  intros Hu. unfold send_invitation, bind.
  erewrite queryDatabase_nil by (unfold findUserQuery; rewrite Hu; reflexivity).
  cbv beta iota zeta. rewrite store_eta.
  erewrite queryDatabase_nil by reflexivity. cbv beta iota zeta. unfold ret.
  set (id := next_id n_id (notifications (cur s))).
  assert (Hold : forall n, In n (notifications (cur s)) ->
                           addressed_to id recipientId n = false).
  { intros n Hn. unfold addressed_to.
    destruct (Z.eqb_spec (n_id n) id) as [Heq|]; [|reflexivity].
    pose proof (next_id_fresh n_id _ _ Hn). unfold id in Heq. lia. }
  assert (Hnew : forall st rs,
            addressed_to id recipientId
              {| n_id := id; n_sender_id := senderId; n_recipient_id := recipientId;
                 n_project_id := projectId; n_type := "project_invitation";
                 n_message := message; n_status := st; n_response := rs |} = true).
  { intros st rs. unfold addressed_to. cbn. rewrite !Z.eqb_refl. reflexivity. }
  do 2 eexists. split; [reflexivity|].
  unfold respondToInvitation, bind, ret. simpl. unfold execute. simpl.
  fold id.
  rewrite filter_update_where by reflexivity.
  rewrite filter_app, (filter_none _ _ Hold). cbn [filter app]. rewrite Hnew.
  simpl. unfold execute. simpl. unfold commit_response, bind, ret. simpl.
  split; [reflexivity|]. simpl. split; [reflexivity|]. split; [reflexivity|].
  rewrite update_where_app, (update_where_none _ _ _ Hold).
  unfold update_where. cbn [map]. rewrite Hnew. reflexivity.
Qed.

(** X24. A request that is submitted with a title and a description can be
    approved under the identifier the submission answers with, with the
    store answering: the approval creates one instance for the requester,
    with the title as name, the description, stage and dates of the
    request, status In Progress and itself as project, and an owner and a
    leader membership of it for the requester. *)
Theorem submit_then_approve_project_request (userId reviewerId : Z)
    (title description : string) (t : request_timeline) (review_notes : option string)
    (s : Store) :
  title <> ""%string -> description <> ""%string ->
  let requestId := next_id pr_id (project_requests (cur s)) in
  let projectId := next_id uh_id (user_history (cur s)) in
  let decided := decide "approved" reviewerId review_notes
                   (requested userId title description t requestId) in
  let owner := approved_role "project_owner" decided projectId
                 (next_id pm_id (project_members (cur s))) in
  let leader := approved_role "project_leader" decided projectId
                  (next_id pm_id (project_members (cur s) ++ [owner])) in
  exists s1 s2,
    submit_project_request userId (Some title) (Some description) t [] s
      = (Json 201 "Project request submitted successfully" (Some requestId) None, [], s1) /\
    approve_project_request requestId reviewerId review_notes [] s1
      = (Json 200 "Project request approved and project created successfully"
              (Some projectId) None, [], s2) /\
    snap s2 = None /\
    project_requests (cur s2) = project_requests (cur s) ++ [decided] /\
    user_history (cur s2) = user_history (cur s) ++ [approved_instance decided projectId] /\
    project_members (cur s2) = project_members (cur s) ++ [owner; leader].
Proof.
  intros Ht Hd requestId projectId decided owner leader.
  unfold submit_project_request.
  destruct (String.eqb_spec title ""); [contradiction|].
  destruct (String.eqb_spec description ""); [contradiction|].
  cbn [orb]. unfold bind.
  erewrite queryDatabase_nil by reflexivity. cbv beta iota zeta. unfold ret.
  cbn [insertId]. fold requestId.
  do 2 eexists. split; [reflexivity|].
  assert (Hold : forall r, In r (project_requests (cur s)) ->
                           Z.eqb (pr_id r) requestId = false).
  { intros r Hr. apply Z.eqb_neq. pose proof (next_id_fresh pr_id _ _ Hr).
    unfold requestId. lia. }
  assert (Hnew : filter (fun r => Z.eqb (pr_id r) requestId)
                   (project_requests (cur s)
                    ++ [requested userId title description t requestId])
                 = [requested userId title description t requestId]).
  { rewrite filter_app, (filter_none _ _ Hold). cbn [filter app requested pr_id].
    rewrite Z.eqb_refl. reflexivity. }
  unfold approve_project_request, bind, ret. simpl. unfold execute. simpl.
  fold requestId. rewrite (count_cons_nonzero _ _ Hnew).
  simpl. unfold execute. simpl.
  rewrite filter_update_where by reflexivity. rewrite Hnew.
  simpl. unfold execute. simpl.
  split; [reflexivity|]. simpl. split; [reflexivity|]. split; [|split].
  - rewrite update_where_app, (update_where_none _ _ _ Hold).
    unfold update_where. cbn [map requested pr_id]. rewrite Z.eqb_refl. reflexivity.
  - rewrite update_where_app. rewrite update_where_none.
    + unfold update_where. cbn [map requested_project uh_id]. rewrite Z.eqb_refl.
      reflexivity.
    + intros h Hh. apply Z.eqb_neq. pose proof (next_id_fresh uh_id _ _ Hh). lia.
  - unfold insert_rows. simpl. rewrite <- app_assoc. reflexivity.
Qed.

(** When a due date the handler has to compute is no date, it answers 500
    before it opens the transaction, whatever the outcomes of the calls
    would be, and nothing is written. *)
Lemma create_project_without_timeline (body : create_project_body) (now : Z)
    (os : list outcome) (s : Store) :
  create_project_timeline body now = None ->
  create_project body now os s = (uncaught, os, s).
Proof. intros H. unfold create_project. rewrite H. reflexivity. Qed.

(** A request for a stage of 100,000,000 days that names no due date is
    answered 500 and creates nothing. *)
Lemma create_project_due_date_out_of_range :
  let body :=
    {| cp_project_name := "N"; cp_project_description := "D";
       cp_status := Some "In Progress"%string; cp_stage := Some design;
       cp_owner_email := "o@acme.sg"; cp_leader_email := None; cp_members := [];
       cp_organization := Some "Acme"%string;
       cp_stage_duration := Some 100000000; cp_stage_start_date := None;
       cp_stage_due_date := None; cp_project_start_date := None;
       cp_project_due_date := None |} in
  create_project (NC := double_column) body noon [] team_store
    = (Json 500 "" None None, [], team_store).
Proof. vm_compute. reflexivity. Qed.

(** X25. Without a leader the administrator's creation stores the project
    and its owner only, whatever members the request lists: with the store
    answering, the owner known and a timeline whose dates are dates, the
    new instance carries that timeline and is its own project, and the one
    membership added is the owner's, without progress status. *)
Theorem create_project_without_leader (body : create_project_body) (now : Z) (s : Store)
    (ownerId : Z) (others : list Z) (timeline : project_timeline) :
  str_falsy (cp_leader_email body) = true ->
  map u_id (filter (fun u => String.eqb (u_email u) (cp_owner_email body)) (users (cur s)))
    = ownerId :: others ->
  create_project_timeline body now = Some timeline ->
  let projectId := next_id uh_id (user_history (cur s)) in
  exists s',
    create_project body now [] s = (Json 200 "" (Some projectId) None, [], s') /\
    snap s' = None /\
    user_history (cur s')
      = user_history (cur s)
        ++ [set_project_id projectId (created_project body timeline ownerId projectId)] /\
    project_members (cur s')
      = project_members (cur s)
        ++ [ {| pm_id := next_id pm_id (project_members (cur s));
                pm_project_id := projectId; pm_user_id := ownerId;
                pm_role := "project_owner"; pm_current_stage := cp_stage body;
                pm_progress_status := None; pm_joined_at := Some now |} ].
Proof.
  intros Hl Ho Ht projectId. unfold create_project. rewrite Ht.
  unfold create_project_with, bind.
  cbn [beginTransaction].
  erewrite queryDatabase_nil by (unfold findUserQuery; cbn [cur]; rewrite Ho; reflexivity).
  cbv beta iota zeta.
  erewrite queryDatabase_nil by reflexivity. cbv beta iota zeta. rewrite Hl.
  assert (Hrest :
    exists s',
      (let '(c, os1, s1) :=
         queryDatabase (adminCreateProjectQuery body timeline ownerId) []
           {| cur := cur s; snap := Some (cur s) |} in
       match c with
       | Err => rollback_with 500 "Failed to create project"
       | Rows projectResult =>
           fun os2 s2 =>
             let '(i, os3, s3) :=
               queryDatabase (updateProjectIdQuery (insertId projectResult)) os2 s2 in
             match i with
             | Err => rollback_with 500 "Failed to update project ID"
             | Rows _ =>
                 fun os4 s4 =>
                   let '(a, os5, s5) :=
                     queryDatabase
                       (adminAddOwnerQuery (insertId projectResult) ownerId
                          (cp_stage body) now) os4 s4 in
                   match a with
                   | Err => rollback_with 500 "Failed to add project owner"
                   | Rows _ =>
                       commit_with (Json 200 "" (Some (insertId projectResult)) None)
                   end os5 s5
             end os3 s3
       end os1 s1) = (Json 200 "" (Some projectId) None, [], s') /\
      snap s' = None /\
      user_history (cur s')
        = user_history (cur s)
          ++ [set_project_id projectId (created_project body timeline ownerId projectId)] /\
      project_members (cur s')
        = project_members (cur s)
          ++ [ {| pm_id := next_id pm_id (project_members (cur s));
                  pm_project_id := projectId; pm_user_id := ownerId;
                  pm_role := "project_owner"; pm_current_stage := cp_stage body;
                  pm_progress_status := None; pm_joined_at := Some now |} ]).
  { erewrite queryDatabase_nil by reflexivity. cbv beta iota zeta.
    cbn [insertId cur]. fold projectId.
    erewrite queryDatabase_nil by reflexivity. cbv beta iota zeta.
    erewrite queryDatabase_nil by reflexivity. cbv beta iota zeta.
    unfold commit_with, bind, ret. cbn [commit].
    eexists. split; [reflexivity|]. cbn [cur snap]. split; [reflexivity|].
    cbn [user_history project_members with_user_history with_project_members].
    split; [|reflexivity].
    rewrite update_where_app. rewrite update_where_none.
    - unfold update_where. cbn [map created_project uh_id]. rewrite Z.eqb_refl.
      reflexivity.
    - intros h Hh. apply Z.eqb_neq. pose proof (next_id_fresh uh_id _ _ Hh).
      unfold projectId. lia. }
  cbn [cur snap].
  destruct (map u_id (filter (fun u => sql_eq_str (cp_leader_email body) (u_email u))
                             (users (cur s)))) as [|leader leaders];
    exact Hrest.
Qed.

End Composition.

Lemma send_invitation_then_accept_witness :
  exists s1 s2,
    send_invitation (NC := double_column) 1 "c@acme.sg" 1 None [] team_store
      = (answer 200 "Invitation sent successfully", [], s1) /\
    respondToInvitation 2 5 (Some "accepted"%string) [] s1
      = (answer 200 "Invitation response recorded successfully", [], s2) /\
    project_members (cur s2)
      = project_members (cur team_store) ++ [invited_member (cur team_store) 1 5].
Proof.
  destruct (@send_invitation_then_accept double_column 1 1 "c@acme.sg" None team_store 5 []
              eq_refl) as [s1 [s2 [H1 [H2 [_ [Hm _]]]]]].
  exists s1, s2. split; [exact H1|]. split; [exact H2|exact Hm].
Defined.

Lemma submit_then_approve_project_request_witness :
  exists s1 s2,
    submit_project_request (NC := double_column) 3 (Some "T"%string) (Some "U"%string)
      two_weeks [] team_store
      = (Json 201 "Project request submitted successfully" (Some 2) None, [], s1) /\
    approve_project_request 2 9 None [] s1
      = (Json 200 "Project request approved and project created successfully"
              (Some 2) None, [], s2).
Proof.
  destruct (@submit_then_approve_project_request double_column 3 9 "T" "U" two_weeks None
              team_store ltac:(discriminate) ltac:(discriminate))
    as [s1 [s2 [H1 [H2 _]]]].
  exists s1, s2. split; [exact H1|exact H2].
Defined.

Lemma create_project_without_leader_witness :
  exists s',
    create_project (NC := double_column) (new_project None ["b@acme.sg"%string]) noon []
      team_store = (Json 200 "" (Some 2) None, [], s') /\
    map pm_user_id (project_members (cur s')) = [1; 2; 3; 1].
Proof.
  destruct (@create_project_without_leader double_column
              (new_project None ["b@acme.sg"%string]) noon team_store 1 []
              {| tl_stage_duration := 14; tl_stage_start_date := 100;
                 tl_stage_due_date := 114; tl_project_start_date := 100;
                 tl_project_due_date := 142 |}
              eq_refl eq_refl eq_refl)
    as [s' [H [_ [_ Hm]]]].
  exists s'. split; [exact H|]. rewrite Hm. reflexivity.
Defined.
